(** * Task management core: a shallow embedding of [class 7/main.py]

    The Python module defines a small class hierarchy of tasks
    ([Task], [SimpleTask], [ProjectTask], [RecurringTask]), a
    [TaskManager] owning a dictionary of tasks together with a history
    log and JSON persistence, and the stateless [TaskFilter] helpers.

    Python objects are dynamically typed: an instance is its class plus
    a dictionary of attributes, each holding an arbitrary value.  The
    embedding keeps that shape (a task is a class tag and a [gmap] from
    attribute names to values) because [TaskManager.update_task] assigns
    arbitrary values to arbitrary existing attributes.  Methods are
    computations in a state-and-exception monad: a raised exception
    keeps whatever mutation happened before it.  What belongs to the
    interpreter and differs between its versions ([str.lower], the
    containment test of an enumeration, the names every object has, the
    text form of dates and numbers) is a parameter of the development. *)

From Stdlib Require Import ZArith Floats String Ascii Bool Lia.
From Stdlib Require Import DecimalString DecimalZ DecimalPos.
From stdpp Require Import gmap strings list fin_maps.

#[local] Set Warnings "-register-all,-clear-no-such-hyp".
#[local] Open Scope string_scope.
#[local] Open Scope Z_scope.

(** ** Enumerations *)

Inductive Priority : Set := LOW | MEDIUM | HIGH | URGENT.

Inductive TaskStatus : Set :=
  NOT_STARTED | IN_PROGRESS | BLOCKED | COMPLETED | CANCELLED.

#[global] Instance Priority_eq_dec : EqDecision Priority.
Proof. solve_decision. Defined.

#[global] Instance TaskStatus_eq_dec : EqDecision TaskStatus.
Proof. solve_decision. Defined.

(** [member.name] *)
Definition Priority_name (p : Priority) : string :=
  match p with
  | LOW => "LOW" | MEDIUM => "MEDIUM" | HIGH => "HIGH" | URGENT => "URGENT"
  end.

Definition TaskStatus_name (s : TaskStatus) : string :=
  match s with
  | NOT_STARTED => "NOT_STARTED"
  | IN_PROGRESS => "IN_PROGRESS"
  | BLOCKED => "BLOCKED"
  | COMPLETED => "COMPLETED"
  | CANCELLED => "CANCELLED"
  end.

(** [Priority[name]] and [TaskStatus[name]]: lookup of a member by name. *)
Definition Priority_of_name (s : string) : option Priority :=
  if String.eqb s "LOW" then Some LOW
  else if String.eqb s "MEDIUM" then Some MEDIUM
  else if String.eqb s "HIGH" then Some HIGH
  else if String.eqb s "URGENT" then Some URGENT
  else None.

Definition TaskStatus_of_name (s : string) : option TaskStatus :=
  if String.eqb s "NOT_STARTED" then Some NOT_STARTED
  else if String.eqb s "IN_PROGRESS" then Some IN_PROGRESS
  else if String.eqb s "BLOCKED" then Some BLOCKED
  else if String.eqb s "COMPLETED" then Some COMPLETED
  else if String.eqb s "CANCELLED" then Some CANCELLED
  else None.

(** ** Time

    A naive [datetime] is a point of the proleptic Gregorian calendar at
    microsecond resolution; it is represented by the number of
    microseconds since [datetime.min] (0001-01-01T00:00:00).  The type is
    bounded: [datetime.max] is 9999-12-31T23:59:59.999999, and adding a
    [timedelta] that leaves the range raises [OverflowError]. *)

Definition datetime : Set := Z.
Definition timedelta : Set := Z.

Definition microseconds_per_day : Z := 86400 * 1000000.

(** Day number of 9999-12-31 ([date.max.toordinal()]). *)
Definition max_ordinal : Z := 3652059.

Definition datetime_min : datetime := 0.
Definition datetime_max : datetime := max_ordinal * microseconds_per_day - 1.

Definition timedelta_days (n : Z) : timedelta := n * microseconds_per_day.
Definition timedelta_weeks (n : Z) : timedelta := timedelta_days (7 * n).

(** ** Values and exceptions *)

Inductive exn : Set :=
  ValueError | TypeError | KeyError | AttributeError | OverflowError.

(** The values that occur in the module.  A dictionary with string keys
    is kept as the list of its items in insertion order; sets are sets of
    strings (tags and dependency identifiers). *)
Inductive value : Type :=
| VNone
| VBool (b : bool)
| VInt (z : Z)
| VFloat (f : float)
| VStr (s : string)
| VList (l : list value)
| VDict (d : list (string * value))
| VSet (s : gset string)
| VDatetime (d : datetime)
| VPriority (p : Priority)
| VStatus (s : TaskStatus).

Inductive outcome (A : Type) : Type :=
| Returns (a : A)
| Raises (e : exn).
Arguments Returns {A} a.
Arguments Raises {A} e.

(** State-and-exception monad. *)
Definition Py (S A : Type) : Type := S -> outcome A * S.

Definition ret {S A} (a : A) : Py S A := fun s => (Returns a, s).
Definition raise {S A} (e : exn) : Py S A := fun s => (Raises e, s).
Definition lift {S A} (o : outcome A) : Py S A := fun s => (o, s).
Definition bind {S A B} (c : Py S A) (k : A -> Py S B) : Py S B :=
  fun s =>
    match c s with
    | (Returns a, s') => k a s'
    | (Raises e, s') => (Raises e, s')
    end.

Declare Scope py_scope.
Delimit Scope py_scope with py.
Notation "x <- c ;; k" := (bind c (fun x => k))
  (at level 100, c at next level, right associativity) : py_scope.
Notation "c ;; k" := (bind c (fun _ => k))
  (at level 100, right associativity) : py_scope.
#[local] Open Scope py_scope.

(** Outcome of a pure expression that may raise. *)
Definition obind {A B} (o : outcome A) (k : A -> outcome B) : outcome B :=
  match o with
  | Returns a => k a
  | Raises e => Raises e
  end.

(** [bool(v)] *)
Definition truthy (v : value) : bool :=
  match v with
  | VNone => false
  | VBool b => b
  | VInt z => negb (z =? 0)
  | VFloat f => negb (PrimFloat.eqb f 0%float)
  | VStr s => negb (String.eqb s "")
  | VList l => match l with [] => false | _ => true end
  | VDict d => match d with [] => false | _ => true end
  | VSet s => negb (bool_decide (s = ∅))
  | VDatetime _ | VPriority _ | VStatus _ => true
  end.

(** [v == "text"] *)
Definition eq_str (v : value) (s : string) : bool :=
  match v with
  | VStr s' => String.eqb s' s
  | _ => false
  end.

(** [v == member] for a member of [TaskStatus]; an enumeration member is
    equal to itself only. *)
Definition eq_status (v : value) (s : TaskStatus) : bool :=
  match v with
  | VStatus s' => bool_decide (s' = s)
  | _ => false
  end.

(** [d + delta] on datetimes. *)
Definition datetime_add (d : datetime) (delta : timedelta) : outcome datetime :=
  if (datetime_min <=? d + delta) && (d + delta <=? datetime_max)
  then Returns (d + delta)
  else Raises OverflowError.

(** [v + delta] where [delta] is a [timedelta]. *)
Definition add_timedelta (v : value) (delta : timedelta) : outcome value :=
  match v with
  | VDatetime d => obind (datetime_add d delta) (fun d' => Returns (VDatetime d'))
  | _ => Raises TypeError
  end.

(** [float(z)] for an integer: correctly rounded, [OverflowError] when the
    integer is too large for a double. *)
Definition float_of_Z (z : Z) : outcome float :=
  let f := SF2Prim (SpecFloat.binary_normalize prec emax z 0 false) in
  if PrimFloat.is_infinity f then Raises OverflowError else Returns f.

(** [v + 1] *)
Definition add_one (v : value) : outcome value :=
  match v with
  | VInt z => Returns (VInt (z + 1))
  | VBool b => Returns (VInt ((if b then 1 else 0) + 1))
  | VFloat f => Returns (VFloat (f + 1)%float)
  | _ => Raises TypeError
  end.

(** [now > v] for a datetime [now]. *)
Definition datetime_gt (now : datetime) (v : value) : outcome bool :=
  match v with
  | VDatetime d => Returns (d <? now)
  | _ => Raises TypeError
  end.

(** ** Dictionaries with string keys *)

Definition dict : Type := list (string * value).

Fixpoint dict_lookup (k : string) (d : dict) : option value :=
  match d with
  | [] => None
  | (k', v) :: d' => if String.eqb k' k then Some v else dict_lookup k d'
  end.

Fixpoint dict_remove (k : string) (d : dict) : dict :=
  match d with
  | [] => []
  | (k', v) :: d' => if String.eqb k' k then d' else (k', v) :: dict_remove k d'
  end.

(** [d[k] = v]: an existing key keeps its position. *)
Fixpoint dict_store (k : string) (v : value) (d : dict) : dict :=
  match d with
  | [] => [(k, v)]
  | (k', v') :: d' =>
      if String.eqb k' k then (k', v) :: d' else (k', v') :: dict_store k v d'
  end.

(** [d.update(e)] *)
Definition dict_update (d e : dict) : dict :=
  fold_left (fun acc kv => dict_store kv.1 kv.2 acc) e d.

(** [json.dump] accepts [None], booleans, numbers, strings, lists and
    dictionaries of such; anything else is a [TypeError]. *)
Fixpoint serializable (v : value) : bool :=
  match v with
  | VNone | VBool _ | VInt _ | VFloat _ | VStr _ => true
  | VList l => forallb serializable l
  | VDict d => forallb (fun kv => match kv with (_, x) => serializable x end) d
  | VSet _ | VDatetime _ | VPriority _ | VStatus _ => false
  end.

(** ** Task objects *)

Inductive TaskClass : Set := SimpleTask | ProjectTask | RecurringTask.

#[global] Instance TaskClass_eq_dec : EqDecision TaskClass.
Proof. solve_decision. Defined.

(** [cls.__name__] *)
Definition class_name (c : TaskClass) : string :=
  match c with
  | SimpleTask => "SimpleTask"
  | ProjectTask => "ProjectTask"
  | RecurringTask => "RecurringTask"
  end.

Record Task : Type := mkTask { cls : TaskClass; attrs : gmap string value }.

(** Names defined by the class and its base: the methods of the source. *)
Definition class_attrs (c : TaskClass) : list string :=
  let base := ["__init__"; "update_status"; "add_tag"; "remove_tag";
               "is_overdue"; "estimate_effort"; "to_dict"; "__str__"] in
  match c with
  | SimpleTask => base
  | ProjectTask => base ++ ["add_dependency"; "remove_dependency"; "set_estimate"]
  | RecurringTask => base ++ ["complete_occurrence"]
  end.

(** [setattr(task, name, v)] as a function on objects. *)
Definition set_attr (name : string) (v : value) (t : Task) : Task :=
  mkTask (cls t) (<[name := v]> (attrs t)).

(** [self.name] *)
Definition getattr (name : string) : Py Task value :=
  fun t =>
    match attrs t !! name with
    | Some v => (Returns v, t)
    | None => (Raises AttributeError, t)
    end.

(** [self.name = v] *)
Definition setattr (name : string) (v : value) : Py Task unit :=
  fun t => (Returns tt, set_attr name v t).

(** *** [Task.__init__] and the constructors of the subclasses

    [uid] is the text of the fresh [uuid.uuid4()] and [now] the reading
    of [datetime.now()]. *)
Definition Task_init (c : TaskClass) (uid : string) (now : datetime)
    (title description priority due_date : value) : Task :=
  mkTask c
    (<["tags" := VSet ∅]>
     (<["completion_date" := VNone]>
     (<["due_date" := due_date]>
     (<["updated_at" := VDatetime now]>
     (<["created_at" := VDatetime now]>
     (<["status" := VStatus NOT_STARTED]>
     (<["priority" := priority]>
     (<["description" := description]>
     (<["title" := title]>
     (<["id" := VStr uid]> ∅)))))))))).

Definition new_SimpleTask (uid : string) (now : datetime)
    (title description priority due_date : value) : Task :=
  Task_init SimpleTask uid now title description priority due_date.

Definition new_ProjectTask (uid : string) (now : datetime)
    (title project description priority due_date : value) : Task :=
  set_attr "estimated_hours" (VFloat 1%float)
    (set_attr "dependencies" (VSet ∅)
      (set_attr "project" project
        (Task_init ProjectTask uid now title description priority due_date))).

Definition new_RecurringTask (uid : string) (now : datetime)
    (title frequency description priority due_date : value) : Task :=
  set_attr "last_completed" VNone
    (set_attr "recurrence_count" (VInt 0)
      (set_attr "frequency" frequency
        (Task_init RecurringTask uid now title description priority due_date))).

(** ** The manager and the file system *)

Record TaskManager : Type :=
  mkTaskManager { tasks : gmap string Task; task_history : value }.

(** [TaskManager.__init__] *)
Definition TaskManager_init : TaskManager := mkTaskManager ∅ (VList []).

(** A file written by [json.dump] holds a JSON document, kept as the
    value it denotes; [Truncated] is what is left of a file when
    [json.dump] fails after [open(filename, 'w')] emptied it. *)
Inductive file : Type :=
| Document (data : value)
| Truncated.

Abbreviation filesystem := (gmap string file).

(** ** The runtime

    What the module takes from the interpreter and its library, and what
    differs between the versions of Python, is a parameter of the
    development: the theorems hold for every runtime. *)

Section Runtime.

#[local] Set Default Proof Using "Type".

(** Forget the runtime in a proof that is not about it. *)
Ltac no_runtime :=
  repeat match goal with
         | f : datetime -> string |- _ => clear f
         | f : string -> option datetime |- _ => clear f
         | f : string -> option float |- _ => clear f
         | f : string -> string |- _ => clear f
         | f : value -> outcome bool |- _ => clear f
         | f : string -> bool |- _ => clear f
         end.

(** [str.lower]: the lower-case form of a text, by the Unicode tables of
    the interpreter. *)
Variable lower : string -> string.

(** [v in TaskStatus] for a [v] that is no member of an enumeration.
    This is the containment test of the enumeration class, which the
    versions of Python decide differently: from 3.8 to 3.11 the test
    raises [TypeError], later versions answer whether [v] is the value of
    a member of [TaskStatus]. *)
Variable contains_value : value -> outcome bool.

(** The names a task has from [object] and [ABC], beyond its own
    attributes and the names its classes define ([__class__], [__dict__],
    [__doc__], [__eq__] and the like): [hasattr] finds them.  Which names
    there are depends on the version of Python. *)
Variable inherited : string -> bool.

(** The text conversions of the Python runtime the module calls:
    [datetime.isoformat], [datetime.fromisoformat] ([None] stands for
    its [ValueError]) and [float] applied to a string. *)
Variable isoformat : datetime -> string.
Variable fromisoformat : string -> option datetime.
Variable parse_float : string -> option float.

(** [v in TaskStatus]: a member of [TaskStatus] is in it, a member of
    another enumeration is not; on any other operand the interpreter
    decides. *)
Definition in_TaskStatus (v : value) : outcome bool :=
  match v with
  | VStatus _ => Returns true
  | VPriority _ => Returns false
  | _ => contains_value v
  end.

(** [hasattr(task, name)]: an attribute of the instance, a name its
    classes define, or a name inherited from [object] and [ABC]. *)
Definition hasattr (t : Task) (name : string) : bool :=
  bool_decide (is_Some (attrs t !! name))
  || bool_decide (name ∈ class_attrs (cls t))
  || inherited name.

(** [setattr(task, name, v)] for a name known at run time only.  Three
    names have a setter of their own on every task: [__class__] accepts
    classes only (no value of the module is one), [__dict__] accepts a
    dictionary, which then holds the attributes of the task, and
    [__weakref__] cannot be written.  Any other name is stored as an
    attribute of the instance. *)
Definition py_setattr (name : string) (v : value) : Py Task unit :=
  fun t =>
    if String.eqb name "__class__" then (Raises TypeError, t)
    else if String.eqb name "__dict__" then
      match v with
      | VDict d => (Returns tt, mkTask (cls t) (list_to_map d))
      | _ => (Raises TypeError, t)
      end
    else if String.eqb name "__weakref__" then (Raises AttributeError, t)
    else (Returns tt, set_attr name v t).

(** *** [Task.update_status] *)
Definition update_status (now : datetime) (status : value) : Py Task unit :=
  found <- lift (in_TaskStatus status) ;;
  if negb found then raise ValueError
  else
    setattr "status" status ;;
    setattr "updated_at" (VDatetime now) ;;
    if eq_status status COMPLETED
    then (u <- getattr "updated_at" ;; setattr "completion_date" u)
    else ret tt.


(** [tag.lower()] for an argument that must be a string. *)
Definition str_lower (v : value) : outcome string :=
  match v with
  | VStr s => Returns (lower s)
  | _ => Raises AttributeError
  end.

(** [x in container] for a string [x]. *)
Definition contains (container : value) (x : string) : outcome bool :=
  match container with
  | VSet s => Returns (bool_decide (x ∈ s))
  | VList l => Returns (existsb (fun v => eq_str v x) l)
  | VDict d => Returns (bool_decide (is_Some (dict_lookup x d)))
  | VStr s => Returns (bool_decide (is_Some (String.index 0 x s)))
  | _ => Raises TypeError
  end.

(** *** [Task.add_tag] *)
Definition add_tag (now : datetime) (tag : value) : Py Task unit :=
  tags <- getattr "tags" ;;
  l <- lift (str_lower tag) ;;
  match tags with
  | VSet s => setattr "tags" (VSet ({[ l ]} ∪ s))
  | _ => raise AttributeError
  end ;;
  setattr "updated_at" (VDatetime now).

(** *** [Task.is_overdue] *)
Definition is_overdue (now : datetime) : Py Task bool :=
  due <- getattr "due_date" ;;
  if truthy due then
    status <- getattr "status" ;;
    if negb (eq_status status COMPLETED)
    then lift (datetime_gt now due)
    else ret false
  else ret false.

(** [task.name] read from outside the object. *)
Definition attr_of (t : Task) (name : string) : outcome value :=
  match attrs t !! name with
  | Some v => Returns v
  | None => Raises AttributeError
  end.

(** [member.name] of an enumeration member. *)
Definition enum_name (v : value) : outcome value :=
  match v with
  | VPriority p => Returns (VStr (Priority_name p))
  | VStatus s => Returns (VStr (TaskStatus_name s))
  | _ => Raises AttributeError
  end.

(** The characters of a string, each as a string of length one. *)
Fixpoint chars (s : string) : list value :=
  match s with
  | EmptyString => []
  | String c s' => VStr (String c EmptyString) :: chars s'
  end.

(** The items a [for] loop or [list(v)] draws from [v]; a set is
    enumerated in the arbitrary order of [elements]. *)
Definition iterate (v : value) : outcome (list value) :=
  match v with
  | VList l => Returns l
  | VSet s => Returns (VStr <$> elements s)
  | VDict d => Returns ((fun kv => VStr kv.1) <$> d)
  | VStr s => Returns (chars s)
  | _ => Raises TypeError
  end.

(** [list(v)] *)
Definition py_list (v : value) : outcome value :=
  obind (iterate v) (fun l => Returns (VList l)).

(** The strings of a list of values, when all of them are strings. *)
Fixpoint strings_of (l : list value) : option (list string) :=
  match l with
  | [] => Some []
  | VStr s :: l' => option_map (cons s) (strings_of l')
  | _ :: _ => None
  end.

(** [set(v)] of texts.  The embedding has sets of texts only (tags and
    identifiers): an element that cannot be hashed is the [TypeError] of
    Python; an element that is hashable but no text (a number, [None])
    is outside the embedding, which answers [TypeError] there as well,
    and no statement below rests on that answer. *)
Definition py_set (v : value) : outcome value :=
  obind (iterate v) (fun l =>
    match strings_of l with
    | Some ss => Returns (VSet (list_to_set ss))
    | None => Raises TypeError
    end).

(** The key under which [self.tasks[task.id]] files a task.  Identifiers
    are strings; lists, dictionaries and sets are unhashable, and other
    keys are outside the model (reported as [TypeError] too). *)
Definition task_key (t : Task) : outcome string :=
  obind (attr_of t "id") (fun v =>
    match v with
    | VStr s => Returns s
    | _ => Raises TypeError
    end).

Definition store_task (key : string) (t : Task) : Py TaskManager unit :=
  fun m => (Returns tt, mkTaskManager (<[key := t]> (tasks m)) (task_history m)).

Definition set_tasks (ts : gmap string Task) : Py TaskManager unit :=
  fun m => (Returns tt, mkTaskManager ts (task_history m)).

Definition set_history (h : value) : Py TaskManager unit :=
  fun m => (Returns tt, mkTaskManager (tasks m) h).

(** [self.task_history.append]: the log must be a list. *)
Definition history_list : Py TaskManager (list value) :=
  fun m =>
    match task_history m with
    | VList h => (Returns h, m)
    | _ => (Raises AttributeError, m)
    end.

(** Accessors of a dictionary held in the state ([task_data] of
    [load_from_file]). *)
Definition dict_pop (k : string) : Py dict value :=
  fun d =>
    match dict_lookup k d with
    | Some v => (Returns v, dict_remove k d)
    | None => (Raises KeyError, d)
    end.

Definition dict_pop_default (k : string) (dflt : value) : Py dict value :=
  fun d =>
    match dict_lookup k d with
    | Some v => (Returns v, dict_remove k d)
    | None => (Returns dflt, d)
    end.

Definition dict_get (k : string) : Py dict value :=
  fun d => (Returns (default VNone (dict_lookup k d)), d).

Definition dict_has (k : string) : Py dict bool :=
  fun d => (Returns (bool_decide (is_Some (dict_lookup k d))), d).

Definition dict_getitem (k : string) : Py dict value :=
  fun d =>
    match dict_lookup k d with
    | Some v => (Returns v, d)
    | None => (Raises KeyError, d)
    end.

Definition dict_setitem (k : string) (v : value) : Py dict unit :=
  fun d => (Returns tt, dict_store k v d).

(** [data.get(k, dflt)] on a value that must be a dictionary. *)
Definition py_get (data : value) (k : string) (dflt : value) : outcome value :=
  match data with
  | VDict d => Returns (default dflt (dict_lookup k d))
  | _ => Raises AttributeError
  end.

(** [Priority[v]] and [TaskStatus[v]]: the member of that name.  A key
    that is no name of a member is a [KeyError], a key that cannot be
    hashed (a list, a dictionary, a set) a [TypeError]. *)
Definition Priority_getitem (v : value) : outcome value :=
  match v with
  | VStr s =>
      match Priority_of_name s with
      | Some p => Returns (VPriority p)
      | None => Raises KeyError
      end
  | VList _ | VDict _ | VSet _ => Raises TypeError
  | _ => Raises KeyError
  end.

Definition TaskStatus_getitem (v : value) : outcome value :=
  match v with
  | VStr s =>
      match TaskStatus_of_name s with
      | Some p => Returns (VStatus p)
      | None => Raises KeyError
      end
  | VList _ | VDict _ | VSet _ => Raises TypeError
  | _ => Raises KeyError
  end.

(** Sequencing a computation over a list ([for x in l: body x]). *)
Fixpoint for_each {S A} (body : A -> Py S unit) (l : list A) : Py S unit :=
  match l with
  | [] => ret tt
  | x :: l' => body x ;; for_each body l'
  end.

(** [float(v)] *)
Definition py_float (v : value) : outcome float :=
  match v with
  | VFloat f => Returns f
  | VInt z => float_of_Z z
  | VBool b => Returns (if b then 1%float else 0%float)
  | VStr s =>
      match parse_float s with
      | Some f => Returns f
      | None => Raises ValueError
      end
  | _ => Raises TypeError
  end.

(** [v.isoformat()] *)
Definition py_isoformat (v : value) : outcome value :=
  match v with
  | VDatetime d => Returns (VStr (isoformat d))
  | _ => Raises AttributeError
  end.

(** [v.isoformat() if v else None] *)
Definition isoformat_or_none (v : value) : outcome value :=
  if truthy v then py_isoformat v else Returns VNone.

(** [datetime.fromisoformat(v)] *)
Definition py_fromisoformat (v : value) : outcome value :=
  match v with
  | VStr s =>
      match fromisoformat s with
      | Some d => Returns (VDatetime d)
      | None => Raises ValueError
      end
  | _ => Raises TypeError
  end.

(** *** [ProjectTask.set_estimate] *)
Definition set_estimate (now : datetime) (hours : value) : Py Task unit :=
  h <- lift (py_float hours) ;;
  setattr "estimated_hours" (VFloat h) ;;
  setattr "updated_at" (VDatetime now).

(** *** [RecurringTask.complete_occurrence]

    [now1] and [now2] are the two readings of the clock. *)
Definition advance_due_date (days : Z) : Py Task unit :=
  due <- getattr "due_date" ;;
  due' <- lift (add_timedelta due (timedelta_days days)) ;;
  setattr "due_date" due'.

Definition frequency_is (s : string) : Py Task bool :=
  f <- getattr "frequency" ;; ret (eq_str f s).

Definition complete_occurrence (now1 now2 : datetime) : Py Task unit :=
  setattr "last_completed" (VDatetime now1) ;;
  (n <- getattr "recurrence_count" ;;
   n' <- lift (add_one n) ;;
   setattr "recurrence_count" n') ;;
  setattr "status" (VStatus NOT_STARTED) ;;
  (due <- getattr "due_date" ;;
   if truthy due then
     daily <- frequency_is "daily" ;;
     if daily then advance_due_date 1
     else
       weekly <- frequency_is "weekly" ;;
       if weekly then
         due <- getattr "due_date" ;;
         due' <- lift (add_timedelta due (timedelta_weeks 1)) ;;
         setattr "due_date" due'
       else
         monthly <- frequency_is "monthly" ;;
         if monthly then advance_due_date 30
         else
           yearly <- frequency_is "yearly" ;;
           if yearly then advance_due_date 365 else ret tt
   else ret tt) ;;
  setattr "updated_at" (VDatetime now2).

(** *** [to_dict] *)
Definition get_class : Py Task TaskClass := fun t => (Returns (cls t), t).

Definition Task_to_dict : Py Task dict :=
  id <- getattr "id" ;;
  title <- getattr "title" ;;
  description <- getattr "description" ;;
  priority <- getattr "priority" ;;
  priority_name <- lift (enum_name priority) ;;
  status <- getattr "status" ;;
  status_name <- lift (enum_name status) ;;
  created_at <- getattr "created_at" ;;
  created_iso <- lift (py_isoformat created_at) ;;
  updated_at <- getattr "updated_at" ;;
  updated_iso <- lift (py_isoformat updated_at) ;;
  due_date <- getattr "due_date" ;;
  due_iso <- lift (isoformat_or_none due_date) ;;
  completion_date <- getattr "completion_date" ;;
  completion_iso <- lift (isoformat_or_none completion_date) ;;
  tags <- getattr "tags" ;;
  tag_list <- lift (py_list tags) ;;
  c <- get_class ;;
  ret [("id", id); ("title", title); ("description", description);
       ("priority", priority_name); ("status", status_name);
       ("created_at", created_iso); ("updated_at", updated_iso);
       ("due_date", due_iso); ("completion_date", completion_iso);
       ("tags", tag_list); ("type", VStr (class_name c))].

Definition ProjectTask_to_dict : Py Task dict :=
  data <- Task_to_dict ;;
  project <- getattr "project" ;;
  dependencies <- getattr "dependencies" ;;
  dependency_list <- lift (py_list dependencies) ;;
  estimated_hours <- getattr "estimated_hours" ;;
  ret (dict_update data
         [("project", project); ("dependencies", dependency_list);
          ("estimated_hours", estimated_hours)]).

Definition RecurringTask_to_dict : Py Task dict :=
  data <- Task_to_dict ;;
  frequency <- getattr "frequency" ;;
  recurrence_count <- getattr "recurrence_count" ;;
  last_completed <- getattr "last_completed" ;;
  last_iso <- lift (isoformat_or_none last_completed) ;;
  ret (dict_update data
         [("frequency", frequency); ("recurrence_count", recurrence_count);
          ("last_completed", last_iso)]).

(** Dynamic dispatch on the class of the object. *)
Definition to_dict : Py Task dict :=
  c <- get_class ;;
  match c with
  | SimpleTask => Task_to_dict
  | ProjectTask => ProjectTask_to_dict
  | RecurringTask => RecurringTask_to_dict
  end.

(** *** [TaskManager._record_history] *)
Definition _record_history (now : datetime) (action : string) (task : Task)
    : Py TaskManager unit :=
  h <- history_list ;;
  task_id <- lift (attr_of task "id") ;;
  task_title <- lift (attr_of task "title") ;;
  set_history
    (VList (h ++ [VDict [("action", VStr action); ("task_id", task_id);
                         ("task_title", task_title);
                         ("timestamp", VStr (isoformat now))]])).

(** *** [TaskManager.add_task] *)
Definition add_task (now : datetime) (task : Task) : Py TaskManager Task :=
  key <- lift (task_key task) ;;
  store_task key task ;;
  _record_history now "add" task ;;
  ret task.

(** *** [TaskManager.get_task]: [None] when the identifier is unknown. *)
Definition get_task (task_id : string) : Py TaskManager (option Task) :=
  fun m => (Returns (tasks m !! task_id), m).

(** *** [TaskManager.update_task]

    [kwargs] holds the keyword arguments in the order of the call.  A
    keyword named like a parameter of the method ([self], [task_id])
    makes the call itself a [TypeError].  The loop assigns one keyword
    after the other and stops at the first assignment that raises.  The
    task is the object held in the manager's dictionary, so what the
    loop did to it before an exception stays: the mutated object is
    stored back under the same key. *)
Definition patch_attr (name : string) (v : value) : Py Task unit :=
  fun t => if hasattr t name then py_setattr name v t else (Returns tt, t).

Fixpoint patch_attrs (kwargs : list (string * value)) : Py Task unit :=
  match kwargs with
  | [] => ret tt
  | (name, v) :: kwargs' => patch_attr name v ;; patch_attrs kwargs'
  end.

Definition binds_parameter (kwargs : list (string * value)) : bool :=
  existsb (fun kv => String.eqb kv.1 "self" || String.eqb kv.1 "task_id") kwargs.

Definition update_task (now1 now2 : datetime) (task_id : string)
    (kwargs : list (string * value)) : Py TaskManager bool :=
  if binds_parameter kwargs then raise TypeError
  else
    found <- get_task task_id ;;
    match found with
    | None => ret false
    | Some task =>
        let run := (patch_attrs kwargs ;; setattr "updated_at" (VDatetime now1)) task in
        store_task task_id run.2 ;;
        lift run.1 ;;
        _record_history now2 "update" run.2 ;;
        ret true
    end.

(** *** [TaskManager.delete_task] *)
Definition delete_task (now : datetime) (task_id : string) : Py TaskManager bool :=
  found <- get_task task_id ;;
  match found with
  | Some task =>
      (fun m => (Returns tt, mkTaskManager (delete task_id (tasks m)) (task_history m))) ;;
      _record_history now "delete" task ;;
      ret true
  | None => ret false
  end.

(** *** [TaskManager.save_to_file]

    The manager is only read; the state is the file system. *)
Fixpoint to_dict_all (ts : list Task) : outcome (list value) :=
  match ts with
  | [] => Returns []
  | t :: ts' =>
      obind (to_dict t).1 (fun d =>
      obind (to_dict_all ts') (fun ds => Returns (VDict d :: ds)))
  end.

(** [self.tasks.values()] *)
Definition task_values (m : TaskManager) : list Task := (map_to_list (tasks m)).*2.

Definition save_to_file (filename : string) (m : TaskManager) : Py filesystem unit :=
  ds <- lift (to_dict_all (task_values m)) ;;
  let data := VDict [("tasks", VList ds); ("history", task_history m)] in
  if serializable data
  then (fun fs => (Returns tt, <[filename := Document data]> fs))
  else (fun fs => (Raises TypeError, <[filename := Truncated]> fs)).

(** *** [TaskManager.load_from_file] *)

(** The body of the loop over the date fields. *)
Definition convert_date (date_field : string) : Py dict unit :=
  v <- dict_get date_field ;;
  if truthy v then
    v <- dict_getitem date_field ;;
    d <- lift (py_fromisoformat v) ;;
    dict_setitem date_field d
  else ret tt.

Definition convert_priority : Py dict unit :=
  present <- dict_has "priority" ;;
  if present then
    v <- dict_getitem "priority" ;;
    p <- lift (Priority_getitem v) ;;
    dict_setitem "priority" p
  else ret tt.

Definition convert_status : Py dict unit :=
  present <- dict_has "status" ;;
  if present then
    v <- dict_getitem "status" ;;
    s <- lift (TaskStatus_getitem v) ;;
    dict_setitem "status" s
  else ret tt.

(** "Set common properties" *)
Definition set_common_properties (task : Task) : Py dict Task :=
  id <- dict_pop "id" ;;
  let task := set_attr "id" id task in
  status <- dict_pop "status" ;;
  let task := set_attr "status" status task in
  created_at <- dict_pop "created_at" ;;
  let task := set_attr "created_at" created_at task in
  updated_at <- dict_pop "updated_at" ;;
  let task := set_attr "updated_at" updated_at task in
  completion_date <- dict_pop_default "completion_date" VNone ;;
  let task := set_attr "completion_date" completion_date task in
  tags <- dict_pop_default "tags" (VList []) ;;
  tag_set <- lift (py_set tags) ;;
  ret (set_attr "tags" tag_set task).

(** One round of the loop on the dictionary [task_data]; [None] is the
    [continue] taken for an unknown task type.  [uid] and [now] are the
    identifier and the clock reading the constructor draws. *)
Definition load_task (uid : string) (now : datetime) : Py dict (option Task) :=
  task_type <- dict_pop "type" ;;
  for_each convert_date
    ["created_at"; "updated_at"; "due_date"; "completion_date"; "last_completed"] ;;
  convert_priority ;;
  convert_status ;;
  if eq_str task_type "SimpleTask" then
    title <- dict_pop "title" ;;
    description <- dict_pop "description" ;;
    priority <- dict_pop "priority" ;;
    due_date <- dict_pop_default "due_date" VNone ;;
    let task := new_SimpleTask uid now title description priority due_date in
    task <- set_common_properties task ;;
    ret (Some task)
  else if eq_str task_type "ProjectTask" then
    title <- dict_pop "title" ;;
    project <- dict_pop "project" ;;
    description <- dict_pop "description" ;;
    priority <- dict_pop "priority" ;;
    due_date <- dict_pop_default "due_date" VNone ;;
    let task := new_ProjectTask uid now title project description priority due_date in
    dependencies <- dict_pop_default "dependencies" (VList []) ;;
    dependency_set <- lift (py_set dependencies) ;;
    let task := set_attr "dependencies" dependency_set task in
    estimated_hours <- dict_pop_default "estimated_hours" (VFloat 1%float) ;;
    let task := set_attr "estimated_hours" estimated_hours task in
    task <- set_common_properties task ;;
    ret (Some task)
  else if eq_str task_type "RecurringTask" then
    title <- dict_pop "title" ;;
    frequency <- dict_pop "frequency" ;;
    description <- dict_pop "description" ;;
    priority <- dict_pop "priority" ;;
    due_date <- dict_pop_default "due_date" VNone ;;
    let task := new_RecurringTask uid now title frequency description priority due_date in
    recurrence_count <- dict_pop_default "recurrence_count" (VInt 0) ;;
    let task := set_attr "recurrence_count" recurrence_count task in
    last_completed <- dict_pop_default "last_completed" VNone ;;
    let task := set_attr "last_completed" last_completed task in
    task <- set_common_properties task ;;
    ret (Some task)
  else ret None.

(** [task_data] must be a dictionary for [task_data.pop("type")]. *)
Definition load_entry (uid : string) (now : datetime) (task_data : value)
    : outcome (option Task) :=
  match task_data with
  | VDict d => (load_task uid now d).1
  | VList _ => Raises TypeError
  | _ => Raises AttributeError
  end.

Fixpoint load_tasks (uid : string) (now : datetime) (l : list value)
    : Py TaskManager unit :=
  match l with
  | [] => ret tt
  | task_data :: l' =>
      loaded <- lift (load_entry uid now task_data) ;;
      match loaded with
      | Some task => key <- lift (task_key task) ;; store_task key task
      | None => ret tt
      end ;;
      load_tasks uid now l'
  end.

Definition load_from_file (uid : string) (now : datetime) (filename : string)
    (fs : filesystem) : Py TaskManager bool :=
  match fs !! filename with
  | None => ret false
  | Some Truncated => raise ValueError
  | Some (Document data) =>
      set_tasks ∅ ;;
      h <- lift (py_get data "history" (VList [])) ;;
      set_history h ;;
      ts <- lift (py_get data "tasks" (VList [])) ;;
      l <- lift (iterate ts) ;;
      load_tasks uid now l ;;
      ret true
  end.

(** *** [TaskFilter.filter_by_multiple_tags] *)

(** [all(tag.lower() in task.tags for tag in tags)]: stops at the first
    tag that is missing. *)
Fixpoint has_all_tags (task : Task) (tags : list value) : outcome bool :=
  match tags with
  | [] => Returns true
  | tag :: tags' =>
      obind (str_lower tag) (fun l =>
      obind (attr_of task "tags") (fun task_tags =>
      obind (contains task_tags l) (fun found =>
      if found then has_all_tags task tags' else Returns false)))
  end.

Fixpoint filter_by_multiple_tags (tasks : list Task) (tags : list value)
    : outcome (list Task) :=
  match tasks with
  | [] => Returns []
  | task :: tasks' =>
      obind (has_all_tags task tags) (fun keep =>
      obind (filter_by_multiple_tags tasks' tags) (fun rest =>
      Returns (if keep then task :: rest else rest)))
  end.

(** ** The remaining methods of the tasks, the manager and the filter *)

Definition eq_priority (v : value) (p : Priority) : bool :=
  match v with
  | VPriority p' => bool_decide (p' = p)
  | _ => false
  end.

(** [l.remove(x)] on a list: the first item equal to the string goes. *)
Fixpoint list_remove (x : string) (l : list value) : list value :=
  match l with
  | [] => []
  | v :: l' => if eq_str v x then l' else v :: list_remove x l'
  end.

(** *** [Task.remove_tag] *)
Definition remove_tag (now : datetime) (tag : value) : Py Task unit :=
  l <- lift (str_lower tag) ;;
  tags <- getattr "tags" ;;
  found <- lift (contains tags l) ;;
  if found then
    tags <- getattr "tags" ;;
    l <- lift (str_lower tag) ;;
    match tags with
    | VSet s => setattr "tags" (VSet (s ∖ {[ l ]}))
    | VList items => setattr "tags" (VList (list_remove l items))
    | _ => raise AttributeError
    end ;;
    setattr "updated_at" (VDatetime now)
  else ret tt.

(** *** [ProjectTask.add_dependency] and [ProjectTask.remove_dependency]

    [other] is the task passed in; only its identifier is read. *)
Definition add_dependency (now : datetime) (other : Task) : Py Task unit :=
  dependencies <- getattr "dependencies" ;;
  match dependencies with
  | VSet s =>
      other_id <- lift (task_key other) ;;
      setattr "dependencies" (VSet ({[ other_id ]} ∪ s))
  | _ => raise AttributeError
  end ;;
  setattr "updated_at" (VDatetime now).

Definition remove_dependency (now : datetime) (other : Task) : Py Task unit :=
  other_id <- lift (task_key other) ;;
  dependencies <- getattr "dependencies" ;;
  found <- lift (contains dependencies other_id) ;;
  if found then
    dependencies <- getattr "dependencies" ;;
    other_id <- lift (task_key other) ;;
    match dependencies with
    | VSet s => setattr "dependencies" (VSet (s ∖ {[ other_id ]}))
    | VList items => setattr "dependencies" (VList (list_remove other_id items))
    | _ => raise AttributeError
    end ;;
    setattr "updated_at" (VDatetime now)
  else ret tt.

(** *** [estimate_effort] *)

(** An integer of the source as a float; the integers the source
    compares and multiplies with are small, a float holds them exactly. *)
Definition small_float (n : Z) : float :=
  SF2Prim (SpecFloat.binary_normalize prec emax n 0 false).

(** [v < n] and [v <= n] for an integer [n]. *)
Definition number_lt (v : value) (n : Z) : outcome bool :=
  match v with
  | VInt z => Returns (z <? n)
  | VBool b => Returns ((if b then 1 else 0) <? n)
  | VFloat f => Returns (PrimFloat.ltb f (small_float n))
  | _ => Raises TypeError
  end.

Definition number_le (v : value) (n : Z) : outcome bool :=
  match v with
  | VInt z => Returns (z <=? n)
  | VBool b => Returns ((if b then 1 else 0) <=? n)
  | VFloat f => Returns (PrimFloat.leb f (small_float n))
  | _ => Raises TypeError
  end.

(** [a * n] for a number [a] and an integer [n]. *)
Definition number_mul (a : value) (n : Z) : outcome value :=
  match a with
  | VInt z => Returns (VInt (z * n))
  | VBool b => Returns (VInt ((if b then 1 else 0) * n))
  | VFloat f => Returns (VFloat (f * small_float n)%float)
  | _ => Raises TypeError
  end.

(** [effort_map[self.priority]] of [SimpleTask.estimate_effort]. *)
Definition SimpleTask_estimate_effort : Py Task string :=
  priority <- getattr "priority" ;;
  match priority with
  | VPriority LOW => ret "Low"
  | VPriority MEDIUM => ret "Medium"
  | VPriority HIGH => ret "High"
  | VPriority URGENT => ret "Very High"
  | VList _ | VDict _ | VSet _ => raise TypeError
  | _ => raise KeyError
  end.

Definition ProjectTask_estimate_effort : Py Task string :=
  hours <- getattr "estimated_hours" ;;
  small <- lift (number_lt hours 2) ;;
  if small then ret "Small"
  else
    hours <- getattr "estimated_hours" ;;
    medium <- lift (number_lt hours 8) ;;
    if medium then ret "Medium" else ret "Large".

(** [frequency_factor.get(v, 1)] *)
Definition frequency_factor (v : value) : outcome value :=
  match v with
  | VList _ | VDict _ | VSet _ => Raises TypeError
  | _ =>
      if eq_str v "daily" then Returns (VInt 3)
      else if eq_str v "weekly" then Returns (VInt 2)
      else if eq_str v "monthly" then Returns (VFloat 1.5%float)
      else if eq_str v "yearly" then Returns (VInt 1)
      else Returns (VInt 1)
  end.

(** [priority_factor[v]] *)
Definition priority_factor (v : value) : outcome Z :=
  match v with
  | VPriority LOW => Returns 1
  | VPriority MEDIUM => Returns 2
  | VPriority HIGH => Returns 3
  | VPriority URGENT => Returns 4
  | VList _ | VDict _ | VSet _ => Raises TypeError
  | _ => Raises KeyError
  end.

Definition RecurringTask_estimate_effort : Py Task string :=
  frequency <- getattr "frequency" ;;
  by_frequency <- lift (frequency_factor frequency) ;;
  priority <- getattr "priority" ;;
  by_priority <- lift (priority_factor priority) ;;
  factor <- lift (number_mul by_frequency by_priority) ;;
  minimal <- lift (number_le factor 2) ;;
  if minimal then ret "Minimal"
  else
    moderate <- lift (number_le factor 4) ;;
    if moderate then ret "Moderate"
    else
      substantial <- lift (number_le factor 8) ;;
      if substantial then ret "Substantial" else ret "Intensive".

(** Dynamic dispatch on the class of the object. *)
Definition estimate_effort : Py Task string :=
  fun t =>
    match cls t with
    | SimpleTask => SimpleTask_estimate_effort t
    | ProjectTask => ProjectTask_estimate_effort t
    | RecurringTask => RecurringTask_estimate_effort t
    end.

(** *** The queries of the manager and the other filters

    A list comprehension [[task for task in tasks if cond(task)]]; the
    first condition that raises ends it. *)
Fixpoint comprehension (cond : Task -> outcome bool) (ts : list Task)
    : outcome (list Task) :=
  match ts with
  | [] => Returns []
  | task :: ts' =>
      obind (cond task) (fun keep =>
      obind (comprehension cond ts') (fun rest =>
      Returns (if keep then task :: rest else rest)))
  end.

(** [TaskManager.get_tasks_by_status], for a member of [TaskStatus]. *)
Definition get_tasks_by_status (status : TaskStatus) (m : TaskManager)
    : outcome (list Task) :=
  comprehension
    (fun task => obind (attr_of task "status") (fun s => Returns (eq_status s status)))
    ((map_to_list (tasks m)).*2).

(** [TaskManager.get_tasks_by_priority], for a member of [Priority]. *)
Definition get_tasks_by_priority (priority : Priority) (m : TaskManager)
    : outcome (list Task) :=
  comprehension
    (fun task => obind (attr_of task "priority") (fun p => Returns (eq_priority p priority)))
    ((map_to_list (tasks m)).*2).

(** [TaskManager.get_tasks_by_tag] *)
Definition get_tasks_by_tag (tag : value) (m : TaskManager) : outcome (list Task) :=
  comprehension
    (fun task =>
       obind (str_lower tag) (fun l =>
       obind (attr_of task "tags") (fun task_tags => contains task_tags l)))
    ((map_to_list (tasks m)).*2).



(** [start_date <= v <= end_date] for datetimes [start_date] and
    [end_date]: the second comparison is made only when the first holds. *)
Definition datetime_between (start_date end_date : datetime) (v : value)
    : outcome bool :=
  match v with
  | VDatetime d => Returns ((start_date <=? d) && (d <=? end_date))
  | _ => Raises TypeError
  end.

(** [TaskFilter.filter_by_date_range] *)
Definition filter_by_date_range (ts : list Task) (start_date end_date : datetime)
    : outcome (list Task) :=
  comprehension
    (fun task =>
       obind (attr_of task "due_date") (fun due =>
       if truthy due then
         obind (attr_of task "due_date") (datetime_between start_date end_date)
       else Returns false))
    ts.

(** [TaskFilter.filter_by_effort] *)
Definition filter_by_effort (ts : list Task) (effort_level : value)
    : outcome (list Task) :=
  comprehension
    (fun task =>
       obind (estimate_effort task).1 (fun label => Returns (eq_str effort_level label)))
    ts.

(** ** The data model and the vocabulary of the properties *)

(** The data model of a task: every attribute with the type the
    constructors and methods of the source give it. *)
Inductive Variant : Type :=
| Simple
| Project (project : string) (dependencies : gset string) (estimated_hours : float)
| Recurring (frequency : string) (recurrence_count : Z)
    (last_completed : option datetime).

Record TaskData : Type := mkTaskData {
  d_id : string;
  d_title : string;
  d_description : option string;
  d_priority : Priority;
  d_status : TaskStatus;
  d_created_at : datetime;
  d_updated_at : datetime;
  d_due_date : option datetime;
  d_completion_date : option datetime;
  d_tags : gset string;
  d_variant : Variant
}.

Definition opt_str (o : option string) : value :=
  match o with Some s => VStr s | None => VNone end.

Definition opt_datetime (o : option datetime) : value :=
  match o with Some d => VDatetime d | None => VNone end.

Definition variant_class (v : Variant) : TaskClass :=
  match v with
  | Simple => SimpleTask
  | Project _ _ _ => ProjectTask
  | Recurring _ _ _ => RecurringTask
  end.

(** The object that holds the data. *)
Definition task_object (d : TaskData) : Task :=
  let base :=
    set_attr "tags" (VSet (d_tags d))
      (set_attr "completion_date" (opt_datetime (d_completion_date d))
      (set_attr "due_date" (opt_datetime (d_due_date d))
      (set_attr "updated_at" (VDatetime (d_updated_at d))
      (set_attr "created_at" (VDatetime (d_created_at d))
      (set_attr "status" (VStatus (d_status d))
      (set_attr "priority" (VPriority (d_priority d))
      (set_attr "description" (opt_str (d_description d))
      (set_attr "title" (VStr (d_title d))
      (set_attr "id" (VStr (d_id d))
         (mkTask (variant_class (d_variant d)) ∅)))))))))) in
  match d_variant d with
  | Simple => base
  | Project project dependencies estimated_hours =>
      set_attr "estimated_hours" (VFloat estimated_hours)
        (set_attr "dependencies" (VSet dependencies)
          (set_attr "project" (VStr project) base))
  | Recurring frequency recurrence_count last_completed =>
      set_attr "last_completed" (opt_datetime last_completed)
        (set_attr "recurrence_count" (VInt recurrence_count)
          (set_attr "frequency" (VStr frequency) base))
  end.

(** What [isoformat_or_none] writes for an optional datetime. *)
Definition opt_iso (o : option datetime) : value :=
  match o with Some d => VStr (isoformat d) | None => VNone end.

Definition tag_list (s : gset string) : value := VList (VStr <$> elements s).

(** The JSON object [to_dict] builds from the data. *)
Definition task_json (d : TaskData) : dict :=
  let base :=
    [("id", VStr (d_id d)); ("title", VStr (d_title d));
     ("description", opt_str (d_description d));
     ("priority", VStr (Priority_name (d_priority d)));
     ("status", VStr (TaskStatus_name (d_status d)));
     ("created_at", VStr (isoformat (d_created_at d)));
     ("updated_at", VStr (isoformat (d_updated_at d)));
     ("due_date", opt_iso (d_due_date d));
     ("completion_date", opt_iso (d_completion_date d));
     ("tags", tag_list (d_tags d));
     ("type", VStr (class_name (variant_class (d_variant d))))] in
  match d_variant d with
  | Simple => base
  | Project project dependencies estimated_hours =>
      (base ++ [("project", VStr project); ("dependencies", tag_list dependencies);
                ("estimated_hours", VFloat estimated_hours)])%list
  | Recurring frequency recurrence_count last_completed =>
      (base ++ [("frequency", VStr frequency);
                ("recurrence_count", VInt recurrence_count);
                ("last_completed", opt_iso last_completed)])%list
  end.

(** One of the five members of [TaskStatus]. *)
Definition recognized (v : value) : Prop := exists s : TaskStatus, v = VStatus s.

(** The number of days the due date of a recurring task moves by, after
    the frequency: the four recognized texts, and nothing otherwise. *)
Definition offset_days (frequency : value) : Z :=
  if eq_str frequency "daily" then 1
  else if eq_str frequency "weekly" then 7
  else if eq_str frequency "monthly" then 30
  else if eq_str frequency "yearly" then 365
  else 0.

(** The record [_record_history] appends. *)
Definition history_entry (action : string) (task_id task_title : value)
    (now : datetime) : value :=
  VDict [("action", VStr action); ("task_id", task_id);
         ("task_title", task_title); ("timestamp", VStr (isoformat now))].

(** The names with a setter of their own on every task. *)
Definition descriptors : list string := ["__class__"; "__dict__"; "__weakref__"].

(** The task [update_task] leaves under [task_id]. *)
Definition patched (now1 : datetime) (kwargs : list (string * value)) (t : Task) : Task :=
  ((patch_attrs kwargs ;; setattr "updated_at" (VDatetime now1)) t).2.

(** The tag set of a task whose [tags] attribute is a set. *)
Definition tags_of (t : Task) : gset string :=
  match attrs t !! "tags" with
  | Some (VSet s) => s
  | _ => ∅
  end.

(** The lower-cased query tags, as a set. *)
Definition query_set (query : list string) : gset string :=
  list_to_set (lower <$> query).

(** A task of the data model, filed under its own identifier. *)
Definition filed (kv : string * Task) : Prop :=
  exists d, kv.2 = task_object d /\ d_id d = kv.1.

(** The JSON object written for a task. *)
Definition json_of (t : Task) : value :=
  match (to_dict t).1 with
  | Returns d => VDict d
  | Raises _ => VNone
  end.

(** The labels [estimate_effort] gives in each class. *)
Definition effort_labels (c : TaskClass) : list string :=
  match c with
  | SimpleTask => ["Low"; "Medium"; "High"; "Very High"]
  | ProjectTask => ["Small"; "Medium"; "Large"]
  | RecurringTask => ["Minimal"; "Moderate"; "Substantial"; "Intensive"]
  end.

(** The effort band of a recurring task, by frequency and priority. *)
Definition recurring_label (frequency : string) (p : Priority) : string :=
  if String.eqb frequency "daily" then
    match p with
    | LOW => "Moderate" | MEDIUM => "Substantial" | HIGH | URGENT => "Intensive"
    end
  else if String.eqb frequency "weekly" then
    match p with
    | LOW => "Minimal" | MEDIUM => "Moderate" | HIGH | URGENT => "Substantial"
    end
  else if String.eqb frequency "monthly" then
    match p with
    | LOW => "Minimal" | MEDIUM => "Moderate" | HIGH | URGENT => "Substantial"
    end
  else
    match p with
    | LOW | MEDIUM => "Minimal" | HIGH | URGENT => "Moderate"
    end.

(** The effort label of a task of the data model. *)
Definition effort_label (d : TaskData) : string :=
  match d_variant d with
  | Simple =>
      match d_priority d with
      | LOW => "Low" | MEDIUM => "Medium" | HIGH => "High" | URGENT => "Very High"
      end
  | Project _ _ hours =>
      if PrimFloat.ltb hours 2%float then "Small"
      else if PrimFloat.ltb hours 8%float then "Medium"
      else "Large"
  | Recurring frequency _ _ => recurring_label frequency (d_priority d)
  end.


(** The due date of a task, when it is set to a datetime. *)
Definition due_of (t : Task) : option datetime :=
  match attrs t !! "due_date" with
  | Some (VDatetime d) => Some d
  | _ => None
  end.

(** Whether the status of a task is a given member. *)
Definition status_is (s : TaskStatus) (t : Task) : bool :=
  match attrs t !! "status" with
  | Some v => eq_status v s
  | None => false
  end.

(** A manager of the data model: every task is a task of the data model
    filed under its own identifier, and the history is a list that
    [json.dump] accepts. *)
Definition in_model (m : TaskManager) : Prop :=
  (forall key t, tasks m !! key = Some t -> exists d, t = task_object d /\ d_id d = key) /\
  (exists h, task_history m = VList h) /\
  serializable (task_history m) = true.

(** The record of a task with only the keys [load_from_file] cannot do
    without, and the data it stands for: every optional field at the
    default the loader gives it. *)
Definition required_json (d : TaskData) : dict :=
  ([("id", VStr (d_id d)); ("title", VStr (d_title d));
    ("description", opt_str (d_description d));
    ("priority", VStr (Priority_name (d_priority d)));
    ("status", VStr (TaskStatus_name (d_status d)));
    ("created_at", VStr (isoformat (d_created_at d)));
    ("updated_at", VStr (isoformat (d_updated_at d)));
    ("type", VStr (class_name (variant_class (d_variant d))))] ++
   match d_variant d with
   | Simple => []
   | Project project _ _ => [("project", VStr project)]
   | Recurring frequency _ _ => [("frequency", VStr frequency)]
   end)%list.

Definition with_defaults (d : TaskData) : TaskData :=
  mkTaskData (d_id d) (d_title d) (d_description d) (d_priority d) (d_status d)
    (d_created_at d) (d_updated_at d) None None ∅
    match d_variant d with
    | Simple => Simple
    | Project project _ _ => Project project ∅ 1%float
    | Recurring frequency _ _ => Recurring frequency 0 None
    end.

(** Records that [load_from_file] cannot load, with the exception
    [task_data.pop("type")] raises on each: a JSON value that is no object
    has no [pop], the [pop] of a list takes no text, and an object
    without the key "type" has nothing to pop. *)
Definition unloadable (task_data : value) : option exn :=
  match task_data with
  | VNone | VBool _ | VInt _ | VFloat _ | VStr _ => Some AttributeError
  | VList _ => Some TypeError
  | VDict d =>
      match dict_lookup "type" d with
      | None => Some KeyError
      | Some _ => None
      end
  | _ => None
  end.

(** The collection a list of filed records leaves when they are stored
    one after the other: a later record replaces an earlier one with the
    same identifier. *)
Definition loaded (l : list (string * Task)) : gmap string Task :=
  list_to_map (reverse l).

(** ** Properties of the task methods *)

Ltac run_method :=
  unfold bind, setattr, getattr, set_attr, ret, raise, lift; simpl.

Lemma eq_status_spec (v : value) (s : TaskStatus) :
  eq_status v s = true <-> v = VStatus s.
Proof.
  destruct v; simpl; try (split; [discriminate | congruence]).
  rewrite bool_decide_eq_true. split; congruence.
Qed.

(** [update_status] by the answer of its test. *)
Lemma update_status_test (now : datetime) (status : value) (t : Task) :
  update_status now status t =
    match in_TaskStatus status with
    | Raises e => (Raises e, t)
    | Returns false => (Raises ValueError, t)
    | Returns true =>
        (Returns tt,
         let t1 := set_attr "updated_at" (VDatetime now) (set_attr "status" status t) in
         if eq_status status COMPLETED
         then set_attr "completion_date" (VDatetime now) t1 else t1)
    end.
Proof.
  unfold update_status. unfold bind at 1. unfold lift.
  destruct (in_TaskStatus status) as [[|] | e]; [| reflexivity | reflexivity].
  cbn [negb]. run_method.
  destruct (eq_status status COMPLETED); [| reflexivity].
  simpl. by rewrite lookup_insert_eq.
Qed.

Lemma update_status_member (now : datetime) (s : TaskStatus) (t : Task) :
  update_status now (VStatus s) t =
    (Returns tt,
     let t1 := set_attr "updated_at" (VDatetime now) (set_attr "status" (VStatus s) t) in
     if decide (s = COMPLETED) then set_attr "completion_date" (VDatetime now) t1 else t1).
Proof.
  rewrite update_status_test. cbn [in_TaskStatus eq_status].
  destruct (decide (s = COMPLETED)) as [-> | Hne].
  - reflexivity.
  - by rewrite bool_decide_eq_false_2.
Qed.





(** C7: on a task whose due date is unset or a datetime, [is_overdue]
    returns without changing the task, and its answer is [true] exactly
    when the due date is set, the status is not [COMPLETED] and the clock
    reading is strictly later than the due date; so it is [false] without a
    due date, and [false] for a completed task whatever its due date. *)
Theorem is_overdue_spec (now : datetime) (t : Task) (due status : value) :
  attrs t !! "due_date" = Some due ->
  attrs t !! "status" = Some status ->
  due = VNone \/ (exists d, due = VDatetime d) ->
  exists b,
    is_overdue now t = (Returns b, t) /\
    (b = true <->
       exists d, due = VDatetime d /\ status ≠ VStatus COMPLETED /\ d < now) /\
    (due = VNone -> b = false) /\
    (status = VStatus COMPLETED -> b = false).
Proof.
  intros Hdue Hstatus Hty. unfold is_overdue. run_method. rewrite Hdue.
  destruct Hty as [-> | [d ->]]; simpl.
  - exists false. repeat split; try done. intros (d & ? & _); discriminate.
  - rewrite Hstatus.
    destruct (eq_status status COMPLETED) eqn:E; simpl.
    + apply eq_status_spec in E as ->. exists false. repeat split; try done.
      intros (d' & _ & H & _). done.
    + assert (status ≠ VStatus COMPLETED) as Hne.
      { intros H. apply eq_status_spec in H. congruence. }
      exists (d <? now). repeat split.
      * intros H; exists d; repeat split; [done | by apply Z.ltb_lt].
      * intros (d' & [= <-] & _ & H); by apply Z.ltb_lt.
      * done.
      * intros ->. done.
Qed.

(** ** Stepping through a method *)

Lemma bind_assoc {S A B C} (c : Py S A) (k : A -> Py S B) (k' : B -> Py S C) (s : S) :
  bind (bind c k) k' s = bind c (fun x => bind (k x) k') s.
Proof. unfold bind. destruct (c s) as [[a | e] s']; [| reflexivity]. reflexivity. Qed.

Lemma bind_ret {S A B} (a : A) (k : A -> Py S B) (s : S) :
  bind (ret a) k s = k a s.
Proof. reflexivity. Qed.

Lemma bind_lift_returns {S A B} (a : A) (k : A -> Py S B) (s : S) :
  bind (lift (Returns a)) k s = k a s.
Proof. reflexivity. Qed.

Lemma bind_lift_raises {S A B} (e : exn) (k : A -> Py S B) (s : S) :
  bind (lift (Raises e)) k s = (Raises e, s).
Proof. reflexivity. Qed.

Lemma bind_setattr {B} (name : string) (v : value) (k : unit -> Py Task B) (t : Task) :
  bind (setattr name v) k t = k tt (set_attr name v t).
Proof. reflexivity. Qed.

Lemma bind_getattr {B} (name : string) (v : value) (k : value -> Py Task B) (t : Task) :
  attrs t !! name = Some v -> bind (getattr name) k t = k v t.
Proof. intros H. unfold bind, getattr. by rewrite H. Qed.

Lemma setattr_run (name : string) (v : value) (t : Task) :
  setattr name v t = (Returns tt, set_attr name v t).
Proof. reflexivity. Qed.

(** The attribute read by a lookup through a chain of assignments. *)
Ltac lookup_attr :=
  cbn [attrs set_attr];
  repeat (rewrite lookup_insert_ne by discriminate);
  first [ apply lookup_insert_eq | eassumption ].

Ltac py_step :=
  first
    [ rewrite bind_assoc
    | rewrite bind_ret
    | rewrite bind_lift_returns
    | rewrite bind_setattr
    | erewrite bind_getattr by lookup_attr ];
  cbv beta.

Lemma datetime_add_in_range (d : datetime) (delta : timedelta) :
  datetime_min <= d + delta <= datetime_max ->
  datetime_add d delta = Returns (d + delta).
Proof.
  intros [H1 H2]. unfold datetime_add.
  apply Z.leb_le in H1, H2. by rewrite H1, H2.
Qed.

Lemma advance_due_date_run {B} (days : Z) (due : datetime) (k : unit -> Py Task B) (t : Task) :
  attrs t !! "due_date" = Some (VDatetime due) ->
  datetime_min <= due + timedelta_days days <= datetime_max ->
  bind (advance_due_date days) k t
    = k tt (set_attr "due_date" (VDatetime (due + timedelta_days days)) t).
Proof.
  intros Hdue Hrange. unfold advance_due_date.
  repeat py_step. unfold add_timedelta.
  rewrite datetime_add_in_range by done. simpl. by repeat py_step.
Qed.

Lemma complete_occurrence_run (now1 now2 : datetime) (t : Task)
    (n : Z) (due : datetime) (frequency : value) :
  attrs t !! "recurrence_count" = Some (VInt n) ->
  attrs t !! "due_date" = Some (VDatetime due) ->
  attrs t !! "frequency" = Some frequency ->
  datetime_min <= due + timedelta_days (offset_days frequency) <= datetime_max ->
  complete_occurrence now1 now2 t =
    (Returns tt,
     set_attr "updated_at" (VDatetime now2)
       (let t' :=
          set_attr "status" (VStatus NOT_STARTED)
            (set_attr "recurrence_count" (VInt (n + 1))
               (set_attr "last_completed" (VDatetime now1) t)) in
        if decide (offset_days frequency = 0) then t'
        else set_attr "due_date"
               (VDatetime (due + timedelta_days (offset_days frequency))) t')).
Proof.
  intros Hn Hdue Hf Hrange.
  unfold complete_occurrence, frequency_is.
  repeat py_step. simpl add_one. repeat py_step. simpl truthy. cbv iota.
  repeat py_step. unfold offset_days in *.
  destruct (eq_str frequency "daily"); cbv iota.
  { rewrite (advance_due_date_run _ due) by (done || lookup_attr).
    rewrite setattr_run. by rewrite decide_False. }
  repeat py_step.
  destruct (eq_str frequency "weekly"); cbv iota.
  { repeat py_step. unfold add_timedelta, timedelta_weeks.
    rewrite datetime_add_in_range by done. simpl obind. repeat py_step.
    rewrite setattr_run. by rewrite decide_False. }
  repeat py_step.
  destruct (eq_str frequency "monthly"); cbv iota.
  { rewrite (advance_due_date_run _ due) by (done || lookup_attr).
    rewrite setattr_run. by rewrite decide_False. }
  repeat py_step.
  destruct (eq_str frequency "yearly"); cbv iota.
  { rewrite (advance_due_date_run _ due) by (done || lookup_attr).
    rewrite setattr_run. by rewrite decide_False. }
  repeat py_step. rewrite setattr_run. by rewrite decide_True.
Qed.

Lemma offset_days_table (frequency : value) :
  offset_days (VStr "daily") = 1 /\
  offset_days (VStr "weekly") = 7 /\
  offset_days (VStr "monthly") = 30 /\
  offset_days (VStr "yearly") = 365 /\
  (frequency ∉ [VStr "daily"; VStr "weekly"; VStr "monthly"; VStr "yearly"] ->
   offset_days frequency = 0).
Proof.
  no_runtime.
  repeat split. intros H. unfold offset_days.
  assert (forall s, VStr s ∈ [VStr "daily"; VStr "weekly"; VStr "monthly"; VStr "yearly"] ->
                    eq_str frequency s = false) as Hs.
  { intros s Hin. destruct frequency; try reflexivity. simpl.
    apply String.eqb_neq. intros ->. done. }
  rewrite !Hs; [done | set_solver..].
Qed.

(** C2 (amended): for a recurring task whose due date [due] is set and
    whose recurrence count is an integer, provided [due] moved by the
    offset of the frequency is still a datetime (not past [datetime_max]),
    [complete_occurrence] sets [last_completed] to the first clock
    reading, adds exactly one to [recurrence_count], resets the status to
    [NOT_STARTED], moves the due date by 1, 7, 30 or 365 days for the
    frequencies daily, weekly, monthly and yearly and leaves it as it is
    for any other frequency, sets [updated_at] to the second clock
    reading, and touches nothing else. *)
Theorem complete_occurrence_spec (now1 now2 : datetime) (t : Task)
    (n : Z) (due : datetime) (frequency : value) :
  attrs t !! "recurrence_count" = Some (VInt n) ->
  attrs t !! "due_date" = Some (VDatetime due) ->
  attrs t !! "frequency" = Some frequency ->
  datetime_min <= due + timedelta_days (offset_days frequency) <= datetime_max ->
  exists t',
    complete_occurrence now1 now2 t = (Returns tt, t') /\
    cls t' = cls t /\
    attrs t' !! "last_completed" = Some (VDatetime now1) /\
    attrs t' !! "recurrence_count" = Some (VInt (n + 1)) /\
    attrs t' !! "status" = Some (VStatus NOT_STARTED) /\
    attrs t' !! "due_date"
      = Some (VDatetime (due + offset_days frequency * microseconds_per_day)) /\
    attrs t' !! "updated_at" = Some (VDatetime now2) /\
    (forall k, k ∉ ["last_completed"; "recurrence_count"; "status"; "due_date";
                    "updated_at"] ->
       attrs t' !! k = attrs t !! k) /\
    (frequency = VStr "daily" -> offset_days frequency = 1) /\
    (frequency = VStr "weekly" -> offset_days frequency = 7) /\
    (frequency = VStr "monthly" -> offset_days frequency = 30) /\
    (frequency = VStr "yearly" -> offset_days frequency = 365) /\
    (frequency ∉ [VStr "daily"; VStr "weekly"; VStr "monthly"; VStr "yearly"] ->
       attrs t' !! "due_date" = attrs t !! "due_date").
Proof.
  intros Hn Hdue Hf Hrange.
  rewrite (complete_occurrence_run now1 now2 t n due frequency) by done.
  clear Hrange. no_runtime.
  eexists. split; [reflexivity |].
  destruct (offset_days_table frequency) as (_ & _ & _ & _ & H0).
  cbv zeta. unfold timedelta_days.
  assert (forall k v (o : Task), k ∉ ["last_completed"; "recurrence_count"; "status";
                                   "due_date"; "updated_at"] ->
            attrs (set_attr "due_date" v o) !! k = attrs o !! k) as Hd.
  { intros k v o Hk. cbn [attrs set_attr]. rewrite lookup_insert_ne; [done | set_solver]. }
  destruct (decide (offset_days frequency = 0)) as [E | E].
  - rewrite E. replace (due + 0 * microseconds_per_day) with due by lia.
    split_and!; try (by intros ->); try (by cbn [attrs set_attr cls]; simplify_map_eq).
    intros k Hk. cbn [attrs set_attr]. rewrite !lookup_insert_ne; [done | set_solver..].
  - split_and!; try (by intros ->); try (by cbn [attrs set_attr cls]; simplify_map_eq).
    + intros k Hk. cbn [attrs set_attr]. rewrite !lookup_insert_ne; [done | set_solver..].
    + intros H. by apply H0 in H.
Qed.

(** C4 (amended): [set_estimate] converts its argument with [float],
    stores the result, whatever its sign, as [estimated_hours] and sets
    [updated_at] to the clock reading, touching nothing else; it raises
    exactly when the conversion raises, with the same exception, and then
    leaves the task as it was. *)
Theorem set_estimate_spec (now : datetime) (hours : value) (t : Task) :
  (forall f, py_float hours = Returns f ->
     exists t',
       set_estimate now hours t = (Returns tt, t') /\
       cls t' = cls t /\
       attrs t' !! "estimated_hours" = Some (VFloat f) /\
       attrs t' !! "updated_at" = Some (VDatetime now) /\
       (forall k, k ≠ "estimated_hours" -> k ≠ "updated_at" ->
          attrs t' !! k = attrs t !! k)) /\
  (forall e, py_float hours = Raises e ->
     set_estimate now hours t = (Raises e, t)) /\
  ((exists e, (set_estimate now hours t).1 = Raises e) <->
   (exists e, py_float hours = Raises e)) /\
  (forall f, hours = VFloat f -> py_float hours = Returns f).
Proof.
  unfold set_estimate.
  split; [| split; [| split]].
  - intros f ->. repeat py_step. rewrite setattr_run.
    eexists. split; [reflexivity |].
    repeat split; cbn [attrs set_attr cls]; intros; by simplify_map_eq.
  - intros e ->. reflexivity.
  - destruct (py_float hours) as [f | e].
    + repeat py_step. rewrite setattr_run. simpl.
      split; intros [e H]; discriminate.
    + rewrite bind_lift_raises. simpl. split; intros _; by exists e.
  - intros f ->. reflexivity.
Qed.

(** ** Properties of the manager *)

Lemma record_history_run {B} (now : datetime) (action : string) (task : Task)
    (k : unit -> Py TaskManager B) (m : TaskManager)
    (task_id task_title : value) (h : list value) :
  task_history m = VList h ->
  attrs task !! "id" = Some task_id ->
  attrs task !! "title" = Some task_title ->
  bind (_record_history now action task) k m =
    k tt (mkTaskManager (tasks m)
            (VList (h ++ [history_entry action task_id task_title now]))).
Proof.
  intros Hh Hid Htitle.
  unfold _record_history, history_list, attr_of, set_history, bind, lift.
  by rewrite Hh, Hid, Htitle.
Qed.

(** A name without a setter of its own is stored. *)
Lemma py_setattr_plain (name : string) (v : value) (t : Task) :
  name ∉ descriptors -> py_setattr name v t = (Returns tt, set_attr name v t).
Proof.
  no_runtime. intros Hname. unfold py_setattr.
  assert (forall d, d ∈ descriptors -> String.eqb name d = false) as Hd.
  { intros d Hin. apply String.eqb_neq. by intros ->. }
  rewrite !Hd; [done | unfold descriptors; set_solver..].
Qed.

(** The loop of [update_task] over keywords that are distinct and none
    of which has a setter of its own: it does not raise, every keyword
    whose name the task has is assigned, the others are skipped. *)
Lemma patch_attrs_spec (kwargs : list (string * value)) (t : Task) :
  NoDup kwargs.*1 ->
  (forall k, k ∈ kwargs.*1 -> k ∉ descriptors) ->
  exists t',
    patch_attrs kwargs t = (Returns tt, t') /\
    cls t' = cls t /\
    forall k,
      attrs t' !! k =
        match (list_to_map kwargs : gmap string value) !! k with
        | Some v => if hasattr t k then Some v else attrs t !! k
        | None => attrs t !! k
        end.
Proof.
  revert t. induction kwargs as [| [name v] kwargs IH]; intros t Hnd Hplain.
  - exists t. split_and!; [done | done |]. intros k.
    by rewrite list_to_map_nil, lookup_empty.
  - cbn [fmap list_fmap fst] in Hnd, Hplain. apply NoDup_cons in Hnd as [Hname Hnd].
    cbn [patch_attrs]. unfold bind at 1. unfold patch_attr at 1.
    set (t1 := if hasattr t name then set_attr name v t else t).
    assert ((if hasattr t name then py_setattr name v t else (Returns tt, t))
            = (Returns tt, t1)) as ->.
    { unfold t1. destruct (hasattr t name); [| done].
      apply py_setattr_plain, Hplain, list_elem_of_here. }
    assert (cls t1 = cls t) as Hcls1 by (unfold t1; by destruct (hasattr t name)).
    assert (forall k, k ≠ name -> attrs t1 !! k = attrs t !! k) as Hother.
    { intros k Hk. unfold t1. destruct (hasattr t name); [| done].
      cbn [attrs set_attr]. by rewrite lookup_insert_ne. }
    assert (attrs t1 !! name = if hasattr t name then Some v else attrs t !! name)
      as Hsame.
    { unfold t1. destruct (hasattr t name); [| done].
      cbn [attrs set_attr]. by rewrite lookup_insert_eq. }
    destruct (IH t1 Hnd) as (t' & Hrun & Hcls & Hattrs).
    { intros k Hk. apply Hplain. by apply list_elem_of_further. }
    exists t'. split_and!; [done | congruence |].
    intros k. rewrite Hattrs, list_to_map_cons.
    destruct (decide (k = name)) as [-> | Hne].
    + rewrite lookup_insert_eq.
      by rewrite (not_elem_of_list_to_map_1 _ _ Hname).
    + rewrite lookup_insert_ne by done.
      assert (hasattr t1 k = hasattr t k) as ->.
      { unfold hasattr. by rewrite Hcls1, Hother. }
      by rewrite Hother.
Qed.

Lemma update_task_unknown (now1 now2 : datetime) (task_id : string)
    (kwargs : list (string * value)) (m : TaskManager) :
  binds_parameter kwargs = false ->
  tasks m !! task_id = None ->
  update_task now1 now2 task_id kwargs m = (Returns false, m).
Proof. intros Hb H. unfold update_task, bind, get_task. by rewrite Hb, H. Qed.

Lemma patched_spec (now1 : datetime) (kwargs : list (string * value)) (t : Task) :
  NoDup kwargs.*1 ->
  (forall k, k ∈ kwargs.*1 -> k ∉ descriptors) ->
  (patch_attrs kwargs ;; setattr "updated_at" (VDatetime now1))%py t
    = (Returns tt, patched now1 kwargs t) /\
  cls (patched now1 kwargs t) = cls t /\
  attrs (patched now1 kwargs t) !! "updated_at" = Some (VDatetime now1) /\
  forall k, k ≠ "updated_at" ->
    attrs (patched now1 kwargs t) !! k =
      match (list_to_map kwargs : gmap string value) !! k with
      | Some v => if hasattr t k then Some v else attrs t !! k
      | None => attrs t !! k
      end.
Proof.
  intros Hnd Hplain.
  destruct (patch_attrs_spec kwargs t Hnd Hplain) as (t' & Hrun & Hcls & Hattrs).
  unfold patched, bind. rewrite Hrun. cbn [snd setattr attrs set_attr cls]. split_and!.
  - done.
  - done.
  - apply lookup_insert_eq.
  - intros k Hk. by rewrite lookup_insert_ne.
Qed.

Lemma patched_keeps (now1 : datetime) (kwargs : list (string * value)) (t : Task)
    (k : string) :
  NoDup kwargs.*1 ->
  (forall k, k ∈ kwargs.*1 -> k ∉ descriptors) ->
  is_Some (attrs t !! k) -> is_Some (attrs (patched now1 kwargs t) !! k).
Proof.
  intros Hnd Hplain Hk.
  destruct (patched_spec now1 kwargs t Hnd Hplain) as (_ & _ & Hu & Hattrs).
  destruct (decide (k = "updated_at")) as [-> | Hne]; [by rewrite Hu |].
  rewrite Hattrs by done. destruct (list_to_map kwargs !! k); [| done].
  by destruct (hasattr t k).
Qed.

(** [update_task] on a registered task, by the outcome of the loop. *)
Lemma update_task_found (now1 now2 : datetime) (task_id : string)
    (kwargs : list (string * value)) (m : TaskManager) (t : Task) :
  binds_parameter kwargs = false ->
  tasks m !! task_id = Some t ->
  update_task now1 now2 task_id kwargs m =
    let run := (patch_attrs kwargs ;; setattr "updated_at" (VDatetime now1))%py t in
    let m1 := mkTaskManager (<[task_id := run.2]> (tasks m)) (task_history m) in
    match run.1 with
    | Returns _ => bind (_record_history now2 "update" run.2) (fun _ => ret true) m1
    | Raises e => (Raises e, m1)
    end.
Proof.
  intros Hb Ht. unfold update_task. rewrite Hb.
  unfold bind at 1. unfold get_task at 1. rewrite Ht. cbv zeta.
  unfold bind at 1. unfold store_task at 1.
  destruct ((patch_attrs kwargs ;; setattr "updated_at" (VDatetime now1))%py t)
    as [[[] | e] t']; reflexivity.
Qed.

Lemma update_task_run (now1 now2 : datetime) (task_id : string)
    (kwargs : list (string * value)) (m : TaskManager) (t : Task)
    (id title : value) (h : list value) :
  binds_parameter kwargs = false ->
  NoDup kwargs.*1 ->
  (forall k, k ∈ kwargs.*1 -> k ∉ descriptors) ->
  tasks m !! task_id = Some t ->
  attrs (patched now1 kwargs t) !! "id" = Some id ->
  attrs (patched now1 kwargs t) !! "title" = Some title ->
  task_history m = VList h ->
  update_task now1 now2 task_id kwargs m =
    (Returns true,
     mkTaskManager (<[task_id := patched now1 kwargs t]> (tasks m))
       (VList (h ++ [history_entry "update" id title now2]))).
Proof.
  intros Hb Hnd Hplain Ht Hid Htitle Hh.
  rewrite (update_task_found now1 now2 task_id kwargs m t Hb Ht).
  destruct (patched_spec now1 kwargs t Hnd Hplain) as (Hrun & _).
  rewrite Hrun. cbv zeta. cbn [fst snd].
  by rewrite (record_history_run _ _ _ _ _ id title h).
Qed.

(** C10: [add_task] files the task under its identifier, appends one
    "add" record to the history and returns the task itself; nothing
    depends on whether the identifier is already registered, so a task
    registered under the same identifier is replaced without any signal
    (the collection keeps its identifiers, the new task stands where the
    old one stood), and the "add" record is appended all the same. *)
Theorem add_task_spec (now : datetime) (t : Task) (m : TaskManager)
    (key : string) (title : value) (h : list value) :
  attrs t !! "id" = Some (VStr key) ->
  attrs t !! "title" = Some title ->
  task_history m = VList h ->
  exists m',
    add_task now t m = (Returns t, m') /\
    tasks m' !! key = Some t /\
    (forall k, k ≠ key -> tasks m' !! k = tasks m !! k) /\
    task_history m' = VList (h ++ [history_entry "add" (VStr key) title now]) /\
    (forall old, tasks m !! key = Some old -> dom (tasks m') = dom (tasks m)).
Proof.
  no_runtime. intros Hid Htitle Hh.
  assert (add_task now t m =
            (Returns t,
             mkTaskManager (<[key := t]> (tasks m))
               (VList (h ++ [history_entry "add" (VStr key) title now])))) as Hrun.
  { unfold add_task, task_key, attr_of.
    rewrite Hid. cbn [obind]. rewrite bind_lift_returns.
    unfold bind at 1. unfold store_task at 1.
    by rewrite (record_history_run _ _ _ _ _ (VStr key) title h). }
  eexists. split; [exact Hrun |]. cbn [tasks task_history].
  split_and!.
  - apply lookup_insert_eq.
  - intros k Hk. by rewrite lookup_insert_ne.
  - done.
  - intros old Hold. rewrite dom_insert_L.
    assert (key ∈ dom (tasks m)) by (apply elem_of_dom; eauto). set_solver.
Qed.

(** C6: [delete_task] on an identifier that is not registered returns
    [False] and leaves the manager (collection and history) as it was; on
    a registered one it removes that task and no other, appends exactly
    one "delete" record and returns [True]. *)
Theorem delete_task_spec (now : datetime) (task_id : string) (m : TaskManager) :
  (tasks m !! task_id = None ->
     delete_task now task_id m = (Returns false, m)) /\
  (forall t id title h,
     tasks m !! task_id = Some t ->
     attrs t !! "id" = Some id ->
     attrs t !! "title" = Some title ->
     task_history m = VList h ->
     exists m',
       delete_task now task_id m = (Returns true, m') /\
       tasks m' = delete task_id (tasks m) /\
       tasks m' !! task_id = None /\
       (forall k, k ≠ task_id -> tasks m' !! k = tasks m !! k) /\
       task_history m' = VList (h ++ [history_entry "delete" id title now])).
Proof.
  split.
  - intros H. unfold delete_task, bind, get_task. by rewrite H.
  - intros t id title h Ht Hid Htitle Hh. unfold delete_task.
    unfold bind at 1. unfold get_task at 1. rewrite Ht.
    unfold bind at 1.
    rewrite (record_history_run _ _ _ _ _ id title h) by done.
    unfold ret. eexists. split; [reflexivity |]. cbn [tasks task_history].
    split_and!.
    + done.
    + apply lookup_delete_eq.
    + intros k Hk. by rewrite lookup_delete_ne.
    + done.
Qed.

(** C5 (amended): a call of [update_task] that binds no parameter twice,
    on an identifier that is not registered, returns [False] and changes
    nothing; on a registered task, with keywords none of which is
    [__class__], [__dict__] or [__weakref__], it assigns every keyword
    whose name the task already has, skips the others, sets [updated_at]
    to the clock reading, appends one "update" record (made of the
    identifier and title the task has after the assignments) and returns
    [True]; the other tasks are untouched. *)
Theorem update_task_spec (now1 now2 : datetime) (task_id : string)
    (kwargs : list (string * value)) (m : TaskManager) :
  binds_parameter kwargs = false ->
  NoDup kwargs.*1 ->
  (tasks m !! task_id = None ->
     update_task now1 now2 task_id kwargs m = (Returns false, m)) /\
  (forall t h,
     tasks m !! task_id = Some t ->
     is_Some (attrs t !! "id") ->
     is_Some (attrs t !! "title") ->
     task_history m = VList h ->
     (forall k, k ∈ kwargs.*1 -> k ∉ descriptors) ->
     exists m' t' id' title',
       update_task now1 now2 task_id kwargs m = (Returns true, m') /\
       tasks m' !! task_id = Some t' /\
       (forall k, k ≠ task_id -> tasks m' !! k = tasks m !! k) /\
       cls t' = cls t /\
       attrs t' !! "updated_at" = Some (VDatetime now1) /\
       (forall k v, k ≠ "updated_at" -> (k, v) ∈ kwargs -> hasattr t k = true ->
          attrs t' !! k = Some v) /\
       (forall k v, k ≠ "updated_at" -> (k, v) ∈ kwargs -> hasattr t k = false ->
          attrs t' !! k = attrs t !! k) /\
       (forall k, k ≠ "updated_at" -> k ∉ kwargs.*1 ->
          attrs t' !! k = attrs t !! k) /\
       attrs t' !! "id" = Some id' /\
       attrs t' !! "title" = Some title' /\
       task_history m' = VList (h ++ [history_entry "update" id' title' now2])).
Proof.
  intros Hb Hnd. split; [by apply update_task_unknown |].
  intros t h Ht Hid Htitle Hh Hplain.
  apply (patched_keeps now1 kwargs _ _ Hnd Hplain) in Hid as [id' Hid].
  apply (patched_keeps now1 kwargs _ _ Hnd Hplain) in Htitle as [title' Htitle].
  rewrite (update_task_run now1 now2 task_id kwargs m t id' title' h) by done.
  destruct (patched_spec now1 kwargs t Hnd Hplain) as (_ & Hcls & Hu & Hattrs).
  eexists _, (patched now1 kwargs t), id', title'.
  split; [reflexivity |]. cbn [tasks task_history]. split_and!; try done.
  - apply lookup_insert_eq.
  - intros k Hk. by rewrite lookup_insert_ne.
  - intros k v Hk Hkw Hhas. rewrite Hattrs by done.
    by rewrite (elem_of_list_to_map_1 _ _ _ Hnd Hkw), Hhas.
  - intros k v Hk Hkw Hhas. rewrite Hattrs by done.
    by rewrite (elem_of_list_to_map_1 _ _ _ Hnd Hkw), Hhas.
  - intros k Hk Hkw. rewrite Hattrs by done.
    by rewrite (not_elem_of_list_to_map_1 _ _ Hkw).
Qed.

Lemma patched_singleton (now1 : datetime) (k : string) (v : value) (t : Task) :
  k ∉ descriptors ->
  hasattr t k = true ->
  patched now1 [(k, v)] t =
    set_attr "updated_at" (VDatetime now1) (set_attr k v t).
Proof.
  intros Hk Hhas. unfold patched. cbn [patch_attrs]. unfold bind, patch_attr.
  by rewrite Hhas, py_setattr_plain.
Qed.

(** One keyword, naming an attribute the task has. *)
Lemma update_task_single (now1 now2 : datetime) (task_id k : string) (v : value)
    (m : TaskManager) (t : Task) (h : list value) :
  k ∉ descriptors ->
  k ∉ ["self"; "task_id"; "updated_at"] ->
  hasattr t k = true ->
  tasks m !! task_id = Some t ->
  is_Some (attrs t !! "id") ->
  is_Some (attrs t !! "title") ->
  task_history m = VList h ->
  exists id' title',
    update_task now1 now2 task_id [(k, v)] m =
      (Returns true,
       mkTaskManager (<[task_id := patched now1 [(k, v)] t]> (tasks m))
         (VList (h ++ [history_entry "update" id' title' now2]))) /\
    attrs (patched now1 [(k, v)] t) !! k = Some v.
Proof.
  intros Hk Hname Hhas Ht Hid Htitle Hh.
  assert (binds_parameter [(k, v)] = false) as Hb.
  { unfold binds_parameter. cbn [existsb fst orb].
    assert (forall d, d ∈ ["self"; "task_id"; "updated_at"] -> String.eqb k d = false)
      as Hd by (intros d Hin; apply String.eqb_neq; by intros ->).
    rewrite !Hd; [done | clear; no_runtime; set_solver..]. }
  assert (NoDup [(k, v)].*1) as Hnd by (cbn; apply NoDup_singleton).
  assert (forall k', k' ∈ [(k, v)].*1 -> k' ∉ descriptors) as Hplain.
  { intros k' Hk'. cbn in Hk'. by apply list_elem_of_singleton in Hk' as ->. }
  destruct (patched_keeps now1 [(k, v)] t "id" Hnd Hplain Hid) as [id' Hid'].
  destruct (patched_keeps now1 [(k, v)] t "title" Hnd Hplain Htitle) as [title' Htitle'].
  rewrite (update_task_run now1 now2 task_id [(k, v)] m t id' title' h) by done.
  exists id', title'. split; [reflexivity |].
  rewrite patched_singleton by done. cbn [attrs set_attr].
  rewrite lookup_insert_ne; [apply lookup_insert_eq |].
  intros <-. apply Hname. clear. no_runtime. set_solver.
Qed.

Lemma plain_names (k : string) :
  k ∈ ["status"; "tags"; "title"] ->
  (k ∉ descriptors) /\ (k ∉ ["self"; "task_id"; "updated_at"]).
Proof. no_runtime. unfold descriptors. set_solver. Qed.

(** The invariant of [add_tag], on a runtime where the lower-case form of
    a lower-case form is itself: lower-case tags stay lower-case. *)
Lemma add_tag_lower_case (now : datetime) (tag : string) (t : Task) (s : gset string) :
  (forall x, lower (lower x) = lower x) ->
  attrs t !! "tags" = Some (VSet s) ->
  (forall x, x ∈ s -> lower x = x) ->
  exists t' s',
    add_tag now (VStr tag) t = (Returns tt, t') /\
    attrs t' !! "tags" = Some (VSet s') /\
    lower tag ∈ s' /\
    (forall x, x ∈ s' -> lower x = x).
Proof.
  no_runtime.
  intros Hidem Htags Hs. unfold add_tag.
  repeat py_step. cbn [str_lower]. repeat py_step. rewrite setattr_run.
  eexists _, ({[ lower tag ]} ∪ s). split; [reflexivity |].
  split_and!.
  - cbn [attrs set_attr]. by simplify_map_eq.
  - set_solver.
  - intros x [Hx | Hx]%elem_of_union; [| by apply Hs].
    apply elem_of_singleton in Hx as ->. apply Hidem.
Qed.

(** The invariant of [update_status]: what it stores has passed the
    containment test; on a runtime whose test accepts members only, it
    stores members only. *)
Lemma update_status_stores (now : datetime) (v : value) (t : Task) :
  (update_status now v t).1 = Returns tt ->
  in_TaskStatus v = Returns true /\
  attrs (update_status now v t).2 !! "status" = Some v.
Proof.
  rewrite update_status_test.
  destruct (in_TaskStatus v) as [[|] | e]; [| discriminate | discriminate].
  intros _. split; [done |]. cbn [snd].
  destruct (eq_status v COMPLETED); cbn [attrs set_attr]; by simplify_map_eq.
Qed.

Lemma update_status_recognized (now : datetime) (v : value) (t : Task) :
  (forall v, ~ recognized v -> in_TaskStatus v ≠ Returns true) ->
  (update_status now v t).1 = Returns tt ->
  exists s, attrs (update_status now v t).2 !! "status" = Some (VStatus s).
Proof.
  intros Hruntime H. destruct (update_status_stores now v t H) as [Hin Hv].
  assert (recognized v) as [s ->].
  { destruct v;
      try (exfalso; eapply Hruntime; [| exact Hin]; intros [? ?]; discriminate).
    by eexists. }
  eauto.
Qed.

(** C9 (amended): [update_task] checks no value.  On a registered task,
    a call whose keywords are distinct, bind no parameter and are none
    of [__class__], [__dict__] and [__weakref__] never raises, and every
    keyword whose name the task has holds afterwards exactly the value
    given.  So the keyword [status] stores any value at all, a member of
    [Priority] say, which [update_status] refuses with [ValueError] on
    every runtime (as it refuses, one way or the other, every value that
    is no member and that the containment test does not accept), and the
    keyword [tags] stores any set of tags, lower-case or not.  The methods
    keep what [update_task] breaks: [update_status] stores only what has
    passed the containment test (members, where the test accepts members
    only), and [add_tag] keeps a lower-case tag set lower-case where
    [lower] leaves lower-case forms as they are. *)
Theorem update_task_no_validation (now1 now2 : datetime) (task_id : string)
    (m : TaskManager) (t : Task) (h : list value) :
  tasks m !! task_id = Some t ->
  is_Some (attrs t !! "id") ->
  is_Some (attrs t !! "title") ->
  task_history m = VList h ->
  (forall kwargs,
     binds_parameter kwargs = false ->
     NoDup kwargs.*1 ->
     (forall k, k ∈ kwargs.*1 -> k ∉ descriptors) ->
     exists m' t',
       update_task now1 now2 task_id kwargs m = (Returns true, m') /\
       tasks m' !! task_id = Some t' /\
       forall k v, k ≠ "updated_at" -> (k, v) ∈ kwargs -> hasattr t k = true ->
         attrs t' !! k = Some v) /\
  (hasattr t "status" = true ->
   forall v, exists m' t',
     update_task now1 now2 task_id [("status", v)] m = (Returns true, m') /\
     tasks m' !! task_id = Some t' /\
     attrs t' !! "status" = Some v) /\
  (forall now p t0,
     ~ recognized (VPriority p) /\
     update_status now (VPriority p) t0 = (Raises ValueError, t0)) /\
  (forall now v t0,
     ~ recognized v -> in_TaskStatus v ≠ Returns true ->
     exists e, update_status now v t0 = (Raises e, t0)) /\
  (hasattr t "tags" = true ->
   forall tags, exists m' t',
     update_task now1 now2 task_id [("tags", VSet tags)] m = (Returns true, m') /\
     tasks m' !! task_id = Some t' /\
     attrs t' !! "tags" = Some (VSet tags)) /\
  (forall now v t0,
     (update_status now v t0).1 = Returns tt ->
     in_TaskStatus v = Returns true /\
     attrs (update_status now v t0).2 !! "status" = Some v) /\
  ((forall v, ~ recognized v -> in_TaskStatus v ≠ Returns true) ->
   forall now v t0,
     (update_status now v t0).1 = Returns tt ->
     exists s, attrs (update_status now v t0).2 !! "status" = Some (VStatus s)) /\
  ((forall x, lower (lower x) = lower x) ->
   forall now tag t0 s,
     attrs t0 !! "tags" = Some (VSet s) ->
     (forall x, x ∈ s -> lower x = x) ->
     exists t1 s1,
       add_tag now (VStr tag) t0 = (Returns tt, t1) /\
       attrs t1 !! "tags" = Some (VSet s1) /\
       (forall x, x ∈ s1 -> lower x = x)).
Proof.
  intros Ht Hid Htitle Hh.
  assert (forall k v, k ∈ ["status"; "tags"] -> hasattr t k = true ->
            exists m' t',
              update_task now1 now2 task_id [(k, v)] m = (Returns true, m') /\
              tasks m' !! task_id = Some t' /\
              attrs t' !! k = Some v) as Hsingle.
  { intros k v Hk Hhas.
    destruct (plain_names k) as [Hk1 Hk2].
    { clear -Hk. no_runtime. set_solver. }
    destruct (update_task_single now1 now2 task_id k v m t h Hk1 Hk2 Hhas Ht Hid Htitle Hh)
      as (id' & title' & Hrun & Hv).
    eexists _, (patched now1 [(k, v)] t). split; [exact Hrun |].
    split; [apply lookup_insert_eq | exact Hv]. }
  split_and!.
  - intros kwargs Hb Hnd Hplain.
    destruct (patched_keeps now1 kwargs t "id" Hnd Hplain Hid) as [id' Hid'].
    destruct (patched_keeps now1 kwargs t "title" Hnd Hplain Htitle) as [title' Htitle'].
    rewrite (update_task_run now1 now2 task_id kwargs m t id' title' h) by done.
    eexists _, (patched now1 kwargs t). split; [reflexivity |].
    split; [apply lookup_insert_eq |].
    intros k v Hk Hkw Hhas.
    destruct (patched_spec now1 kwargs t Hnd Hplain) as (_ & _ & _ & Hattrs).
    rewrite Hattrs by done.
    by rewrite (elem_of_list_to_map_1 _ _ _ Hnd Hkw), Hhas.
  - intros Hhas v. apply Hsingle; [| done]. apply list_elem_of_here.
  - intros now p t0. split; [by intros [s Hs] |].
    by rewrite update_status_test.
  - intros now v t0 Hnot Hin. rewrite update_status_test.
    destruct (in_TaskStatus v) as [[|] | e]; [done | by exists ValueError | by exists e].
  - intros Hhas tags. apply Hsingle; [| done].
    apply list_elem_of_further, list_elem_of_here.
  - apply update_status_stores.
  - intros Hruntime now v t0. by apply update_status_recognized.
  - intros Hidem now tag t0 s Htags Hs.
    destruct (add_tag_lower_case now tag t0 s Hidem Htags Hs)
      as (t1 & s1 & ? & ? & _ & ?).
    by exists t1, s1.
Qed.

(** ** Properties of the filter *)

Lemma has_all_tags_spec (t : Task) (s : gset string) (query : list string) :
  attrs t !! "tags" = Some (VSet s) ->
  has_all_tags t (VStr <$> query) = Returns (bool_decide (query_set query ⊆ s)).
Proof.
  no_runtime.
  intros Ht. unfold query_set. induction query as [| q query IH].
  - simpl. rewrite bool_decide_eq_true_2; [done | set_solver].
  - cbn [fmap list_fmap has_all_tags str_lower obind]. unfold attr_of.
    rewrite Ht. cbn [obind contains].
    destruct (decide (lower q ∈ s)) as [Hin | Hout].
    + rewrite (bool_decide_eq_true_2 _ Hin). rewrite IH.
      f_equal. apply bool_decide_ext. set_solver.
    + rewrite (bool_decide_eq_false_2 _ Hout).
      rewrite bool_decide_eq_false_2; [done | set_solver].
Qed.

(** C8: on tasks whose tags are sets, [filter_by_multiple_tags] returns,
    in their order, exactly the tasks whose tag set includes the
    lower-case form of every query tag; among three tasks tagged
    {urgent, work}, {urgent} and {work}, a query of two tags whose
    lower-case forms are "urgent" and "work", in whatever capitals,
    keeps the first only. *)
Theorem filter_by_multiple_tags_spec (ts : list Task) (query : list string) :
  (forall t, t ∈ ts -> exists s, attrs t !! "tags" = Some (VSet s)) ->
  filter_by_multiple_tags ts (VStr <$> query)
    = Returns (filter (fun t => query_set query ⊆ tags_of t) ts) /\
  (forall t, t ∈ filter (fun t => query_set query ⊆ tags_of t) ts <->
             t ∈ ts /\ forall q, q ∈ query -> lower q ∈ tags_of t) /\
  (forall t1 t2 t3 q1 q2,
     lower q1 = "urgent" ->
     lower q2 = "work" ->
     attrs t1 !! "tags" = Some (VSet {[ "urgent"; "work" ]}) ->
     attrs t2 !! "tags" = Some (VSet {[ "urgent" ]}) ->
     attrs t3 !! "tags" = Some (VSet {[ "work" ]}) ->
     filter_by_multiple_tags [t1; t2; t3] [VStr q1; VStr q2]
       = Returns [t1]).
Proof.
  intros Hts. split_and!.
  - induction ts as [| t ts IH]; [done |].
    destruct (Hts t) as [s Hs]; [set_solver |].
    cbn [filter_by_multiple_tags].
    rewrite (has_all_tags_spec t s) by done. cbn [obind].
    rewrite IH by (intros t' Ht'; apply Hts; set_solver). cbn [obind].
    assert (tags_of t = s) as Htags by (unfold tags_of; by rewrite Hs).
    rewrite filter_cons, Htags.
    destruct (decide (query_set query ⊆ s)) as [Hsub | Hsub].
    + by rewrite (bool_decide_eq_true_2 _ Hsub).
    + by rewrite (bool_decide_eq_false_2 _ Hsub).
  - intros t. rewrite list_elem_of_filter. unfold query_set.
    split.
    + intros [H1 H2]. split; [done |].
      intros q Hq. apply H1. rewrite elem_of_list_to_set, list_elem_of_fmap. eauto.
    + intros [H1 H2]. split; [| done].
      intros x. rewrite elem_of_list_to_set, list_elem_of_fmap.
      intros (q & -> & Hq). by apply H2.
  - intros t1 t2 t3 q1 q2 Hq1 Hq2 H1 H2 H3.
    change [VStr q1; VStr q2] with (VStr <$> [q1; q2]).
    cbn [filter_by_multiple_tags].
    rewrite (has_all_tags_spec t1 _ [q1; q2] H1).
    rewrite (has_all_tags_spec t2 _ [q1; q2] H2).
    rewrite (has_all_tags_spec t3 _ [q1; q2] H3).
    unfold query_set. cbn [fmap list_fmap]. rewrite Hq1, Hq2.
    clear. no_runtime.
    assert (bool_decide ((list_to_set ["urgent"; "work"] : gset string)
                           ⊆ {[ "urgent"; "work" ]}) = true)
      as -> by (by vm_compute).
    assert (bool_decide ((list_to_set ["urgent"; "work"] : gset string)
                           ⊆ {[ "urgent" ]}) = false)
      as -> by (by vm_compute).
    assert (bool_decide ((list_to_set ["urgent"; "work"] : gset string)
                           ⊆ {[ "work" ]}) = false)
      as -> by (by vm_compute).
    reflexivity.
Qed.

(** ** Tags and dependencies *)

Lemma remove_tag_absent (now : datetime) (x : string) (t : Task) (s : gset string) :
  attrs t !! "tags" = Some (VSet s) ->
  lower x ∉ s ->
  remove_tag now (VStr x) t = (Returns tt, t).
Proof.
  intros Htags Hx. unfold remove_tag. cbn [str_lower]. repeat py_step.
  cbn [contains]. rewrite bool_decide_eq_false_2 by done. by repeat py_step.
Qed.

Lemma remove_tag_present (now : datetime) (x : string) (t : Task) (s : gset string) :
  attrs t !! "tags" = Some (VSet s) ->
  lower x ∈ s ->
  remove_tag now (VStr x) t =
    (Returns tt,
     set_attr "updated_at" (VDatetime now)
       (set_attr "tags" (VSet (s ∖ {[ lower x ]})) t)).
Proof.
  intros Htags Hx. unfold remove_tag. cbn [str_lower]. repeat py_step.
  cbn [contains]. rewrite bool_decide_eq_true_2 by done. by repeat py_step.
Qed.

Lemma add_tag_run (now : datetime) (x : string) (t : Task) (s : gset string) :
  attrs t !! "tags" = Some (VSet s) ->
  add_tag now (VStr x) t =
    (Returns tt,
     set_attr "updated_at" (VDatetime now)
       (set_attr "tags" (VSet ({[ lower x ]} ∪ s)) t)).
Proof.
  intros Htags. unfold add_tag. repeat py_step. cbn [str_lower]. by repeat py_step.
Qed.

(** [remove_tag] compares tags by their lower-case form, as [str.lower]
    of the runtime gives it.  A tag whose lower-case form the task does
    not carry is left alone together with the whole task: not even
    [updated_at] moves.  A tag it carries goes, nothing else of the tag
    set does, and [updated_at] takes the clock reading.  Two spellings
    with the same lower-case form behave alike. *)
Theorem remove_tag_spec (now : datetime) (x : string) (t : Task) (s : gset string) :
  attrs t !! "tags" = Some (VSet s) ->
  (lower x ∉ s -> remove_tag now (VStr x) t = (Returns tt, t)) /\
  (lower x ∈ s ->
   exists t',
     remove_tag now (VStr x) t = (Returns tt, t') /\
     cls t' = cls t /\
     attrs t' !! "tags" = Some (VSet (s ∖ {[ lower x ]})) /\
     attrs t' !! "updated_at" = Some (VDatetime now) /\
     (forall k, k ≠ "tags" -> k ≠ "updated_at" -> attrs t' !! k = attrs t !! k)) /\
  (forall y, lower y = lower x ->
     remove_tag now (VStr y) t = remove_tag now (VStr x) t).
Proof.
  no_runtime. intros Htags. split_and!.
  - by apply remove_tag_absent.
  - intros Hx. rewrite (remove_tag_present now x t s) by done.
    eexists. split; [reflexivity |].
    split_and!; cbn [attrs set_attr cls]; intros; by simplify_map_eq.
  - intros y Hy. destruct (decide (lower x ∈ s)) as [Hx | Hx].
    + rewrite (remove_tag_present now x t s), (remove_tag_present now y t s);
        rewrite ?Hy; done.
    + rewrite (remove_tag_absent now x t s), (remove_tag_absent now y t s);
        rewrite ?Hy; done.
Qed.

(** Adding a tag and then removing it, in whatever spelling of the same
    lower-case form, leaves the tag set without that form: the set the
    task had when the tag was new to it.  Adding a tag twice is adding it
    once. *)
Theorem add_then_remove_tag (now1 now2 : datetime) (x y : string) (t : Task)
    (s : gset string) :
  attrs t !! "tags" = Some (VSet s) ->
  lower y = lower x ->
  exists t1 t2,
    add_tag now1 (VStr x) t = (Returns tt, t1) /\
    remove_tag now2 (VStr y) t1 = (Returns tt, t2) /\
    attrs t2 !! "tags" = Some (VSet (s ∖ {[ lower x ]})) /\
    (lower x ∉ s -> attrs t2 !! "tags" = Some (VSet s)) /\
    attrs t2 !! "updated_at" = Some (VDatetime now2) /\
    (forall k, k ≠ "tags" -> k ≠ "updated_at" -> attrs t2 !! k = attrs t !! k) /\
    (exists t1', add_tag now2 (VStr y) t1 = (Returns tt, t1') /\
                 attrs t1' !! "tags" = attrs t1 !! "tags").
Proof.
  no_runtime. intros Htags Hy.
  rewrite (add_tag_run now1 x t s) by done.
  eexists _, _. split; [reflexivity |].
  assert (({[ lower x ]} ∪ s) ∖ {[ lower x ]} = s ∖ {[ lower x ]}) as Hdiff
    by set_solver.
  split_and!.
  - erewrite remove_tag_present; [reflexivity | | ].
    + cbn [attrs set_attr]. by simplify_map_eq.
    + rewrite Hy. set_solver.
  - cbn [attrs set_attr]. rewrite Hy, Hdiff. by simplify_map_eq.
  - intros Hx. cbn [attrs set_attr]. rewrite Hy, Hdiff. simplify_map_eq.
    do 2 f_equal. set_solver.
  - cbn [attrs set_attr]. by simplify_map_eq.
  - intros k Hk1 Hk2. cbn [attrs set_attr]. by simplify_map_eq.
  - eexists. split.
    + erewrite add_tag_run; [reflexivity |]. cbn [attrs set_attr]. by simplify_map_eq.
    + cbn [attrs set_attr]. rewrite Hy. simplify_map_eq. do 2 f_equal. set_solver.
Qed.

Lemma add_dependency_run (now : datetime) (other t : Task) (i : string)
    (s : gset string) :
  attrs other !! "id" = Some (VStr i) ->
  attrs t !! "dependencies" = Some (VSet s) ->
  add_dependency now other t =
    (Returns tt,
     set_attr "updated_at" (VDatetime now)
       (set_attr "dependencies" (VSet ({[ i ]} ∪ s)) t)).
Proof.
  intros Hid Hdeps. unfold add_dependency, task_key, attr_of.
  repeat py_step. rewrite Hid. cbn [obind]. by repeat py_step.
Qed.

Lemma remove_dependency_run (now : datetime) (other t : Task) (i : string)
    (s : gset string) :
  attrs other !! "id" = Some (VStr i) ->
  attrs t !! "dependencies" = Some (VSet s) ->
  remove_dependency now other t =
    (Returns tt,
     if decide (i ∈ s)
     then set_attr "updated_at" (VDatetime now)
            (set_attr "dependencies" (VSet (s ∖ {[ i ]})) t)
     else t).
Proof.
  intros Hid Hdeps. unfold remove_dependency, task_key, attr_of.
  rewrite Hid. cbn [obind]. repeat py_step. cbn [contains].
  destruct (decide (i ∈ s)) as [Hi | Hi].
  - rewrite bool_decide_eq_true_2 by done. by repeat py_step.
  - rewrite bool_decide_eq_false_2 by done. by repeat py_step.
Qed.

(** [add_dependency] records the identifier of the other task, whatever
    that task is: nothing checks that it is registered, nor that it is
    another task, so a task can be made to depend on itself.
    [remove_dependency] of a task that is no dependency changes nothing,
    not even [updated_at]; removing a dependency just added gives back
    the dependencies the task had without it. *)
Theorem dependency_spec (now1 now2 : datetime) (other t : Task) (i own : string)
    (s : gset string) :
  attrs other !! "id" = Some (VStr i) ->
  attrs t !! "id" = Some (VStr own) ->
  attrs t !! "dependencies" = Some (VSet s) ->
  (exists t1 t2,
     add_dependency now1 other t = (Returns tt, t1) /\
     attrs t1 !! "dependencies" = Some (VSet ({[ i ]} ∪ s)) /\
     attrs t1 !! "updated_at" = Some (VDatetime now1) /\
     remove_dependency now2 other t1 = (Returns tt, t2) /\
     attrs t2 !! "dependencies" = Some (VSet (s ∖ {[ i ]})) /\
     (i ∉ s -> attrs t2 !! "dependencies" = Some (VSet s))) /\
  (i ∉ s -> remove_dependency now2 other t = (Returns tt, t)) /\
  (exists t1,
     add_dependency now1 t t = (Returns tt, t1) /\
     exists s1, attrs t1 !! "dependencies" = Some (VSet s1) /\ own ∈ s1).
Proof.
  no_runtime. intros Hother Hown Hdeps. split_and!.
  - rewrite (add_dependency_run now1 other t i s) by done.
    eexists _, _. split; [reflexivity |].
    assert (({[ i ]} ∪ s) ∖ {[ i ]} = s ∖ {[ i ]}) as Hdiff by set_solver.
    split_and!.
    + cbn [attrs set_attr]. by simplify_map_eq.
    + cbn [attrs set_attr]. by simplify_map_eq.
    + erewrite (remove_dependency_run now2 other _ i);
        [| done | cbn [attrs set_attr]; by simplify_map_eq].
      rewrite decide_True by set_solver. reflexivity.
    + cbn [attrs set_attr]. rewrite Hdiff. by simplify_map_eq.
    + intros Hi. cbn [attrs set_attr]. rewrite Hdiff. simplify_map_eq.
      do 2 f_equal. set_solver.
  - intros Hi. rewrite (remove_dependency_run now2 other t i s) by done.
    by rewrite decide_False.
  - rewrite (add_dependency_run now1 t t own s) by done.
    eexists. split; [reflexivity |]. exists ({[ own ]} ∪ s).
    split; [cbn [attrs set_attr]; by simplify_map_eq | set_solver].
Qed.

(** ** Effort estimates *)

Lemma effort_label_run (d : TaskData) :
  estimate_effort (task_object d) = (Returns (effort_label d), task_object d).
Proof.
  destruct d as [id title desc prio status created updated due completion tags v].
  unfold estimate_effort, effort_label.
  destruct v as [| project deps hours | freq count lastc];
    cbn [cls task_object variant_class d_variant d_priority set_attr].
  - unfold SimpleTask_estimate_effort. repeat py_step. by destruct prio.
  - unfold ProjectTask_estimate_effort. repeat py_step. cbn [number_lt].
    change (small_float 2) with 2%float. change (small_float 8) with 8%float.
    destruct (PrimFloat.ltb hours 2); repeat py_step; [done |].
    cbn [number_lt]. change (small_float 8) with 8%float.
    by destruct (PrimFloat.ltb hours 8); repeat py_step.
  - unfold RecurringTask_estimate_effort, recurring_label. repeat py_step.
    unfold frequency_factor. cbn [eq_str].
    destruct (String.eqb freq "daily");
      [| destruct (String.eqb freq "weekly");
         [| destruct (String.eqb freq "monthly");
            [| destruct (String.eqb freq "yearly")]]];
      repeat py_step; destruct prio; reflexivity.
Qed.

Lemma effort_label_in (d : TaskData) :
  effort_label d ∈ effort_labels (variant_class (d_variant d)).
Proof.
  no_runtime. unfold effort_label, recurring_label.
  destruct (d_variant d) as [| project deps hours | freq count lastc];
    cbn [variant_class effort_labels].
  - destruct (d_priority d); set_solver.
  - destruct (PrimFloat.ltb hours 2); [set_solver |].
    destruct (PrimFloat.ltb hours 8); set_solver.
  - destruct (String.eqb freq "daily"), (String.eqb freq "weekly"),
      (String.eqb freq "monthly"), (d_priority d); set_solver.
Qed.

(** On a task of the data model [estimate_effort] never raises and never
    changes the task; it answers with a label of the task's own class
    (four by priority for a simple task, three by hours for a project
    task, four by frequency and priority for a recurring task).  An
    estimate that is not a number ([nan]) is below no threshold: the
    project counts as "Large". *)
Theorem estimate_effort_total (d : TaskData) :
  exists label,
    estimate_effort (task_object d) = (Returns label, task_object d) /\
    label ∈ effort_labels (cls (task_object d)) /\
    (d_variant d = Simple ->
     label = match d_priority d with
             | LOW => "Low" | MEDIUM => "Medium" | HIGH => "High"
             | URGENT => "Very High"
             end) /\
    (forall project deps, d_variant d = Project project deps nan -> label = "Large").
Proof.
  no_runtime. exists (effort_label d). split; [apply effort_label_run |].
  split_and!.
  - replace (cls (task_object d)) with (variant_class (d_variant d));
      [apply effort_label_in |].
    destruct d as [? ? ? ? ? ? ? ? ? ? v]. by destruct v.
  - intros Hv. unfold effort_label. by rewrite Hv.
  - intros project deps Hv. unfold effort_label. by rewrite Hv.
Qed.

(** A recurring task is "Intensive" exactly when it is daily and of
    priority [HIGH] or [URGENT]; a frequency that is none of the four
    recognized texts counts as yearly. *)
Theorem recurring_effort_spec (d : TaskData) (frequency : string) (count : Z)
    (lastc : option datetime) :
  d_variant d = Recurring frequency count lastc ->
  exists label,
    estimate_effort (task_object d) = (Returns label, task_object d) /\
    label = recurring_label frequency (d_priority d) /\
    (label = "Intensive" <->
     frequency = "daily" /\ (d_priority d = HIGH \/ d_priority d = URGENT)) /\
    (frequency ∉ ["daily"; "weekly"; "monthly"; "yearly"] ->
     label = recurring_label "yearly" (d_priority d)).
Proof.
  no_runtime. intros Hv. exists (effort_label d). split; [apply effort_label_run |].
  unfold effort_label. rewrite Hv. split; [done |].
  unfold recurring_label. split.
  - destruct (String.eqb_spec frequency "daily") as [-> | Hd].
    + destruct (d_priority d); naive_solver.
    + destruct (String.eqb frequency "weekly"), (String.eqb frequency "monthly"),
        (d_priority d); naive_solver.
  - intros Hf.
    destruct (String.eqb_spec frequency "daily") as [-> | _]; [set_solver |].
    destruct (String.eqb_spec frequency "weekly") as [-> | _]; [set_solver |].
    destruct (String.eqb_spec frequency "monthly") as [-> | _]; [set_solver |].
    reflexivity.
Qed.

(** ** Queries and filters *)

Lemma eq_str_spec (v : value) (s : string) : eq_str v s = true <-> v = VStr s.
Proof.
  destruct v; cbn [eq_str]; try (split; [discriminate | congruence]).
  rewrite String.eqb_eq. split; congruence.
Qed.

(** A comprehension whose condition never raises is a filter. *)
Lemma comprehension_filter (cond : Task -> outcome bool) (f : Task -> bool)
    (ts : list Task) :
  (forall t, t ∈ ts -> cond t = Returns (f t)) ->
  comprehension cond ts = Returns (filter (fun t => f t = true) ts).
Proof.
  no_runtime. induction ts as [| t ts IH]; intros Hcond; [done |].
  cbn [comprehension]. rewrite Hcond by set_solver. cbn [obind].
  rewrite IH by (intros t' Ht'; apply Hcond; set_solver). cbn [obind].
  rewrite filter_cons. by destruct (f t).
Qed.

Lemma elem_of_task_values (m : TaskManager) (t : Task) :
  t ∈ (map_to_list (tasks m)).*2 <-> exists key, tasks m !! key = Some t.
Proof.
  rewrite list_elem_of_fmap. split.
  - intros ([key t'] & -> & Hin). exists key. by apply elem_of_map_to_list.
  - intros [key Hkey]. exists (key, t). split; [done |]. by apply elem_of_map_to_list.
Qed.

(** [filter_by_effort] on tasks of the data model never raises; it keeps,
    in their order, exactly the tasks whose estimate is the level asked
    for.  The labels belong to the classes: "Small" and "Large" select
    project tasks only, "Medium" selects simple and project tasks but no
    recurring one, and a level that is no text selects nothing. *)
Theorem filter_by_effort_spec (ts : list Task) (level : value) :
  (forall t, t ∈ ts -> exists d, t = task_object d) ->
  exists r,
    filter_by_effort ts level = Returns r /\
    r `sublist_of` ts /\
    (forall t, t ∈ r <->
       t ∈ ts /\ exists label, (estimate_effort t).1 = Returns label /\ level = VStr label) /\
    (forall t, t ∈ r ->
       (level = VStr "Small" \/ level = VStr "Large" -> cls t = ProjectTask) /\
       (level = VStr "Medium" -> cls t ≠ RecurringTask)) /\
    ((forall s, level ≠ VStr s) -> r = []).
Proof.
  no_runtime. intros Hts.
  set (f := fun t => match (estimate_effort t).1 with
                     | Returns label => eq_str level label
                     | Raises _ => false
                     end).
  assert (forall t, t ∈ ts -> exists d, t = task_object d /\ f t = eq_str level (effort_label d))
    as Hf.
  { intros t Ht. destruct (Hts t Ht) as [d ->]. exists d. split; [done |].
    unfold f. by rewrite effort_label_run. }
  exists (filter (fun t => f t = true) ts).
  assert (forall t, t ∈ filter (fun t => f t = true) ts <->
            t ∈ ts /\ exists label, (estimate_effort t).1 = Returns label /\
                                    level = VStr label) as Hchar.
  { intros t. rewrite list_elem_of_filter. split.
    - intros [Hft Ht]. split; [done |]. destruct (Hf t Ht) as (d & -> & Hfd).
      exists (effort_label d). rewrite effort_label_run. split; [done |].
      apply eq_str_spec. by rewrite <- Hfd.
    - intros [Ht (label & Hlabel & ->)]. split; [| done].
      unfold f. rewrite Hlabel. by apply eq_str_spec. }
  split_and!.
  - unfold filter_by_effort. apply comprehension_filter.
    intros t Ht. destruct (Hts t Ht) as [d ->]. unfold f.
    by rewrite effort_label_run.
  - apply sublist_filter.
  - exact Hchar.
  - intros t Ht. apply Hchar in Ht as [Ht (label & Hlabel & ->)].
    destruct (Hts t Ht) as [d ->]. rewrite effort_label_run in Hlabel.
    injection Hlabel as <-. pose proof (effort_label_in d) as Hin.
    replace (cls (task_object d)) with (variant_class (d_variant d))
      by (destruct d as [? ? ? ? ? ? ? ? ? ? v]; by destruct v).
    destruct (d_variant d); cbn [variant_class effort_labels] in *; split.
    + intros [[= H] | [= H]]; rewrite H in Hin; set_solver.
    + done.
    + done.
    + done.
    + intros [[= H] | [= H]]; rewrite H in Hin; set_solver.
    + intros [= H]. rewrite H in Hin. set_solver.
  - intros Hlevel. apply elem_of_nil_inv. intros t Ht.
    apply Hchar in Ht as [_ (label & _ & ->)]. by apply (Hlevel label).
Qed.

Lemma status_filter_lengths (ts : list Task) :
  (forall t, t ∈ ts -> exists s, attrs t !! "status" = Some (VStatus s)) ->
  (length (filter (fun t => status_is NOT_STARTED t = true) ts)
   + length (filter (fun t => status_is IN_PROGRESS t = true) ts)
   + length (filter (fun t => status_is BLOCKED t = true) ts)
   + length (filter (fun t => status_is COMPLETED t = true) ts)
   + length (filter (fun t => status_is CANCELLED t = true) ts) = length ts)%nat.
Proof.
  no_runtime. intros Hts. induction ts as [| t ts IH]; [done |].
  specialize (IH (fun t' Ht' => Hts t' (list_elem_of_further _ _ _ Ht'))).
  destruct (Hts t) as [s Hs]; [set_solver |].
  assert (forall s', status_is s' t = eq_status (VStatus s) s') as E
    by (intros; unfold status_is; by rewrite Hs).
  rewrite !filter_cons, !E.
  destruct s; cbn [eq_status];
    repeat (first [ rewrite bool_decide_eq_true_2 by done
                  | rewrite bool_decide_eq_false_2 by done ]);
    rewrite (decide_True (P := true = true)) by done;
    rewrite !(decide_False (P := false = true)) by done;
    cbn [length]; lia.
Qed.

(** [get_tasks_by_status] never raises as long as every registered task
    has a status: it returns exactly the registered tasks whose status is
    the member asked for.  A task whose status holds anything else (a text
    put there by [update_task], say) is in no answer; when every status is
    a member, the five answers together hold each task once. *)
Theorem get_tasks_by_status_spec (m : TaskManager) :
  (forall key t, tasks m !! key = Some t -> is_Some (attrs t !! "status")) ->
  (forall s, exists r,
     get_tasks_by_status s m = Returns r /\
     forall t, t ∈ r <->
       (exists key, tasks m !! key = Some t) /\ attrs t !! "status" = Some (VStatus s)) /\
  ((forall key t, tasks m !! key = Some t ->
      exists s, attrs t !! "status" = Some (VStatus s)) ->
   exists r1 r2 r3 r4 r5,
     get_tasks_by_status NOT_STARTED m = Returns r1 /\
     get_tasks_by_status IN_PROGRESS m = Returns r2 /\
     get_tasks_by_status BLOCKED m = Returns r3 /\
     get_tasks_by_status COMPLETED m = Returns r4 /\
     get_tasks_by_status CANCELLED m = Returns r5 /\
     (length r1 + length r2 + length r3 + length r4 + length r5
      = size (tasks m))%nat).
Proof.
  no_runtime. intros Hm.
  assert (forall s, get_tasks_by_status s m
            = Returns (filter (fun t => status_is s t = true) (map_to_list (tasks m)).*2))
    as Hrun.
  { intros s. unfold get_tasks_by_status. apply comprehension_filter.
    intros t [key Hkey]%elem_of_task_values.
    destruct (Hm key t Hkey) as [v Hv]. unfold attr_of, status_is. by rewrite Hv. }
  split.
  - intros s. eexists. split; [apply Hrun |].
    intros t. rewrite list_elem_of_filter, elem_of_task_values. unfold status_is.
    split.
    + intros [Hs Ht]. split; [done |].
      destruct (attrs t !! "status") as [v |]; [| done].
      by apply eq_status_spec in Hs as ->.
    + intros [Ht Hs]. split; [| done]. rewrite Hs. by apply eq_status_spec.
  - intros Htyped. eexists _, _, _, _, _.
    split_and!; try apply Hrun.
    rewrite <- length_map_to_list, <- (length_fmap snd (map_to_list (tasks m))).
    apply status_filter_lengths.
    intros t [key Hkey]%elem_of_task_values. by eapply Htyped.
Qed.

(** [get_tasks_by_priority] never raises as long as every registered task
    has a priority, and returns exactly the registered tasks whose
    priority is the member asked for; a task whose priority holds the
    member's name as a text is not among them. *)
Theorem get_tasks_by_priority_spec (p : Priority) (m : TaskManager) :
  (forall key t, tasks m !! key = Some t -> is_Some (attrs t !! "priority")) ->
  exists r,
    get_tasks_by_priority p m = Returns r /\
    (forall t, t ∈ r <->
       (exists key, tasks m !! key = Some t) /\
       attrs t !! "priority" = Some (VPriority p)) /\
    (forall t, attrs t !! "priority" = Some (VStr (Priority_name p)) -> t ∉ r).
Proof.
  no_runtime. intros Hm.
  set (has := fun t => match attrs t !! "priority" with
                       | Some v => eq_priority v p
                       | None => false
                       end).
  assert (forall v, eq_priority v p = true <-> v = VPriority p) as Heq.
  { intros v. destruct v; cbn [eq_priority]; try (split; [discriminate | congruence]).
    rewrite bool_decide_eq_true. split; congruence. }
  exists (filter (fun t => has t = true) (map_to_list (tasks m)).*2).
  assert (forall t, t ∈ filter (fun t => has t = true) (map_to_list (tasks m)).*2 <->
            (exists key, tasks m !! key = Some t) /\
            attrs t !! "priority" = Some (VPriority p)) as Hchar.
  { intros t. rewrite list_elem_of_filter, elem_of_task_values. unfold has. split.
    - intros [Hp Ht]. split; [done |].
      destruct (attrs t !! "priority") as [v |]; [| done].
      by apply Heq in Hp as ->.
    - intros [Ht Hp]. split; [| done]. rewrite Hp. by apply Heq. }
  split_and!.
  - unfold get_tasks_by_priority. apply comprehension_filter.
    intros t [key Hkey]%elem_of_task_values.
    destruct (Hm key t Hkey) as [v Hv]. unfold attr_of, has. by rewrite Hv.
  - exact Hchar.
  - intros t Hp [_ Hp']%Hchar. congruence.
Qed.

Lemma comprehension_has_all_tags (tag : value) (ts : list Task) :
  comprehension
    (fun task =>
       obind (str_lower tag) (fun l =>
       obind (attr_of task "tags") (fun task_tags => contains task_tags l))) ts
  = filter_by_multiple_tags ts [tag].
Proof.
  induction ts as [| t ts IH]; [done |].
  cbn [comprehension filter_by_multiple_tags has_all_tags]. rewrite IH.
  destruct (str_lower tag) as [l |]; [| done]. cbn [obind].
  destruct (attr_of t "tags") as [task_tags |]; [| done]. cbn [obind].
  destruct (contains task_tags l) as [[] |]; reflexivity.
Qed.

(** [get_tasks_by_tag] is [filter_by_multiple_tags] with the one tag, over
    the tasks of the manager: the same answer and the same exception,
    whatever the tag and the tasks are.  The tag is compared by its
    lower-case form, as [str.lower] of the runtime gives it; with no task
    registered the tag is not even looked at, so any value is answered by
    the empty list; over tasks whose tags are sets the answer holds
    exactly the registered tasks that carry the lower-case form of the
    tag. *)
Theorem get_tasks_by_tag_spec (tag : value) (m : TaskManager) :
  get_tasks_by_tag tag m = filter_by_multiple_tags (task_values m) [tag] /\
  (forall x y, lower x = lower y ->
     get_tasks_by_tag (VStr x) m = get_tasks_by_tag (VStr y) m) /\
  (tasks m = ∅ -> get_tasks_by_tag tag m = Returns []) /\
  (forall x,
     (forall key t, tasks m !! key = Some t -> exists s, attrs t !! "tags" = Some (VSet s)) ->
     exists r,
       get_tasks_by_tag (VStr x) m = Returns r /\
       forall t, t ∈ r <-> (exists key, tasks m !! key = Some t) /\ lower x ∈ tags_of t).
Proof.
  no_runtime. split_and!.
  - apply comprehension_has_all_tags.
  - intros x y Hxy. unfold get_tasks_by_tag. cbn [str_lower obind]. by rewrite Hxy.
  - intros Hempty. unfold get_tasks_by_tag. rewrite Hempty.
    by rewrite map_to_list_empty.
  - intros x Hm.
    exists (filter (fun t => bool_decide (lower x ∈ tags_of t) = true)
              (map_to_list (tasks m)).*2).
    split.
    + unfold get_tasks_by_tag. apply comprehension_filter.
      intros t [key Hkey]%elem_of_task_values. destruct (Hm key t Hkey) as [s Hs].
      cbn [str_lower obind]. unfold attr_of, tags_of. by rewrite Hs.
    + intros t. rewrite list_elem_of_filter, elem_of_task_values, bool_decide_eq_true.
      tauto.
Qed.





(** [filter_by_date_range] over tasks whose due date is unset or a
    datetime never raises; it keeps, in their order, exactly the tasks due
    within the bounds, both included, and none without a due date.  A range
    whose end is before its start keeps nothing, and filtering the answer
    again with the same bounds changes nothing. *)
Theorem filter_by_date_range_spec (ts : list Task) (start_date end_date : datetime) :
  (forall t, t ∈ ts ->
     attrs t !! "due_date" = Some VNone \/
     exists d, attrs t !! "due_date" = Some (VDatetime d)) ->
  exists r,
    filter_by_date_range ts start_date end_date = Returns r /\
    r `sublist_of` ts /\
    (forall t, t ∈ r <->
       t ∈ ts /\ exists d, attrs t !! "due_date" = Some (VDatetime d) /\
                           start_date <= d <= end_date) /\
    (end_date < start_date -> r = []) /\
    filter_by_date_range r start_date end_date = Returns r.
Proof.
  no_runtime. intros Hts.
  set (f := fun t => match due_of t with
                     | Some d => (start_date <=? d) && (d <=? end_date)
                     | None => false
                     end).
  assert (forall l, (forall t, t ∈ l -> t ∈ ts) ->
            filter_by_date_range l start_date end_date
              = Returns (filter (fun t => f t = true) l)) as Hrun.
  { intros l Hl. unfold filter_by_date_range. apply comprehension_filter.
    intros t Ht. unfold attr_of, f, due_of.
    destruct (Hts t (Hl t Ht)) as [Hd | [d Hd]]; rewrite Hd; reflexivity. }
  assert (forall t, f t = true <->
            exists d, attrs t !! "due_date" = Some (VDatetime d) /\
                      start_date <= d <= end_date) as Hf.
  { intros t. unfold f, due_of. split.
    - destruct (attrs t !! "due_date") as [[] |]; try discriminate.
      intros [H1 H2]%andb_true_iff. eexists. split; [done |].
      apply Z.leb_le in H1, H2. lia.
    - intros (d & -> & H1 & H2). apply andb_true_iff. split; by apply Z.leb_le. }
  exists (filter (fun t => f t = true) ts). split_and!.
  - by apply Hrun.
  - apply sublist_filter.
  - intros t. rewrite list_elem_of_filter, Hf. tauto.
  - intros Hempty. apply elem_of_nil_inv. intros t [Ht _]%list_elem_of_filter.
    apply Hf in Ht as (d & _ & ? & ?). lia.
  - rewrite Hrun by (intros t [_ Ht]%list_elem_of_filter; done).
    f_equal. by apply list_filter_filter_l.
Qed.

(** ** How the operations of the manager compose *)

Lemma add_task_run (now : datetime) (t : Task) (m : TaskManager)
    (key : string) (title : value) (h : list value) :
  attrs t !! "id" = Some (VStr key) ->
  attrs t !! "title" = Some title ->
  task_history m = VList h ->
  add_task now t m =
    (Returns t,
     mkTaskManager (<[key := t]> (tasks m))
       (VList (h ++ [history_entry "add" (VStr key) title now]))).
Proof.
  intros Hid Htitle Hh. unfold add_task, task_key, attr_of.
  rewrite Hid. cbn [obind]. rewrite bind_lift_returns.
  unfold bind at 1. unfold store_task at 1.
  by rewrite (record_history_run _ _ _ _ _ (VStr key) title h).
Qed.

Lemma delete_task_run (now : datetime) (task_id : string) (m : TaskManager)
    (t : Task) (id title : value) (h : list value) :
  tasks m !! task_id = Some t ->
  attrs t !! "id" = Some id ->
  attrs t !! "title" = Some title ->
  task_history m = VList h ->
  delete_task now task_id m =
    (Returns true,
     mkTaskManager (delete task_id (tasks m))
       (VList (h ++ [history_entry "delete" id title now]))).
Proof.
  intros Ht Hid Htitle Hh. unfold delete_task.
  unfold bind at 1. unfold get_task at 1. rewrite Ht.
  unfold bind at 1.
  by rewrite (record_history_run _ _ _ _ _ id title h).
Qed.

(** Adding a task under a new identifier and deleting it again gives back
    the collection as it was, but not the manager: the history has grown
    by an "add" and a "delete" record.  In between [get_task] finds the
    task, afterwards it finds nothing. *)
Theorem add_then_delete (now1 now2 : datetime) (t : Task) (m : TaskManager)
    (key : string) (title : value) (h : list value) :
  attrs t !! "id" = Some (VStr key) ->
  attrs t !! "title" = Some title ->
  task_history m = VList h ->
  tasks m !! key = None ->
  exists m1 m2,
    add_task now1 t m = (Returns t, m1) /\
    get_task key m1 = (Returns (Some t), m1) /\
    delete_task now2 key m1 = (Returns true, m2) /\
    get_task key m2 = (Returns None, m2) /\
    tasks m2 = tasks m /\
    task_history m2 =
      VList (h ++ [history_entry "add" (VStr key) title now1;
                   history_entry "delete" (VStr key) title now2]).
Proof.
  intros Hid Htitle Hh Hfresh.
  rewrite (add_task_run now1 t m key title h) by done.
  eexists _, _. split; [reflexivity |].
  split; [unfold get_task; cbn [tasks]; by rewrite lookup_insert_eq |].
  split.
  - erewrite (delete_task_run now2 key _ t (VStr key) title); [reflexivity | | done | done | done].
    cbn [tasks]. apply lookup_insert_eq.
  - cbn [tasks task_history]. split_and!.
    + unfold get_task. cbn [tasks]. by rewrite lookup_delete_eq.
    + rewrite delete_insert_eq. by apply delete_id.
    + by rewrite <- app_assoc.
Qed.

(** The history only grows: whatever [add_task], [update_task] and
    [delete_task] are given, and whether they return or raise, the
    history they leave is the old one with at most one record appended;
    [update_task] and [delete_task] on an identifier that is not
    registered append nothing. *)
Theorem history_append_only (now1 now2 : datetime) (t : Task) (task_id : string)
    (kwargs : list (string * value)) (m : TaskManager) (h : list value) :
  task_history m = VList h ->
  (exists l, task_history (add_task now1 t m).2 = VList (h ++ l) /\ (length l <= 1)%nat) /\
  (exists l, task_history (update_task now1 now2 task_id kwargs m).2 = VList (h ++ l) /\
             (length l <= 1)%nat /\ (tasks m !! task_id = None -> l = [])) /\
  (exists l, task_history (delete_task now1 task_id m).2 = VList (h ++ l) /\
             (length l <= 1)%nat /\ (tasks m !! task_id = None -> l = [])).
Proof.
  intros Hh.
  assert (forall now action task m0,
            task_history m0 = VList h ->
            exists l, task_history (_record_history now action task m0).2 = VList (h ++ l) /\
                      (length l <= 1)%nat) as Hrec.
  { intros now action task m0 Hm0.
    unfold _record_history, bind, history_list, lift, attr_of, set_history.
    rewrite Hm0.
    destruct (attrs task !! "id"); [destruct (attrs task !! "title") |]; cbn.
    - eexists. split. { reflexivity. } cbn [length]. lia.
    - exists []. rewrite app_nil_r. split; [done | cbn [length]; lia].
    - exists []. rewrite app_nil_r. split; [done | cbn [length]; lia]. }
  assert (forall {A} now action task (k : Py TaskManager A) m0,
            task_history m0 = VList h ->
            (forall m1, task_history (k m1).2 = task_history m1) ->
            exists l, task_history (bind (_record_history now action task)
                                         (fun _ => k) m0).2 = VList (h ++ l) /\
                      (length l <= 1)%nat) as Hbind.
  { intros A now action task k m0 Hm0 Hk.
    destruct (Hrec now action task m0 Hm0) as (l & Hl & Hlen).
    exists l. split; [| done]. unfold bind.
    destruct (_record_history now action task m0) as [[[] | e] m1]; cbn in *;
      [by rewrite Hk | done]. }
  split_and!.
  - unfold add_task. unfold bind at 1. unfold lift at 1.
    destruct (task_key t) as [key | e]; cbn [snd].
    + unfold bind at 1. unfold store_task at 1. apply Hbind; done.
    + exists []. rewrite app_nil_r. split; [done | cbn [length]; lia].
  - destruct (binds_parameter kwargs) eqn:Hb.
    { unfold update_task. rewrite Hb. exists []. rewrite app_nil_r. cbn [snd raise].
      split_and!; [done | cbn [length]; lia | done]. }
    destruct (tasks m !! task_id) as [task |] eqn:E.
    + rewrite (update_task_found now1 now2 task_id kwargs m task Hb E). cbv zeta.
      destruct ((patch_attrs kwargs ;; setattr "updated_at" (VDatetime now1))%py task)
        as [[[] | e] t'].
      * cbn [fst snd].
        destruct (Hbind bool now2 "update" t' (ret true)
                    (mkTaskManager (<[task_id := t']> (tasks m)) (task_history m))
                    Hh (fun _ => eq_refl)) as (l & Hl & Hlen).
        exists l. split_and!; [exact Hl | done | done].
      * exists []. rewrite app_nil_r. cbn [fst snd task_history].
        split_and!; [done | cbn [length]; lia | done].
    + rewrite update_task_unknown by done.
      exists []. rewrite app_nil_r. cbn [snd]. split_and!; [done | cbn [length]; lia | done].
  - unfold delete_task. unfold bind at 1. unfold get_task at 1.
    destruct (tasks m !! task_id) as [task |] eqn:E.
    + unfold bind at 1.
      destruct (Hbind bool now1 "delete" task (ret true)
                  (mkTaskManager (delete task_id (tasks m)) (task_history m))
                  Hh (fun _ => eq_refl)) as (l & Hl & Hlen).
      exists l. split_and!; [exact Hl | done | done].
    + exists []. rewrite app_nil_r. cbn [snd ret]. split_and!; [done | cbn [length]; lia | done].
Qed.

Lemma serializable_history_entry (action key title : string) (now : datetime) :
  serializable (history_entry action (VStr key) (VStr title) now) = true.
Proof. reflexivity. Qed.

Lemma task_object_id_title (d : TaskData) :
  attrs (task_object d) !! "id" = Some (VStr (d_id d)) /\
  attrs (task_object d) !! "title" = Some (VStr (d_title d)).
Proof.
  destruct d as [id title desc prio status created updated due completion tags v].
  by destruct v.
Qed.

Lemma add_task_keeps_model (now : datetime) (d : TaskData) (m : TaskManager) :
  in_model m ->
  exists m', add_task now (task_object d) m = (Returns (task_object d), m') /\
             in_model m' /\
             tasks m' = <[d_id d := task_object d]> (tasks m).
Proof.
  intros (Htasks & [h Hh] & Hser).
  destruct (task_object_id_title d) as [Hid Htitle].
  rewrite (add_task_run now _ m (d_id d) (VStr (d_title d)) h) by done.
  eexists. split; [reflexivity |]. split; [| done].
  split_and!; cbn [tasks task_history].
  - intros key t. destruct (decide (key = d_id d)) as [-> | Hne].
    + rewrite lookup_insert_eq. intros [= <-]. by exists d.
    + rewrite lookup_insert_ne by done. apply Htasks.
  - eauto.
  - rewrite Hh in Hser. cbn [serializable] in *.
    rewrite forallb_app, Hser. reflexivity.
Qed.

(** The manager stays in the data model: a new manager is in it, and
    [add_task] of a task of the data model and [delete_task] never raise
    on a manager that is in it and leave one that is in it.  So whatever
    is built with these operations can be saved and loaded back. *)
Theorem manager_keeps_model :
  in_model TaskManager_init /\
  (forall now d m, in_model m ->
     exists m', add_task now (task_object d) m = (Returns (task_object d), m') /\
                in_model m') /\
  (forall now task_id m, in_model m ->
     exists found m', delete_task now task_id m = (Returns found, m') /\
                      in_model m' /\
                      (found = true <-> is_Some (tasks m !! task_id))).
Proof.
  split_and!.
  - split_and!; [| by exists [] | done]. intros key t H.
    unfold TaskManager_init in H. cbn [tasks] in H. by rewrite lookup_empty in H.
  - intros now d m Hm.
    destruct (add_task_keeps_model now d m Hm) as (m' & Hrun & Hm' & _).
    by exists m'.
  - intros now task_id m (Htasks & [h Hh] & Hser).
    destruct (tasks m !! task_id) as [t |] eqn:E.
    + destruct (Htasks task_id t E) as (d & -> & Hkey).
      destruct (task_object_id_title d) as [Hid Htitle].
      rewrite (delete_task_run now task_id m _ _ _ h E Hid Htitle Hh).
      eexists _, _. split; [reflexivity |]. split; [| split; eauto].
      unfold in_model. split_and!; cbn [tasks task_history].
      * intros key t. destruct (decide (key = task_id)) as [-> | Hne].
        -- by rewrite lookup_delete_eq.
        -- rewrite lookup_delete_ne by done. apply Htasks.
      * eauto.
      * rewrite Hh in Hser. cbn [serializable] in *.
        rewrite forallb_app, Hser. reflexivity.
    + exists false, m. split_and!.
      * unfold delete_task, bind, get_task. by rewrite E.
      * unfold in_model. eauto.
      * split; [done | by intros [? ?]].
Qed.


(** ** The data model is kept *)

Lemma task_object_attrs (d : TaskData) :
  attrs (task_object d) !! "tags" = Some (VSet (d_tags d)) /\
  attrs (task_object d) !! "due_date" = Some (opt_datetime (d_due_date d)) /\
  attrs (task_object d) !! "status" = Some (VStatus (d_status d)).
Proof.
  destruct d as [id title desc prio status created updated due completion tags v].
  by destruct v.
Qed.

(** The methods keep a task in the data model and never touch its
    identifier: [update_status] with a member, [add_tag] and [remove_tag]
    with a text, [set_estimate] on a project task with anything [float]
    accepts, [complete_occurrence] on a recurring task whose due date can
    move, and [add_dependency] on a project task all return a task of the
    data model again, with the attribute they are about changed as their
    name says. *)
Theorem task_methods_keep_model (d : TaskData) :
  (forall now s, exists d',
     update_status now (VStatus s) (task_object d) = (Returns tt, task_object d') /\
     d_id d' = d_id d /\ d_status d' = s /\ d_updated_at d' = now) /\
  (forall now x, exists d',
     add_tag now (VStr x) (task_object d) = (Returns tt, task_object d') /\
     d_id d' = d_id d /\ d_tags d' = {[ lower x ]} ∪ d_tags d) /\
  (forall now x, exists d',
     remove_tag now (VStr x) (task_object d) = (Returns tt, task_object d') /\
     d_id d' = d_id d /\ d_tags d' = d_tags d ∖ {[ lower x ]}) /\
  (forall now hours f project deps h,
     d_variant d = Project project deps h ->
     py_float hours = Returns f ->
     exists d',
       set_estimate now hours (task_object d) = (Returns tt, task_object d') /\
       d_id d' = d_id d /\ d_variant d' = Project project deps f) /\
  (forall now1 now2 frequency count lastc due,
     d_variant d = Recurring frequency count lastc ->
     d_due_date d = Some due ->
     datetime_min <= due + timedelta_days (offset_days (VStr frequency)) <= datetime_max ->
     exists d',
       complete_occurrence now1 now2 (task_object d) = (Returns tt, task_object d') /\
       d_id d' = d_id d /\ d_status d' = NOT_STARTED /\
       d_variant d' = Recurring frequency (count + 1) (Some now1)) /\
  (forall now other project deps h,
     d_variant d = Project project deps h ->
     exists d',
       add_dependency now (task_object other) (task_object d)
         = (Returns tt, task_object d') /\
       d_id d' = d_id d /\
       d_variant d' = Project project ({[ d_id other ]} ∪ deps) h).
Proof.
  no_runtime.
  destruct (task_object_attrs d) as (Htags & Hdue & Hstatus).
  split_and!.
  - intros now s. rewrite update_status_member. cbv zeta.
    destruct d as [id title desc prio status created updated due completion tags v].
    destruct (decide (s = COMPLETED)) as [-> | Hne].
    + exists (mkTaskData id title desc prio COMPLETED created now due (Some now) tags v).
      split; [| done]. by destruct v.
    + exists (mkTaskData id title desc prio s created now due completion tags v).
      split; [| done]. by destruct v.
  - intros now x. rewrite (add_tag_run now x _ _ Htags).
    destruct d as [id title desc prio status created updated due completion tags v].
    exists (mkTaskData id title desc prio status created now due completion
              ({[ lower x ]} ∪ tags) v).
    split; [| done]. by destruct v.
  - intros now x. destruct (decide (lower x ∈ d_tags d)) as [Hx | Hx].
    + rewrite (remove_tag_present now x _ _ Htags Hx).
      destruct d as [id title desc prio status created updated due completion tags v].
      exists (mkTaskData id title desc prio status created now due completion
                (tags ∖ {[ lower x ]}) v).
      split; [| done]. by destruct v.
    + rewrite (remove_tag_absent now x _ _ Htags Hx).
      exists d. split_and!; [done | done |]. set_solver.
  - intros now hours f project deps h Hv Hf. unfold set_estimate. rewrite Hf.
    repeat py_step. rewrite setattr_run.
    destruct d as [id title desc prio status created updated due completion tags v].
    cbn [d_variant] in Hv. subst v.
    by exists (mkTaskData id title desc prio status created now due completion tags
                 (Project project deps f)).
  - intros now1 now2 frequency count lastc due Hv Hd Hrange.
    destruct d as [id title desc prio status created updated due' completion tags v].
    cbn [d_variant d_due_date] in Hv, Hd. subst v due'.
    rewrite (complete_occurrence_run now1 now2 _ count due (VStr frequency));
      [| done | done | done | done].
    cbv zeta.
    exists (mkTaskData id title desc prio NOT_STARTED created now2
              (Some (due + timedelta_days (offset_days (VStr frequency)))) completion tags
              (Recurring frequency (count + 1) (Some now1))).
    split; [| done].
    destruct (decide (offset_days (VStr frequency) = 0)) as [E | E]; [| done].
    rewrite E. unfold timedelta_days. by replace (due + 0 * microseconds_per_day) with due by lia.
  - intros now other project deps h Hv.
    destruct (task_object_id_title other) as [Hother _].
    destruct d as [id title desc prio status created updated due completion tags v].
    cbn [d_variant] in Hv. subst v.
    rewrite (add_dependency_run now _ _ (d_id other) deps Hother) by done.
    by exists (mkTaskData id title desc prio status created now due completion tags
                 (Project project ({[ d_id other ]} ∪ deps) h)).
Qed.

(** ** Persistence *)

Lemma isoformat_or_none_opt (o : option datetime) :
  isoformat_or_none (opt_datetime o) = Returns (opt_iso o).
Proof. by destruct o. Qed.

Lemma bind_get_class {B} (k : TaskClass -> Py Task B) (t : Task) :
  bind get_class k t = k (cls t) t.
Proof. reflexivity. Qed.

Lemma to_dict_task_object (d : TaskData) :
  to_dict (task_object d) = (Returns (task_json d), task_object d).
Proof.
  destruct d as [id title desc prio status created updated due completion tags v].
  unfold to_dict. rewrite bind_get_class.
  destruct v as [| project deps hours | freq count lastc];
    cbn [cls task_object variant_class d_variant set_attr];
    unfold ProjectTask_to_dict, RecurringTask_to_dict, Task_to_dict;
    unfold task_json, task_object;
    cbn [d_id d_title d_description d_priority d_status d_created_at d_updated_at
         d_due_date d_completion_date d_tags d_variant variant_class];
    repeat (first [ py_step
                  | rewrite bind_get_class
                  | rewrite isoformat_or_none_opt
                  | progress cbn [enum_name py_isoformat py_list iterate obind] ]);
    reflexivity.
Qed.

Lemma bind_dict_pop {B} (k : string) (v : value) (c : value -> Py dict B) (d : dict) :
  dict_lookup k d = Some v -> bind (dict_pop k) c d = c v (dict_remove k d).
Proof. intros H. unfold bind, dict_pop. by rewrite H. Qed.

Lemma bind_dict_pop_default {B} (k : string) (dflt v : value)
    (c : value -> Py dict B) (d : dict) :
  dict_lookup k d = Some v ->
  bind (dict_pop_default k dflt) c d = c v (dict_remove k d).
Proof. intros H. unfold bind, dict_pop_default. by rewrite H. Qed.

Lemma Priority_of_name_name (p : Priority) : Priority_of_name (Priority_name p) = Some p.
Proof. by destruct p. Qed.

Lemma TaskStatus_of_name_name (s : TaskStatus) :
  TaskStatus_of_name (TaskStatus_name s) = Some s.
Proof. by destruct s. Qed.

Lemma bind_convert_priority {B} (p : Priority) (c : unit -> Py dict B) (d : dict) :
  dict_lookup "priority" d = Some (VStr (Priority_name p)) ->
  bind convert_priority c d = c tt (dict_store "priority" (VPriority p) d).
Proof.
  intros H. unfold convert_priority, bind, dict_has, dict_getitem, lift, dict_setitem.
  rewrite H. rewrite bool_decide_eq_true_2 by eauto. rewrite H.
  unfold Priority_getitem. by rewrite Priority_of_name_name.
Qed.

Lemma bind_convert_status {B} (s : TaskStatus) (c : unit -> Py dict B) (d : dict) :
  dict_lookup "status" d = Some (VStr (TaskStatus_name s)) ->
  bind convert_status c d = c tt (dict_store "status" (VStatus s) d).
Proof.
  intros H. unfold convert_status, bind, dict_has, dict_getitem, lift, dict_setitem.
  rewrite H. rewrite bool_decide_eq_true_2 by eauto. rewrite H.
  unfold TaskStatus_getitem. by rewrite TaskStatus_of_name_name.
Qed.

Lemma bind_convert_date_absent {B} (field : string) (c : unit -> Py dict B) (d : dict) :
  default VNone (dict_lookup field d) = VNone ->
  bind (convert_date field) c d = c tt d.
Proof.
  intros H. unfold convert_date, bind, dict_get. by rewrite H.
Qed.

Lemma strings_of_fmap (l : list string) : strings_of (VStr <$> l) = Some l.
Proof. induction l as [| s l IH]; [done |]. cbn. by rewrite IH. Qed.

Lemma py_set_tag_list (s : gset string) : py_set (tag_list s) = Returns (VSet s).
Proof.
  unfold py_set, tag_list. cbn [iterate obind]. rewrite strings_of_fmap.
  by rewrite list_to_set_elements_L.
Qed.

Lemma serializable_tag_list (s : gset string) : serializable (tag_list s) = true.
Proof.
  unfold tag_list. cbn [serializable]. induction (elements s) as [| x l IH]; [done |].
  cbn. exact IH.
Qed.

Section RoundTrip.

(** What the round trip needs of the runtime: [fromisoformat] reads back
    what [isoformat] writes, and [isoformat] never writes the empty
    text. *)
Hypothesis fromisoformat_isoformat : forall d, fromisoformat (isoformat d) = Some d.
Hypothesis isoformat_nonempty : forall d, isoformat d ≠ "".

Lemma bind_convert_date {B} (field : string) (x : datetime)
    (c : unit -> Py dict B) (d : dict) :
  dict_lookup field d = Some (VStr (isoformat x)) ->
  bind (convert_date field) c d = c tt (dict_store field (VDatetime x) d).
Proof using fromisoformat_isoformat isoformat_nonempty.
  intros H.
  unfold convert_date, bind, dict_get, dict_getitem, lift, dict_setitem.
  rewrite H. unfold default. cbn [from_option id truthy].
  assert (String.eqb (isoformat x) "" = false) as ->
    by (apply String.eqb_neq, isoformat_nonempty).
  cbn [negb]. rewrite H. unfold py_fromisoformat. by rewrite fromisoformat_isoformat.
Qed.

Ltac load_step :=
  first
    [ rewrite bind_assoc
    | rewrite bind_ret
    | rewrite bind_lift_returns
    | rewrite py_set_tag_list
    | erewrite bind_dict_pop by reflexivity
    | erewrite bind_dict_pop_default by reflexivity
    | erewrite bind_convert_date by reflexivity
    | rewrite bind_convert_date_absent by reflexivity
    | erewrite bind_convert_priority by reflexivity
    | erewrite bind_convert_status by reflexivity ];
  cbv beta;
  cbn [for_each dict_store dict_remove String.eqb Ascii.eqb Bool.eqb eq_str
       class_name variant_class].

Lemma load_task_json (uid : string) (now : datetime) (d : TaskData) :
  (load_task uid now (task_json d)).1 = Returns (Some (task_object d)).
Proof using fromisoformat_isoformat isoformat_nonempty.
  destruct d as [id title desc prio status created updated due completion tags v].
  unfold load_task, task_json, task_object.
  cbn [d_id d_title d_description d_priority d_status d_created_at d_updated_at
       d_due_date d_completion_date d_tags d_variant variant_class class_name].
  destruct v as [| project deps hours | freq count lastc].
  - destruct due, completion; cbn [opt_iso app for_each];
      unfold set_common_properties; repeat load_step;
      cbn [ret fst opt_datetime]; reflexivity.
  - destruct due, completion; cbn [opt_iso app for_each];
      unfold set_common_properties; repeat load_step;
      cbn [ret fst opt_datetime]; reflexivity.
  - destruct due, completion, lastc; cbn [opt_iso app for_each];
      unfold set_common_properties; repeat load_step;
      cbn [ret fst opt_datetime]; reflexivity.
Qed.

Lemma serializable_opt_iso (o : option datetime) : serializable (opt_iso o) = true.
Proof. by destruct o. Qed.

Lemma serializable_opt_str (o : option string) : serializable (opt_str o) = true.
Proof. by destruct o. Qed.

Lemma serializable_task_json (d : TaskData) : serializable (VDict (task_json d)) = true.
Proof.
  destruct d as [id title desc prio status created updated due completion tags v].
  unfold task_json.
  cbn [d_id d_title d_description d_priority d_status d_created_at d_updated_at
       d_due_date d_completion_date d_tags d_variant].
  destruct v; cbn [app serializable forallb];
    rewrite ?serializable_opt_iso, ?serializable_opt_str, ?serializable_tag_list;
    reflexivity.
Qed.

Lemma json_of_task_object (d : TaskData) : json_of (task_object d) = VDict (task_json d).
Proof. unfold json_of. by rewrite to_dict_task_object. Qed.

Lemma to_dict_all_filed (l : list (string * Task)) :
  Forall filed l ->
  to_dict_all (l.*2) = Returns (json_of <$> l.*2) /\
  forallb serializable (json_of <$> l.*2) = true.
Proof.
  induction 1 as [| [key t] l (d & Ht & Hkey) Hl [IH1 IH2]]; [done |].
  cbn [fmap list_fmap snd to_dict_all forallb] in *. subst t.
  rewrite json_of_task_object, to_dict_task_object. cbn [fst obind].
  rewrite IH1. cbn [obind]. split; [done |].
  by rewrite serializable_task_json, IH2.
Qed.

Lemma load_tasks_filed (uid : string) (now : datetime) (l : list (string * Task))
    (m1 : TaskManager) :
  Forall filed l ->
  load_tasks uid now (json_of <$> l.*2) m1 =
    (Returns tt,
     mkTaskManager (foldl (fun acc kv => <[kv.1 := kv.2]> acc) (tasks m1) l)
       (task_history m1)).
Proof using fromisoformat_isoformat isoformat_nonempty.
  intros Hl. revert m1.
  induction Hl as [| [key t] l (d & Ht & Hkey) Hl IH]; intros m1.
  - by destruct m1.
  - cbn [fmap list_fmap snd fst load_tasks foldl] in *. subst t key.
    rewrite json_of_task_object. unfold load_entry.
    rewrite load_task_json. rewrite bind_lift_returns.
    rewrite bind_assoc.
    assert (task_key (task_object d) = Returns (d_id d)) as ->.
    { destruct d as [id title desc prio status created updated due completion tags v].
      by destruct v. }
    rewrite bind_lift_returns. unfold bind at 1. unfold store_task at 1.
    by rewrite IH.
Qed.

Lemma foldl_insert_list_to_map (l : list (string * Task)) (acc : gmap string Task) :
  NoDup (l.*1) ->
  foldl (fun acc kv => <[kv.1 := kv.2]> acc) acc l = list_to_map l ∪ acc.
Proof.
  revert acc. induction l as [| [k t] l IH]; intros acc Hnd.
  - cbn. by rewrite (left_id_L ∅ (∪)).
  - cbn [fmap list_fmap fst] in Hnd. apply NoDup_cons in Hnd as [Hk Hnd].
    cbn [foldl fst snd list_to_map foldr]. rewrite IH by done.
    rewrite <- insert_union_r by (by apply not_elem_of_list_to_map_1).
    by rewrite insert_union_l.
Qed.

Lemma foldl_insert_map_to_list (ts : gmap string Task) :
  foldl (fun acc kv => <[kv.1 := kv.2]> acc) ∅ (map_to_list ts) = ts.
Proof.
  rewrite foldl_insert_list_to_map by apply NoDup_fst_map_to_list.
  by rewrite list_to_map_to_list, (right_id_L ∅ (∪)).
Qed.

(** C1: for a manager whose tasks are tasks of the data model, each filed
    under its own identifier, and whose history [json.dump] accepts,
    [save_to_file] succeeds and [load_from_file] on the file it wrote,
    into any manager, returns [True] and leaves a manager with the same
    collection (every task with all its attributes, the variant-specific
    ones included) and the same history. *)
Theorem save_load_roundtrip (uid : string) (now : datetime) (filename : string)
    (m m0 : TaskManager) (fs : filesystem) :
  (forall key t, tasks m !! key = Some t ->
     exists d, t = task_object d /\ d_id d = key) ->
  serializable (task_history m) = true ->
  exists fs' m',
    save_to_file filename m fs = (Returns tt, fs') /\
    load_from_file uid now filename fs' m0 = (Returns true, m') /\
    tasks m' = tasks m /\
    task_history m' = task_history m /\
    m' = m.
Proof using fromisoformat_isoformat isoformat_nonempty.
  intros Hm Hh.
  assert (Forall filed (map_to_list (tasks m))) as Hl.
  { apply Forall_forall. intros [key t] Hin. apply elem_of_map_to_list in Hin.
    destruct (Hm key t Hin) as (d & ? & ?). by exists d. }
  destruct (to_dict_all_filed _ Hl) as [Hdicts Hser].
  unfold save_to_file, task_values. rewrite Hdicts, bind_lift_returns.
  cbn [serializable forallb]. rewrite Hser, Hh. cbn [andb].
  exists (<[filename :=
             Document (VDict [("tasks", VList (json_of <$> (map_to_list (tasks m)).*2));
                              ("history", task_history m)])]> fs), m.
  split; [reflexivity |].
  unfold load_from_file. rewrite lookup_insert_eq.
  unfold bind at 1. unfold set_tasks at 1.
  cbn [py_get dict_lookup String.eqb Ascii.eqb Bool.eqb default from_option id].
  rewrite bind_lift_returns. unfold bind at 1. unfold set_history at 1.
  rewrite bind_lift_returns. cbn [iterate]. rewrite bind_lift_returns.
  unfold bind. rewrite load_tasks_filed by done.
  cbn [tasks task_history]. rewrite foldl_insert_map_to_list.
  destruct m; by split_and!.
Qed.

(** *** Saving after an unchecked update *)

Lemma hasattr_task_object (d : TaskData) :
  hasattr (task_object d) "status" = true /\ hasattr (task_object d) "title" = true.
Proof.
  destruct (task_object_attrs d) as (_ & _ & Hstatus).
  destruct (task_object_id_title d) as [_ Htitle].
  unfold hasattr. rewrite Hstatus, Htitle.
  by rewrite !bool_decide_eq_true_2 by eauto.
Qed.

Lemma to_dict_text_status (now1 : datetime) (s : string) (d : TaskData) :
  (to_dict (patched now1 [("status", VStr s)] (task_object d))).1
    = Raises AttributeError.
Proof.
  rewrite patched_singleton;
    [| apply plain_names, list_elem_of_here | apply hasattr_task_object].
  destruct d as [id title desc prio status created updated due completion tags v].
  by destruct v.
Qed.

Lemma to_dict_title (now1 : datetime) (x : value) (d : TaskData) :
  exists rest,
    (to_dict (patched now1 [("title", x)] (task_object d))).1
      = Returns (("id", VStr (d_id d)) :: ("title", x) :: rest).
Proof.
  rewrite patched_singleton;
    [| apply plain_names; do 2 apply list_elem_of_further; apply list_elem_of_here
     | apply hasattr_task_object].
  destruct d as [id title desc prio status created updated due completion tags v].
  unfold to_dict. rewrite bind_get_class.
  destruct v as [| project deps hours | freq count lastc];
    cbn [cls task_object variant_class d_variant set_attr];
    unfold ProjectTask_to_dict, RecurringTask_to_dict, Task_to_dict;
    unfold task_object;
    cbn [d_id d_title d_description d_priority d_status d_created_at d_updated_at
         d_due_date d_completion_date d_tags d_variant variant_class];
    repeat (first [ py_step
                  | rewrite bind_get_class
                  | rewrite isoformat_or_none_opt
                  | progress cbn [enum_name py_isoformat py_list iterate obind] ]);
    eexists; reflexivity.
Qed.

Lemma to_dict_all_raises (e : exn) (bad : Task) (l : list Task) :
  (to_dict bad).1 = Raises e ->
  Forall (fun t => (exists d, t = task_object d) \/ t = bad) l ->
  bad ∈ l ->
  to_dict_all l = Raises e.
Proof.
  intros Hbad Hl. induction Hl as [| t l Ht Hl IH]; intros Hin.
  - by apply elem_of_nil in Hin.
  - cbn [to_dict_all]. destruct Ht as [[d ->] | ->].
    + rewrite to_dict_task_object. cbn [fst obind].
      apply elem_of_cons in Hin as [-> | Hin].
      * rewrite to_dict_task_object in Hbad. discriminate.
      * by rewrite IH.
    + by rewrite Hbad.
Qed.

Lemma to_dict_all_returns (l : list Task) :
  Forall (fun t => exists dd, (to_dict t).1 = Returns dd) l ->
  to_dict_all l = Returns (json_of <$> l).
Proof.
  induction 1 as [| t l [dd Ht] Hl IH]; [done |].
  cbn [to_dict_all fmap list_fmap]. unfold json_of at 1.
  rewrite Ht, IH. reflexivity.
Qed.

Lemma forallb_false {A} (f : A -> bool) (x : A) (l : list A) :
  x ∈ l -> f x = false -> forallb f l = false.
Proof.
  intros Hin Hx. induction l as [| y l IH]; [by apply elem_of_nil in Hin |].
  cbn [forallb]. apply elem_of_cons in Hin as [<- | Hin].
  - by rewrite Hx.
  - rewrite IH by done. apply andb_false_r.
Qed.

Lemma task_values_insert (task_id : string) (t' : Task) (m : TaskManager) (h : value) :
  (forall key t, tasks m !! key = Some t -> exists d, t = task_object d /\ d_id d = key) ->
  Forall (fun t => (exists d, t = task_object d) \/ t = t')
    (task_values (mkTaskManager (<[task_id := t']> (tasks m)) h)) /\
  t' ∈ task_values (mkTaskManager (<[task_id := t']> (tasks m)) h).
Proof.
  no_runtime. intros Hm. unfold task_values. split.
  - apply Forall_forall. intros t [key Hkey]%elem_of_task_values. cbn [tasks] in Hkey.
    destruct (decide (key = task_id)) as [-> | Hne].
    + rewrite lookup_insert_eq in Hkey. right. congruence.
    + rewrite lookup_insert_ne in Hkey by done.
      destruct (Hm key t Hkey) as (d & -> & _). left. by exists d.
  - apply elem_of_task_values. exists task_id. cbn [tasks]. apply lookup_insert_eq.
Qed.

(** What [update_task] lets through stops [save_to_file]: once the
    keyword [status] has put a text into the status of a task,
    [save_to_file] raises [AttributeError] (the text has no [name]),
    before the file is opened, so no file is touched. *)
Theorem save_after_text_status (now1 now2 : datetime) (task_id s filename : string)
    (m : TaskManager) (fs : filesystem) :
  in_model m ->
  is_Some (tasks m !! task_id) ->
  exists m',
    update_task now1 now2 task_id [("status", VStr s)] m = (Returns true, m') /\
    save_to_file filename m' fs = (Raises AttributeError, fs).
Proof.
  intros (Hm & [h Hh] & _) [t Ht].
  destruct (Hm task_id t Ht) as (d & -> & Hkey).
  destruct (task_object_id_title d) as [Hid Htitle].
  destruct (plain_names "status") as [Hk1 Hk2]; [apply list_elem_of_here |].
  destruct (update_task_single now1 now2 task_id "status" (VStr s) m (task_object d) h
              Hk1 Hk2)
    as (id' & title' & Hrun & _); [apply hasattr_task_object | done | by eexists..| done |].
  rewrite Hrun. eexists. split; [reflexivity |].
  destruct (task_values_insert task_id
              (patched now1 [("status", VStr s)] (task_object d)) m
              (VList (h ++ [history_entry "update" id' title' now2])) Hm) as [Hall Hin].
  unfold save_to_file.
  rewrite (to_dict_all_raises AttributeError _ _ (to_dict_text_status now1 s d) Hall Hin).
  reflexivity.
Qed.

(** A save that fails half-way destroys the file: once the keyword
    [title] has put a value that [json.dump] cannot write into a task,
    [save_to_file] raises [TypeError] after the file has been opened for
    writing; what the file held is gone, the other files are untouched,
    and [load_from_file] on it raises and leaves the manager it is called
    on as it is. *)
Theorem failed_save_destroys_file (uid : string) (now now1 now2 : datetime)
    (task_id filename : string) (x : value) (m m0 : TaskManager) (fs : filesystem) :
  in_model m ->
  is_Some (tasks m !! task_id) ->
  serializable x = false ->
  exists m' fs',
    update_task now1 now2 task_id [("title", x)] m = (Returns true, m') /\
    save_to_file filename m' fs = (Raises TypeError, fs') /\
    (forall other, other ≠ filename -> fs' !! other = fs !! other) /\
    load_from_file uid now filename fs' m0 = (Raises ValueError, m0).
Proof.
  intros (Hm & [h Hh] & _) [t Ht] Hx.
  destruct (Hm task_id t Ht) as (d & -> & Hkey).
  set (kwargs := [("title", x)]).
  destruct (task_object_id_title d) as [Hid Htitle].
  destruct (plain_names "title") as [Hk1 Hk2];
    [do 2 apply list_elem_of_further; apply list_elem_of_here |].
  destruct (update_task_single now1 now2 task_id "title" x m (task_object d) h Hk1 Hk2)
    as (id' & title' & Hrun & _); [apply hasattr_task_object | done | by eexists..| done |].
  fold kwargs in Hrun. rewrite Hrun.
  eexists _, (<[filename := Truncated]> fs). split; [reflexivity |].
  destruct (task_values_insert task_id (patched now1 kwargs (task_object d)) m
              (VList (h ++ [history_entry "update" id' title' now2])) Hm) as [Hall Hin].
  destruct (to_dict_title now1 x d) as [rest Hdict].
  split_and!.
  - unfold save_to_file. rewrite to_dict_all_returns.
    + rewrite bind_lift_returns. cbn [serializable forallb].
      rewrite (forallb_false serializable
                 (json_of (patched now1 kwargs (task_object d)))).
      * reflexivity.
      * by apply list_elem_of_fmap_2.
      * unfold json_of. fold kwargs in Hdict. rewrite Hdict.
        cbn [serializable forallb]. by rewrite Hx.
    + eapply Forall_impl; [exact Hall |]. intros t [[d' ->] | ->].
      * rewrite to_dict_task_object. eauto.
      * fold kwargs in Hdict. rewrite Hdict. eauto.
  - intros other Hother. by rewrite lookup_insert_ne.
  - unfold load_from_file. by rewrite lookup_insert_eq.
Qed.

(** *** What [load_from_file] does with the records of a file *)

Lemma foldl_insert_loaded (l : list (string * Task)) (acc : gmap string Task) :
  foldl (fun acc kv => <[kv.1 := kv.2]> acc) acc l = loaded l ∪ acc.
Proof.
  no_runtime. unfold loaded. revert acc.
  induction l as [| [k t] l IH]; intros acc.
  - cbn. by rewrite (left_id_L ∅ (∪)).
  - cbn [foldl fst snd]. rewrite IH, reverse_cons, list_to_map_app.
    rewrite <- (assoc_L (∪)). f_equal. cbn [list_to_map foldr].
    by rewrite insert_union_singleton_l, insert_empty.
Qed.

Lemma loaded_last (l1 l2 : list (string * Task)) (key : string) (t : Task) :
  key ∉ l2.*1 -> loaded (l1 ++ (key, t) :: l2) !! key = Some t.
Proof.
  no_runtime. intros Hkey. unfold loaded.
  rewrite reverse_app, reverse_cons, <- app_assoc, list_to_map_app.
  rewrite lookup_union_r.
  - cbn [app list_to_map foldr]. apply lookup_insert_eq.
  - apply not_elem_of_list_to_map_1. rewrite fmap_reverse. by rewrite elem_of_reverse.
Qed.

Lemma loaded_absent (l : list (string * Task)) (key : string) :
  key ∉ l.*1 -> loaded l !! key = None.
Proof.
  no_runtime. intros Hkey. unfold loaded.
  apply not_elem_of_list_to_map_1. rewrite fmap_reverse. by rewrite elem_of_reverse.
Qed.

Lemma load_tasks_filed_then (uid : string) (now : datetime) (l : list (string * Task))
    (tail : list value) (m1 : TaskManager) :
  Forall filed l ->
  load_tasks uid now ((json_of <$> l.*2) ++ tail) m1 =
    load_tasks uid now tail
      (mkTaskManager (foldl (fun acc kv => <[kv.1 := kv.2]> acc) (tasks m1) l)
         (task_history m1)).
Proof using fromisoformat_isoformat isoformat_nonempty.
  intros Hl. revert m1.
  induction Hl as [| [key t] l (d & Ht & Hkey) Hl IH]; intros m1.
  - by destruct m1.
  - cbn [fmap list_fmap snd fst load_tasks foldl app] in *. subst t key.
    rewrite json_of_task_object. unfold load_entry.
    rewrite load_task_json. rewrite bind_lift_returns.
    rewrite bind_assoc.
    assert (task_key (task_object d) = Returns (d_id d)) as ->.
    { destruct d as [id title desc prio status created updated due completion tags v].
      by destruct v. }
    rewrite bind_lift_returns. unfold bind at 1. unfold store_task at 1.
    by rewrite IH.
Qed.

Lemma load_from_file_records (uid : string) (now : datetime) (filename : string)
    (doc : dict) (l : list (string * Task)) (tail : list value)
    (m0 : TaskManager) (fs : filesystem) :
  fs !! filename = Some (Document (VDict doc)) ->
  default (VList []) (dict_lookup "tasks" doc) = VList ((json_of <$> l.*2) ++ tail) ->
  Forall filed l ->
  load_from_file uid now filename fs m0 =
    bind (load_tasks uid now tail) (fun _ => ret true)
      (mkTaskManager (loaded l) (default (VList []) (dict_lookup "history" doc))).
Proof using fromisoformat_isoformat isoformat_nonempty.
  intros Hfile Htasks Hl. unfold load_from_file. rewrite Hfile.
  unfold bind at 1. unfold set_tasks at 1. cbn [py_get].
  rewrite bind_lift_returns. unfold bind at 1. unfold set_history at 1.
  rewrite Htasks, bind_lift_returns. cbn [iterate]. rewrite bind_lift_returns.
  unfold bind. rewrite load_tasks_filed_then by done. cbn [tasks task_history].
  by rewrite foldl_insert_loaded, (right_id_L ∅ (∪)).
Qed.

(** [load_from_file] on a file of well-formed records returns [True]
    whatever the manager held: afterwards it holds the records of the
    file and the history of the file, a missing "tasks" or "history"
    standing for the empty list.  Nothing checks that identifiers are
    distinct: of several records with the same identifier the last one
    is kept. *)
Theorem load_last_record_wins (uid : string) (now : datetime) (filename : string)
    (doc : dict) (l : list (string * Task)) (m0 : TaskManager) (fs : filesystem) :
  fs !! filename = Some (Document (VDict doc)) ->
  default (VList []) (dict_lookup "tasks" doc) = VList (json_of <$> l.*2) ->
  Forall filed l ->
  exists m',
    load_from_file uid now filename fs m0 = (Returns true, m') /\
    task_history m' = default (VList []) (dict_lookup "history" doc) /\
    (forall l1 key t l2, l = (l1 ++ (key, t) :: l2)%list -> key ∉ l2.*1 ->
       tasks m' !! key = Some t) /\
    (forall key, key ∉ l.*1 -> tasks m' !! key = None).
Proof using fromisoformat_isoformat isoformat_nonempty.
  intros Hfile Htasks Hl.
  rewrite (load_from_file_records uid now filename doc l [] m0 fs Hfile) by
    (by rewrite ?app_nil_r).
  eexists. split; [reflexivity |]. cbn [tasks task_history]. split_and!.
  - done.
  - intros l1 key t l2 -> Hkey. by apply loaded_last.
  - apply loaded_absent.
Qed.

Lemma load_entry_unloadable (uid : string) (now : datetime) (bad : value) (e : exn) :
  unloadable bad = Some e -> load_entry uid now bad = Raises e.
Proof.
  destruct bad as [| | | | | | d | | | |]; cbn [unloadable load_entry];
    try (by intros [= <-]); try discriminate.
  destruct (dict_lookup "type" d) eqn:E; [discriminate |]. intros [= <-].
  unfold load_task, bind, dict_pop. by rewrite E.
Qed.

(** [load_from_file] is not atomic: the collection and the history are
    replaced before the records are read, so when a record of the file
    cannot be loaded (it is no JSON object, or an object without a
    type) the call raises and leaves the manager with the history of the
    file and the records that came before the bad one; what the manager
    held before is lost, and the records after the bad one are not
    read. *)
Theorem load_from_file_not_atomic (uid : string) (now : datetime) (filename : string)
    (doc : dict) (l : list (string * Task)) (bad : value) (rest : list value)
    (e : exn) (m0 : TaskManager) (fs : filesystem) :
  fs !! filename = Some (Document (VDict doc)) ->
  default (VList []) (dict_lookup "tasks" doc)
    = VList ((json_of <$> l.*2) ++ bad :: rest) ->
  Forall filed l ->
  unloadable bad = Some e ->
  load_from_file uid now filename fs m0 =
    (Raises e,
     mkTaskManager (loaded l) (default (VList []) (dict_lookup "history" doc))).
Proof using fromisoformat_isoformat isoformat_nonempty.
  intros Hfile Htasks Hl Hbad. apply (load_entry_unloadable uid now) in Hbad.
  rewrite (load_from_file_records uid now filename doc l (bad :: rest) m0 fs Hfile)
    by done.
  cbn [load_tasks]. unfold bind, lift. by rewrite Hbad.
Qed.

(** *** Required and optional keys of a record *)

Lemma bind_dict_pop_missing {B} (k : string) (c : value -> Py dict B) (d : dict) :
  dict_lookup k d = None -> bind (dict_pop k) c d = (Raises KeyError, d).
Proof. intros H. unfold bind, dict_pop. by rewrite H. Qed.

Lemma bind_dict_pop_default_missing {B} (k : string) (dflt : value)
    (c : value -> Py dict B) (d : dict) :
  dict_lookup k d = None -> bind (dict_pop_default k dflt) c d = c dflt d.
Proof. intros H. unfold bind, dict_pop_default. by rewrite H. Qed.

Lemma bind_convert_priority_absent {B} (c : unit -> Py dict B) (d : dict) :
  dict_lookup "priority" d = None -> bind convert_priority c d = c tt d.
Proof.
  intros H. unfold convert_priority, bind, dict_has. rewrite H.
  by rewrite bool_decide_eq_false_2 by (by intros [? ?]).
Qed.

Lemma bind_convert_status_absent {B} (c : unit -> Py dict B) (d : dict) :
  dict_lookup "status" d = None -> bind convert_status c d = c tt d.
Proof.
  intros H. unfold convert_status, bind, dict_has. rewrite H.
  by rewrite bool_decide_eq_false_2 by (by intros [? ?]).
Qed.

Lemma py_set_nil : py_set (VList []) = Returns (VSet ∅).
Proof. reflexivity. Qed.

Ltac load_step' :=
  first
    [ load_step
    | rewrite py_set_nil
    | rewrite bind_dict_pop_default_missing by reflexivity
    | rewrite bind_convert_priority_absent by reflexivity
    | rewrite bind_convert_status_absent by reflexivity
    | rewrite bind_dict_pop_missing by reflexivity ];
  cbv beta;
  cbn [for_each dict_store dict_remove String.eqb Ascii.eqb Bool.eqb eq_str
       class_name variant_class].

(** The keys a record needs are its type, the arguments of the
    constructor and [id], [status], [created_at] and [updated_at]: a
    record with these keys alone loads, every other field taking its
    default (no due date, no completion date, no tags; no dependencies
    and one hour for a project task; no occurrence for a recurring
    task), and a record that lacks one of them raises [KeyError]. *)
Theorem load_task_required_keys (uid : string) (now : datetime) (d : TaskData) :
  (load_task uid now (required_json d)).1
    = Returns (Some (task_object (with_defaults d))) /\
  forall k, k ∈ (required_json d).*1 ->
    (load_task uid now (dict_remove k (required_json d))).1 = Raises KeyError.
Proof using fromisoformat_isoformat isoformat_nonempty.
  destruct d as [id title desc prio status created updated due completion tags v].
  unfold required_json, with_defaults, task_object.
  cbn [d_id d_title d_description d_priority d_status d_created_at d_updated_at
       d_due_date d_completion_date d_tags d_variant variant_class class_name].
  split.
  - unfold load_task.
    destruct v as [| project deps hours | freq count lastc]; cbn [app for_each];
      unfold set_common_properties; repeat load_step';
      cbn [ret fst opt_datetime]; reflexivity.
  - intros k Hk.
    destruct v as [| project deps hours | freq count lastc];
      cbn [app fmap list_fmap fst] in Hk;
      repeat (apply elem_of_cons in Hk as [-> | Hk]);
      try (by apply elem_of_nil in Hk);
      unfold load_task; cbn [app for_each dict_remove String.eqb Ascii.eqb Bool.eqb];
      unfold set_common_properties; repeat load_step'; reflexivity.
Qed.

Lemma load_task_unknown (uid : string) (now : datetime) (ty : string) (d : dict) :
  dict_lookup "type" d = Some (VStr ty) ->
  ty ∉ ["SimpleTask"; "ProjectTask"; "RecurringTask"] ->
  load_task uid now d =
    bind (for_each convert_date
            ["created_at"; "updated_at"; "due_date"; "completion_date"; "last_completed"])
      (fun _ => bind convert_priority (fun _ => bind convert_status (fun _ => ret None)))
      (dict_remove "type" d).
Proof.
  intros Hty Hnot. unfold load_task. erewrite bind_dict_pop by exact Hty.
  assert (forall name, name ∈ ["SimpleTask"; "ProjectTask"; "RecurringTask"] ->
            eq_str (VStr ty) name = false) as Hne.
  { intros name Hname. cbn [eq_str]. apply String.eqb_neq. intros ->. by apply Hnot. }
  rewrite !Hne; [done | | |]; clear; no_runtime; set_solver.
Qed.

(** A record of an unknown type is skipped, but only after its fields
    have been converted: the record of any task with its type replaced,
    or a record with nothing but the type, yields no task and no error;
    with a priority that is no member name it raises [KeyError], with a
    date that [fromisoformat] refuses [ValueError]. *)
Theorem load_entry_unknown_type (uid : string) (now : datetime) (ty : string)
    (d : TaskData) :
  ty ∉ ["SimpleTask"; "ProjectTask"; "RecurringTask"] ->
  load_entry uid now (VDict (dict_store "type" (VStr ty) (task_json d))) = Returns None /\
  load_entry uid now (VDict [("type", VStr ty)]) = Returns None /\
  (forall p, Priority_of_name p = None ->
     load_entry uid now (VDict [("type", VStr ty); ("priority", VStr p)])
       = Raises KeyError) /\
  (forall s, s ≠ "" -> fromisoformat s = None ->
     load_entry uid now (VDict [("type", VStr ty); ("due_date", VStr s)])
       = Raises ValueError).
Proof using fromisoformat_isoformat isoformat_nonempty.
  intros Hty. unfold load_entry. split_and!.
  - rewrite (load_task_unknown uid now ty) by
      (try done;
       destruct d as [id title desc prio status created updated due completion tags v];
       by destruct v).
    destruct d as [id title desc prio status created updated due completion tags v].
    unfold task_json.
    cbn [d_id d_title d_description d_priority d_status d_created_at d_updated_at
         d_due_date d_completion_date d_tags d_variant variant_class class_name].
    destruct v as [| project deps hours | freq count lastc].
    + destruct due, completion;
        cbn [opt_iso app for_each dict_store dict_remove String.eqb Ascii.eqb Bool.eqb];
        repeat load_step'; reflexivity.
    + destruct due, completion;
        cbn [opt_iso app for_each dict_store dict_remove String.eqb Ascii.eqb Bool.eqb];
        repeat load_step'; reflexivity.
    + destruct due, completion, lastc;
        cbn [opt_iso app for_each dict_store dict_remove String.eqb Ascii.eqb Bool.eqb];
        repeat load_step'; reflexivity.
  - rewrite (load_task_unknown uid now ty) by done.
    cbn [for_each dict_remove String.eqb Ascii.eqb Bool.eqb].
    repeat load_step'. reflexivity.
  - intros p Hp. rewrite (load_task_unknown uid now ty) by done.
    cbn [for_each dict_remove String.eqb Ascii.eqb Bool.eqb].
    repeat load_step'.
    unfold convert_priority, bind, dict_has, dict_getitem, lift. cbn.
    by rewrite Hp.
  - intros s Hs Hbad. rewrite (load_task_unknown uid now ty) by done.
    cbn [for_each dict_remove String.eqb Ascii.eqb Bool.eqb].
    repeat load_step'.
    unfold convert_date at 1. unfold bind, dict_get, dict_getitem, lift. cbn.
    apply String.eqb_neq in Hs. rewrite Hs. cbn. by rewrite Hbad.
Qed.

End RoundTrip.

End Runtime.

(** ** A runtime instance

    The theorems above hold for any runtime.  The examples below run the
    methods with a simple instance.  A datetime is written as the decimal
    number of its microseconds, and [float] reads decimal integers.
    [lower] folds the letters A to Z and nothing else, which is what
    [str.lower] does on ASCII text.  The containment test is that of
    Python 3.8 to 3.11, a [TypeError] on every operand that is no member
    of an enumeration, and the inherited names are those a task has in
    Python 3.11. *)

Definition ascii_lower_char (c : ascii) : ascii :=
  let n := nat_of_ascii c in
  if (65 <=? n)%nat && (n <=? 90)%nat then ascii_of_nat (n + 32) else c.

Fixpoint ascii_lower (s : string) : string :=
  match s with
  | EmptyString => EmptyString
  | String c s' => String (ascii_lower_char c) (ascii_lower s')
  end.

Definition legacy_contains (v : value) : outcome bool := Raises TypeError.

Definition py311_inherited (name : string) : bool :=
  bool_decide
    (name ∈ ["__abstractmethods__"; "__class__"; "__delattr__"; "__dict__";
             "__dir__"; "__doc__"; "__eq__"; "__format__"; "__ge__";
             "__getattribute__"; "__getstate__"; "__gt__"; "__hash__";
             "__init_subclass__"; "__le__"; "__lt__"; "__module__"; "__ne__";
             "__new__"; "__reduce__"; "__reduce_ex__"; "__repr__"; "__setattr__";
             "__sizeof__"; "__slots__"; "__subclasshook__"; "__weakref__";
             "_abc_impl"]).

Lemma ascii_lower_char_idempotent (c : ascii) :
  ascii_lower_char (ascii_lower_char c) = ascii_lower_char c.
Proof. destruct c as [[] [] [] [] [] [] [] []]; reflexivity. Qed.

Lemma ascii_lower_idempotent (s : string) : ascii_lower (ascii_lower s) = ascii_lower s.
Proof.
  induction s as [| c s IH]; [done |].
  cbn [ascii_lower]. by rewrite ascii_lower_char_idempotent, IH.
Qed.

Definition decimal_isoformat (d : datetime) : string :=
  NilZero.string_of_int (Z.to_int d).

Definition decimal_fromisoformat (s : string) : option datetime :=
  option_map Z.of_int (NilZero.int_of_string s).

Definition decimal_float (s : string) : option float :=
  match NilZero.int_of_string s with
  | Some i =>
      match float_of_Z (Z.of_int i) with
      | Returns f => Some f
      | Raises _ => None
      end
  | None => None
  end.

Lemma decimal_fromisoformat_isoformat (d : datetime) :
  decimal_fromisoformat (decimal_isoformat d) = Some d.
Proof.
  unfold decimal_fromisoformat, decimal_isoformat.
  rewrite NilZero.isi.
  - cbn. by rewrite DecimalZ.of_to.
  - destruct d as [| p | p]; cbn; try discriminate.
    intros [= H]. by apply Unsigned.to_uint_nonnil in H.
  - destruct d as [| p | p]; cbn; try discriminate.
    intros [= H]. by apply Unsigned.to_uint_nonnil in H.
Qed.

Lemma string_of_uint_nonempty (u : Decimal.uint) : NilZero.string_of_uint u ≠ "".
Proof. by destruct u. Qed.

Lemma decimal_isoformat_nonempty (d : datetime) : decimal_isoformat d ≠ "".
Proof.
  unfold decimal_isoformat.
  destruct (Z.to_int d) as [u | u]; cbn; [apply string_of_uint_nonempty | discriminate].
Qed.

(** ** Examples *)

(** A weekly recurring task, and a manager that holds it. *)
Definition report_data : TaskData :=
  mkTaskData "a1" "Write report" (Some "quarterly figures") HIGH IN_PROGRESS
    1000 2000 (Some 5000) None {[ "work"; "urgent" ]}
    (Recurring "weekly" 2 None).

Definition report : Task := task_object report_data.

Definition office : TaskManager :=
  mkTaskManager {[ "a1" := report ]}
    (VList [history_entry decimal_isoformat "add" (VStr "a1") (VStr "Write report") 2500]).

(** A project task. *)
Definition migration : Task :=
  task_object
    (mkTaskData "b2" "Migrate database" None MEDIUM NOT_STARTED 1000 2000 None None
       {[ "work" ]} (Project "infrastructure" ∅ 1%float)).

(** A daily recurring task due on 9999-12-31, the last day a datetime can
    hold. *)
Definition last_day : datetime := (max_ordinal - 1) * microseconds_per_day.

Definition backup : Task :=
  task_object
    (mkTaskData "c3" "Backup" None LOW NOT_STARTED 1000 2000 (Some last_day) None ∅
       (Recurring "daily" 0 None)).

(** The report under a new title, with the identifier of the report. *)
Definition revised : Task :=
  task_object
    (mkTaskData "a1" "Write summary" None LOW NOT_STARTED 1000 4000 None None ∅ Simple).

(** A file with two records of the same identifier, and a file whose
    second record has no type. *)
Definition twice : filesystem :=
  {[ "tasks.json" :=
       Document (VDict [("tasks", VList [json_of decimal_isoformat report;
                                         json_of decimal_isoformat revised])]) ]}.

Definition broken : filesystem :=
  {[ "tasks.json" :=
       Document (VDict [("tasks", VList [json_of decimal_isoformat report; VDict []])]) ]}.

(** ** The theorems at the examples *)

(** The round trip of the example manager, with its one task and its
    history of one record. *)
Lemma save_load_roundtrip_witness :
  serializable (task_history office) = true /\
  exists fs' m',
    save_to_file decimal_isoformat "tasks.json" office ∅ = (Returns tt, fs') /\
    load_from_file decimal_fromisoformat "fresh" 9000 "tasks.json" fs' TaskManager_init
      = (Returns true, m') /\
    tasks m' = tasks office /\
    task_history m' = task_history office /\
    m' = office.
Proof.
  split; [reflexivity |].
  apply (save_load_roundtrip decimal_isoformat decimal_fromisoformat
           decimal_fromisoformat_isoformat decimal_isoformat_nonempty).
  - intros key t H. unfold office in H. cbn [tasks] in H.
    apply lookup_singleton_Some in H as [<- <-].
    by exists report_data.
  - reflexivity.
Defined.

(** Completing an occurrence of the weekly report moves its due date by
    seven days. *)
Lemma complete_occurrence_spec_witness :
  datetime_min <= 5000 + timedelta_days (offset_days (VStr "weekly")) <= datetime_max /\
  exists t',
    complete_occurrence 3000 3001 report = (Returns tt, t') /\
    attrs t' !! "last_completed" = Some (VDatetime 3000) /\
    attrs t' !! "recurrence_count" = Some (VInt 3) /\
    attrs t' !! "status" = Some (VStatus NOT_STARTED) /\
    attrs t' !! "due_date" = Some (VDatetime (5000 + 7 * microseconds_per_day)) /\
    attrs t' !! "updated_at" = Some (VDatetime 3001).
Proof.
  assert (datetime_min <= 5000 + timedelta_days (offset_days (VStr "weekly"))
          <= datetime_max) as Hrange by (by vm_compute).
  split; [exact Hrange |].
  destruct (complete_occurrence_spec 3000 3001 report 2 5000 (VStr "weekly"))
    as (t' & Hrun & _ & Hlast & Hcount & Hstatus & Hdue & Hupdated & _);
    [by vm_compute | by vm_compute | by vm_compute | exact Hrange |].
  exists t'. by split_and!.
Defined.

(** C2, as stated, fails at the end of the calendar: for the daily task
    due on 9999-12-31 the addition of one day raises [OverflowError]; the
    occurrence has been counted by then, but the due date is not moved and
    [updated_at] is not set. *)
Lemma complete_occurrence_overflow :
  attrs backup !! "due_date" = Some (VDatetime last_day) /\
  attrs backup !! "frequency" = Some (VStr "daily") /\
  (complete_occurrence 3000 3001 backup).1 = Raises OverflowError /\
  attrs (complete_occurrence 3000 3001 backup).2 !! "recurrence_count"
    = Some (VInt 1) /\
  attrs (complete_occurrence 3000 3001 backup).2 !! "due_date"
    = Some (VDatetime last_day) /\
  attrs (complete_occurrence 3000 3001 backup).2 !! "updated_at"
    = Some (VDatetime 2000).
Proof. by vm_compute. Qed.



(** An estimate given as text. *)
Lemma set_estimate_spec_witness :
  py_float decimal_float (VStr "12") = Returns 12%float /\
  exists t',
    set_estimate decimal_float 3000 (VStr "12") migration = (Returns tt, t') /\
    attrs t' !! "estimated_hours" = Some (VFloat 12%float) /\
    attrs t' !! "updated_at" = Some (VDatetime 3000).
Proof.
  assert (py_float decimal_float (VStr "12") = Returns 12%float) as Hf by (by vm_compute).
  split; [exact Hf |].
  destruct (set_estimate_spec decimal_float 3000 (VStr "12") migration) as (H & _).
  destruct (H _ Hf) as (t' & Hrun & _ & Hhours & Hupdated & _).
  by exists t'.
Defined.

(** C4, as stated, fails on a number that is not positive: [set_estimate]
    stores the float of -3 as it is. *)
Lemma set_estimate_negative :
  (set_estimate decimal_float 3000 (VInt (-3)) migration).1 = Returns tt /\
  attrs (set_estimate decimal_float 3000 (VInt (-3)) migration).2 !! "estimated_hours"
    = Some (VFloat (-3)%float) /\
  PrimFloat.ltb 0%float (-3)%float = false.
Proof. by vm_compute. Qed.

(** A patch with a name the task has, a name it does not have, and a
    name it has from [object]. *)
Lemma update_task_spec_witness :
  binds_parameter [("title", VStr "Write summary"); ("owner", VStr "nobody");
                   ("__doc__", VStr "notes")] = false /\
  NoDup [("title", VStr "Write summary"); ("owner", VStr "nobody");
         ("__doc__", VStr "notes")].*1 /\
  tasks office !! "a1" = Some report /\
  exists m' t',
    update_task py311_inherited decimal_isoformat 3000 3001 "a1"
      [("title", VStr "Write summary"); ("owner", VStr "nobody");
       ("__doc__", VStr "notes")] office
      = (Returns true, m') /\
    tasks m' !! "a1" = Some t' /\
    attrs t' !! "title" = Some (VStr "Write summary") /\
    attrs t' !! "owner" = None /\
    attrs t' !! "__doc__" = Some (VStr "notes") /\
    attrs t' !! "updated_at" = Some (VDatetime 3000).
Proof.
  set (kwargs := [("title", VStr "Write summary"); ("owner", VStr "nobody");
                  ("__doc__", VStr "notes")]).
  assert (binds_parameter kwargs = false) as Hb by reflexivity.
  assert (NoDup kwargs.*1) as Hnd.
  { cbn. repeat (apply NoDup_cons; split; [rewrite ?elem_of_cons, elem_of_nil; intuition discriminate |]).
    apply NoDup_nil_2. }
  assert (tasks office !! "a1" = Some report) as Ht by (by vm_compute).
  split_and!; [exact Hb | exact Hnd | exact Ht |].
  destruct (update_task_spec py311_inherited decimal_isoformat 3000 3001 "a1"
              kwargs office Hb Hnd) as (_ & H).
  edestruct (H report) as
    (m' & t' & id' & title' & Hrun & Ht' & _ & _ & Hupdated & Hset & Hskip & _);
    [exact Ht | eexists; by vm_compute | eexists; by vm_compute | reflexivity | |].
  { intros k Hk. cbn in Hk. unfold descriptors.
    rewrite !elem_of_cons, elem_of_nil in Hk. rewrite !elem_of_cons, elem_of_nil.
    intuition (subst; discriminate). }
  exists m', t'. split_and!; [exact Hrun | exact Ht' | | | | exact Hupdated].
  - apply Hset; [discriminate | apply list_elem_of_here | by vm_compute].
  - rewrite (Hskip "owner" (VStr "nobody"));
      [by vm_compute | discriminate | apply list_elem_of_further, list_elem_of_here
       | by vm_compute].
  - apply Hset; [discriminate | do 2 apply list_elem_of_further; apply list_elem_of_here
                 | by vm_compute].
Defined.

(** C5, as stated, fails on a patch of [__class__]: every task has the
    name, so the loop assigns it, and the assignment raises [TypeError];
    nothing is updated and nothing recorded.  A keyword [task_id] does not
    even reach the method. *)
Lemma update_task_class_patch :
  tasks office !! "a1" = Some report /\
  hasattr py311_inherited report "__class__" = true /\
  update_task py311_inherited decimal_isoformat 3000 3001 "a1"
    [("__class__", VInt 5)] office = (Raises TypeError, office) /\
  update_task py311_inherited decimal_isoformat 3000 3001 "a1"
    [("task_id", VStr "b2")] office = (Raises TypeError, office).
Proof. by vm_compute. Qed.

(** Deleting an unknown and a known identifier. *)
Lemma delete_task_spec_witness :
  tasks office !! "a1" = Some report /\
  tasks office !! "zz" = None /\
  delete_task decimal_isoformat 3000 "zz" office = (Returns false, office) /\
  exists m',
    delete_task decimal_isoformat 3000 "a1" office = (Returns true, m') /\
    tasks m' !! "a1" = None.
Proof.
  assert (tasks office !! "a1" = Some report) as Ht by (by vm_compute).
  assert (tasks office !! "zz" = None) as Hz by (by vm_compute).
  split_and!; [exact Ht | exact Hz | |].
  - by apply (delete_task_spec decimal_isoformat 3000 "zz" office).
  - destruct (delete_task_spec decimal_isoformat 3000 "a1" office) as (_ & H).
    edestruct (H report (VStr "a1") (VStr "Write report"))
      as (m' & Hrun & _ & Hgone & _);
      [exact Ht | by vm_compute | by vm_compute | reflexivity |].
    by exists m'.
Defined.

(** The report, due at 5000 and in progress, is overdue at 6000. *)
Lemma is_overdue_spec_witness :
  attrs report !! "due_date" = Some (VDatetime 5000) /\
  attrs report !! "status" = Some (VStatus IN_PROGRESS) /\
  is_overdue 6000 report = (Returns true, report).
Proof.
  assert (attrs report !! "due_date" = Some (VDatetime 5000)) as Hd by (by vm_compute).
  assert (attrs report !! "status" = Some (VStatus IN_PROGRESS)) as Hs by (by vm_compute).
  split_and!; [exact Hd | exact Hs |].
  destruct (is_overdue_spec 6000 report _ _ Hd Hs) as (b & Hrun & Hb & _);
    [right; by exists 5000 |].
  rewrite Hrun. f_equal. f_equal. apply Hb. exists 5000. split_and!; [done | done | lia].
Defined.

(** A query in capitals over the three example tasks: the report alone
    carries both tags. *)
Lemma filter_by_multiple_tags_spec_witness :
  (forall t, t ∈ [report; migration; backup] ->
     exists s, attrs t !! "tags" = Some (VSet s)) /\
  ascii_lower "Work" = "work" /\
  ascii_lower "URGENT" = "urgent" /\
  filter_by_multiple_tags ascii_lower [report; migration; backup]
    [VStr "Work"; VStr "URGENT"] = Returns [report].
Proof.
  assert (forall t, t ∈ [report; migration; backup] ->
            exists s, attrs t !! "tags" = Some (VSet s)) as Hts.
  { intros t Ht. apply elem_of_cons in Ht as [-> | Ht]; [by eexists |].
    apply elem_of_cons in Ht as [-> | Ht]; [by eexists |].
    apply list_elem_of_singleton in Ht as ->. by eexists. }
  split_and!; [exact Hts | reflexivity | reflexivity |].
  destruct (filter_by_multiple_tags_spec ascii_lower [report; migration; backup]
              ["Work"; "URGENT"] Hts) as (Hrun & _).
  change [VStr "Work"; VStr "URGENT"] with (VStr <$> ["Work"; "URGENT"]).
  rewrite Hrun. by vm_compute.
Defined.

(** Patches that leave the report with a text as its status and with a
    tag in capitals; [update_status] refuses the text, [add_tag] would
    have stored the tag in lower case. *)
Lemma update_task_no_validation_witness :
  tasks office !! "a1" = Some report /\
  hasattr py311_inherited report "status" = true /\
  hasattr py311_inherited report "tags" = true /\
  (exists m' t',
     update_task py311_inherited decimal_isoformat 3000 3001 "a1"
       [("status", VStr "Done")] office = (Returns true, m') /\
     tasks m' !! "a1" = Some t' /\
     attrs t' !! "status" = Some (VStr "Done")) /\
  (exists e,
     update_status legacy_contains 3000 (VStr "Done") report = (Raises e, report)) /\
  (exists m' t',
     update_task py311_inherited decimal_isoformat 3000 3001 "a1"
       [("tags", VSet {[ "URGENT" ]})] office = (Returns true, m') /\
     tasks m' !! "a1" = Some t' /\
     attrs t' !! "tags" = Some (VSet {[ "URGENT" ]})) /\
  ascii_lower "URGENT" = "urgent".
Proof.
  assert (tasks office !! "a1" = Some report) as Ht by (by vm_compute).
  assert (hasattr py311_inherited report "status" = true) as Hstatus by (by vm_compute).
  assert (hasattr py311_inherited report "tags" = true) as Htags by (by vm_compute).
  split_and!; [exact Ht | exact Hstatus | exact Htags | | | | reflexivity].
  - edestruct (update_task_no_validation ascii_lower legacy_contains py311_inherited
                 decimal_isoformat 3000 3001 "a1" office report)
      as (_ & H & _);
      [exact Ht | eexists; by vm_compute | eexists; by vm_compute | reflexivity |].
    exact (H Hstatus (VStr "Done")).
  - edestruct (update_task_no_validation ascii_lower legacy_contains py311_inherited
                 decimal_isoformat 3000 3001 "a1" office report)
      as (_ & _ & _ & H & _);
      [exact Ht | eexists; by vm_compute | eexists; by vm_compute | reflexivity |].
    apply H; [intros [s Hs]; discriminate | discriminate].
  - edestruct (update_task_no_validation ascii_lower legacy_contains py311_inherited
                 decimal_isoformat 3000 3001 "a1" office report)
      as (_ & _ & _ & _ & H & _);
      [exact Ht | eexists; by vm_compute | eexists; by vm_compute | reflexivity |].
    exact (H Htags {[ "URGENT" ]}).
Defined.

(** C9, as stated, fails on the names that have a setter of their own:
    every task has [__weakref__] and [__dict__], and a patch of either
    raises, the first because the name cannot be written, the second
    because the value is no dictionary. *)
Lemma update_task_setter_patch :
  tasks office !! "a1" = Some report /\
  hasattr py311_inherited report "__weakref__" = true /\
  hasattr py311_inherited report "__dict__" = true /\
  update_task py311_inherited decimal_isoformat 3000 3001 "a1"
    [("__weakref__", VInt 5)] office = (Raises AttributeError, office) /\
  update_task py311_inherited decimal_isoformat 3000 3001 "a1"
    [("__dict__", VInt 5)] office = (Raises TypeError, office).
Proof. by vm_compute. Qed.

(** Adding the migration task to the example manager. *)
Lemma add_task_spec_witness :
  attrs migration !! "id" = Some (VStr "b2") /\
  attrs migration !! "title" = Some (VStr "Migrate database") /\
  exists m',
    add_task decimal_isoformat 3000 migration office = (Returns migration, m') /\
    tasks m' !! "b2" = Some migration /\
    tasks m' !! "a1" = Some report.
Proof.
  assert (attrs migration !! "id" = Some (VStr "b2")) as Hid by (by vm_compute).
  assert (attrs migration !! "title" = Some (VStr "Migrate database")) as Htitle
    by (by vm_compute).
  split_and!; [exact Hid | exact Htitle |].
  edestruct (add_task_spec decimal_isoformat 3000 migration office "b2")
    as (m' & Hrun & Hnew & Hothers & _); [exact Hid | exact Htitle | reflexivity |].
  exists m'. split_and!; [exact Hrun | exact Hnew |].
  rewrite Hothers; by vm_compute.
Defined.

Lemma office_in_model : in_model office.
Proof.
  split_and!.
  - intros key t H. unfold office in H. cbn [tasks] in H.
    apply lookup_singleton_Some in H as [<- <-]. by exists report_data.
  - by eexists.
  - reflexivity.
Qed.

Lemma examples_in_model (t : Task) :
  t ∈ [report; migration; backup] -> exists d, t = task_object d.
Proof.
  intros Ht. apply elem_of_cons in Ht as [-> | Ht]; [by eexists |].
  apply elem_of_cons in Ht as [-> | Ht]; [by eexists |].
  apply list_elem_of_singleton in Ht as ->. by eexists.
Qed.

(** Removing a tag the report has, in capitals, and one it does not
    have. *)
Lemma remove_tag_spec_witness :
  attrs report !! "tags" = Some (VSet {[ "work"; "urgent" ]}) /\
  remove_tag ascii_lower 3000 (VStr "Home") report = (Returns tt, report) /\
  exists t',
    remove_tag ascii_lower 3000 (VStr "URGENT") report = (Returns tt, t') /\
    attrs t' !! "tags" = Some (VSet ({[ "work"; "urgent" ]} ∖ {[ "urgent" ]})).
Proof.
  assert (attrs report !! "tags" = Some (VSet {[ "work"; "urgent" ]})) as Htags
    by reflexivity.
  split_and!; [exact Htags | |].
  - destruct (remove_tag_spec ascii_lower 3000 "Home" report _ Htags) as (H & _).
    apply H. by vm_compute.
  - destruct (remove_tag_spec ascii_lower 3000 "URGENT" report _ Htags) as (_ & H & _).
    destruct H as (t' & Hrun & _ & Ht' & _); [by vm_compute |].
    by exists t'.
Defined.

(** A new tag added and removed again under another spelling. *)
Lemma add_then_remove_tag_witness :
  attrs report !! "tags" = Some (VSet {[ "work"; "urgent" ]}) /\
  ascii_lower "HOME" = ascii_lower "Home" /\
  exists t1 t2,
    add_tag ascii_lower 3000 (VStr "Home") report = (Returns tt, t1) /\
    remove_tag ascii_lower 3001 (VStr "HOME") t1 = (Returns tt, t2) /\
    attrs t2 !! "tags" = Some (VSet {[ "work"; "urgent" ]}).
Proof.
  assert (attrs report !! "tags" = Some (VSet {[ "work"; "urgent" ]})) as Htags
    by reflexivity.
  assert (ascii_lower "HOME" = ascii_lower "Home") as Hl by reflexivity.
  split_and!; [exact Htags | exact Hl |].
  destruct (add_then_remove_tag ascii_lower 3000 3001 "Home" "HOME" report _ Htags Hl)
    as (t1 & t2 & Hadd & Hremove & _ & Hback & _).
  exists t1, t2. split_and!; [exact Hadd | exact Hremove |].
  apply Hback. by vm_compute.
Defined.

(** The migration made to depend on the report, and freed again. *)
Lemma dependency_spec_witness :
  attrs report !! "id" = Some (VStr "a1") /\
  attrs migration !! "id" = Some (VStr "b2") /\
  attrs migration !! "dependencies" = Some (VSet ∅) /\
  exists t1 t2,
    add_dependency 3000 report migration = (Returns tt, t1) /\
    attrs t1 !! "dependencies" = Some (VSet ({[ "a1" ]} ∪ ∅)) /\
    remove_dependency 3001 report t1 = (Returns tt, t2) /\
    attrs t2 !! "dependencies" = Some (VSet ∅).
Proof.
  assert (attrs report !! "id" = Some (VStr "a1")) as Hother by reflexivity.
  assert (attrs migration !! "id" = Some (VStr "b2")) as Hown by reflexivity.
  assert (attrs migration !! "dependencies" = Some (VSet ∅)) as Hdeps by reflexivity.
  split_and!; [exact Hother | exact Hown | exact Hdeps |].
  destruct (dependency_spec 3000 3001 report migration "a1" "b2" ∅ Hother Hown Hdeps)
    as ((t1 & t2 & Hadd & Ht1 & _ & Hremove & _ & Ht2) & _).
  exists t1, t2. split_and!; [exact Hadd | exact Ht1 | exact Hremove |].
  apply Ht2. by vm_compute.
Defined.

(** The weekly report of high priority. *)
Lemma recurring_effort_spec_witness :
  d_variant report_data = Recurring "weekly" 2 None /\
  exists label,
    estimate_effort report = (Returns label, report) /\
    label = recurring_label "weekly" HIGH.
Proof.
  assert (d_variant report_data = Recurring "weekly" 2 None) as Hv by reflexivity.
  split; [exact Hv |].
  destruct (recurring_effort_spec report_data "weekly" 2 None Hv)
    as (label & Hrun & Hlabel & _).
  by exists label.
Defined.

(** The example tasks of medium effort. *)
Lemma filter_by_effort_spec_witness :
  (forall t, t ∈ [report; migration; backup] -> exists d, t = task_object d) /\
  exists r,
    filter_by_effort [report; migration; backup] (VStr "Medium") = Returns r /\
    r `sublist_of` [report; migration; backup].
Proof.
  split; [exact examples_in_model |].
  destruct (filter_by_effort_spec [report; migration; backup] (VStr "Medium")
              examples_in_model) as (r & Hrun & Hsub & _).
  by exists r.
Defined.

(** The tasks of the example manager that are in progress. *)
Lemma get_tasks_by_status_spec_witness :
  (forall key t, tasks office !! key = Some t -> is_Some (attrs t !! "status")) /\
  exists r,
    get_tasks_by_status IN_PROGRESS office = Returns r /\
    report ∈ r.
Proof.
  assert (forall key t, tasks office !! key = Some t -> is_Some (attrs t !! "status"))
    as Hm.
  { intros key t H. unfold office in H. cbn [tasks] in H.
    apply lookup_singleton_Some in H as [_ <-]. by eexists. }
  split; [exact Hm |].
  destruct (get_tasks_by_status_spec office Hm) as (H & _).
  destruct (H IN_PROGRESS) as (r & Hrun & Hr).
  exists r. split; [exact Hrun |]. apply Hr. split; [by exists "a1" | reflexivity].
Defined.

(** The tasks of the example manager of high priority. *)
Lemma get_tasks_by_priority_spec_witness :
  (forall key t, tasks office !! key = Some t -> is_Some (attrs t !! "priority")) /\
  exists r,
    get_tasks_by_priority HIGH office = Returns r /\
    report ∈ r.
Proof.
  assert (forall key t, tasks office !! key = Some t -> is_Some (attrs t !! "priority"))
    as Hm.
  { intros key t H. unfold office in H. cbn [tasks] in H.
    apply lookup_singleton_Some in H as [_ <-]. by eexists. }
  split; [exact Hm |].
  destruct (get_tasks_by_priority_spec HIGH office Hm) as (r & Hrun & Hr & _).
  exists r. split; [exact Hrun |]. apply Hr. split; [by exists "a1" | reflexivity].
Defined.


(** The example tasks due between 4000 and 6000. *)
Lemma filter_by_date_range_spec_witness :
  (forall t, t ∈ [report; migration; backup] ->
     attrs t !! "due_date" = Some VNone \/
     exists d, attrs t !! "due_date" = Some (VDatetime d)) /\
  exists r,
    filter_by_date_range [report; migration; backup] 4000 6000 = Returns r /\
    report ∈ r.
Proof.
  assert (forall t, t ∈ [report; migration; backup] ->
            attrs t !! "due_date" = Some VNone \/
            exists d, attrs t !! "due_date" = Some (VDatetime d)) as Hts.
  { intros t Ht. apply elem_of_cons in Ht as [-> | Ht]; [right; by eexists |].
    apply elem_of_cons in Ht as [-> | Ht]; [by left |].
    apply list_elem_of_singleton in Ht as ->. right. by eexists. }
  split; [exact Hts |].
  destruct (filter_by_date_range_spec [report; migration; backup] 4000 6000 Hts)
    as (r & Hrun & _ & Hr & _).
  exists r. split; [exact Hrun |]. apply Hr. split; [apply list_elem_of_here |].
  exists 5000. split; [reflexivity | lia].
Defined.

(** The migration added to the example manager and deleted again. *)
Lemma add_then_delete_witness :
  attrs migration !! "id" = Some (VStr "b2") /\
  attrs migration !! "title" = Some (VStr "Migrate database") /\
  tasks office !! "b2" = None /\
  exists m1 m2,
    add_task decimal_isoformat 3000 migration office = (Returns migration, m1) /\
    delete_task decimal_isoformat 3001 "b2" m1 = (Returns true, m2) /\
    tasks m2 = tasks office.
Proof.
  assert (attrs migration !! "id" = Some (VStr "b2")) as Hid by reflexivity.
  assert (attrs migration !! "title" = Some (VStr "Migrate database")) as Htitle
    by reflexivity.
  assert (tasks office !! "b2" = None) as Hfresh by (by vm_compute).
  split_and!; [exact Hid | exact Htitle | exact Hfresh |].
  edestruct (add_then_delete decimal_isoformat 3000 3001 migration office "b2")
    as (m1 & m2 & Hadd & _ & Hdelete & _ & Hsame & _);
    [exact Hid | exact Htitle | reflexivity | exact Hfresh |].
  by exists m1, m2.
Defined.

(** The history of the example manager after one more task. *)
Lemma history_append_only_witness :
  task_history office
    = VList [history_entry decimal_isoformat "add" (VStr "a1") (VStr "Write report") 2500] /\
  exists l,
    task_history (add_task decimal_isoformat 3000 migration office).2
      = VList ([history_entry decimal_isoformat "add" (VStr "a1") (VStr "Write report") 2500]
                 ++ l)%list /\
    (length l <= 1)%nat.
Proof.
  assert (task_history office
          = VList [history_entry decimal_isoformat "add" (VStr "a1")
                     (VStr "Write report") 2500]) as Hh by reflexivity.
  split; [exact Hh |].
  destruct (history_append_only py311_inherited decimal_isoformat 3000 3001 migration "a1" [] office _ Hh)
    as (H & _).
  exact H.
Defined.

(** The example manager cannot be saved once the status of the report
    is a text. *)
Lemma save_after_text_status_witness :
  in_model office /\
  is_Some (tasks office !! "a1") /\
  exists m',
    update_task py311_inherited decimal_isoformat 3000 3001 "a1" [("status", VStr "done")] office
      = (Returns true, m') /\
    save_to_file decimal_isoformat "tasks.json" m' ∅ = (Raises AttributeError, ∅).
Proof.
  assert (is_Some (tasks office !! "a1")) as Ht by (by exists report).
  split_and!; [exact office_in_model | exact Ht |].
  exact (save_after_text_status py311_inherited decimal_isoformat 3000 3001 "a1" "done" "tasks.json"
           office ∅ office_in_model Ht).
Defined.

(** The example manager with a datetime as the title of the report: the
    save fails and the file cannot be loaded any more. *)
Lemma failed_save_destroys_file_witness :
  in_model office /\
  is_Some (tasks office !! "a1") /\
  serializable (VDatetime 7) = false /\
  exists m' fs',
    update_task py311_inherited decimal_isoformat 3000 3001 "a1" [("title", VDatetime 7)] office
      = (Returns true, m') /\
    save_to_file decimal_isoformat "tasks.json" m' twice = (Raises TypeError, fs') /\
    load_from_file decimal_fromisoformat "fresh" 9000 "tasks.json" fs' office
      = (Raises ValueError, office).
Proof.
  assert (is_Some (tasks office !! "a1")) as Ht by (by exists report).
  assert (serializable (VDatetime 7) = false) as Hx by reflexivity.
  split_and!; [exact office_in_model | exact Ht | exact Hx |].
  destruct (failed_save_destroys_file py311_inherited decimal_isoformat decimal_fromisoformat "fresh"
              9000 3000 3001 "a1" "tasks.json" (VDatetime 7) office office twice
              office_in_model Ht Hx) as (m' & fs' & Hupdate & Hsave & _ & Hload).
  exists m', fs'. split_and!; [exact Hupdate | exact Hsave | exact Hload].
Defined.

(** Of the two records of the identifier "a1" the second is kept. *)
Lemma load_last_record_wins_witness :
  twice !! "tasks.json"
    = Some (Document (VDict [("tasks", VList [json_of decimal_isoformat report;
                                              json_of decimal_isoformat revised])])) /\
  Forall filed [("a1", report); ("a1", revised)] /\
  exists m',
    load_from_file decimal_fromisoformat "fresh" 9000 "tasks.json" twice office
      = (Returns true, m') /\
    task_history m' = VList [] /\
    tasks m' !! "a1" = Some revised /\
    tasks m' !! "b2" = None.
Proof.
  assert (twice !! "tasks.json"
          = Some (Document (VDict [("tasks", VList [json_of decimal_isoformat report;
                                                    json_of decimal_isoformat revised])])))
    as Hfile by apply lookup_singleton_eq.
  assert (Forall filed [("a1", report); ("a1", revised)]) as Hl.
  { constructor; [exists report_data; split; reflexivity |].
    constructor; [| constructor]. unfold revised. eexists. split; reflexivity. }
  split_and!; [exact Hfile | exact Hl |].
  destruct (load_last_record_wins decimal_isoformat decimal_fromisoformat
              decimal_fromisoformat_isoformat decimal_isoformat_nonempty
              "fresh" 9000 "tasks.json" _ [("a1", report); ("a1", revised)] office twice
              Hfile) as (m' & Hrun & Hh & Hlast & Hnone); [by vm_compute | exact Hl |].
  exists m'. split_and!; [exact Hrun | exact Hh | |].
  - apply (Hlast [("a1", report)] "a1" revised []); [reflexivity |].
    apply not_elem_of_nil.
  - apply Hnone. change ("b2" ∉ ["a1"; "a1"]). clear.
    intros [H | [H | H]%elem_of_cons]%elem_of_cons;
      [discriminate | discriminate | by apply elem_of_nil in H].
Defined.

(** The file whose second record has no type: the call raises, the
    example manager has lost its history and holds the first record. *)
Lemma load_from_file_not_atomic_witness :
  broken !! "tasks.json"
    = Some (Document (VDict [("tasks", VList [json_of decimal_isoformat report;
                                              VDict []])])) /\
  Forall filed [("a1", report)] /\
  unloadable (VDict []) = Some KeyError /\
  load_from_file decimal_fromisoformat "fresh" 9000 "tasks.json" broken office
    = (Raises KeyError, mkTaskManager (loaded [("a1", report)]) (VList [])).
Proof.
  assert (broken !! "tasks.json"
          = Some (Document (VDict [("tasks", VList [json_of decimal_isoformat report;
                                                    VDict []])])))
    as Hfile by apply lookup_singleton_eq.
  assert (Forall filed [("a1", report)]) as Hl.
  { constructor; [exists report_data; split; reflexivity | constructor]. }
  assert (unloadable (VDict []) = Some KeyError) as Hbad by reflexivity.
  split_and!; [exact Hfile | exact Hl | exact Hbad |].
  apply (load_from_file_not_atomic decimal_isoformat decimal_fromisoformat
           decimal_fromisoformat_isoformat decimal_isoformat_nonempty
           "fresh" 9000 "tasks.json" _ [("a1", report)] (VDict []) [] KeyError office
           broken Hfile); [by vm_compute | exact Hl | exact Hbad].
Defined.

(** The record of the report with the required keys alone, and without
    its title. *)
Lemma load_task_required_keys_witness :
  (load_task decimal_fromisoformat "fresh" 9000
     (required_json decimal_isoformat report_data)).1
    = Returns (Some (task_object (with_defaults report_data))) /\
  (load_task decimal_fromisoformat "fresh" 9000
     (dict_remove "title" (required_json decimal_isoformat report_data))).1
    = Raises KeyError.
Proof.
  destruct (load_task_required_keys decimal_isoformat decimal_fromisoformat
              decimal_fromisoformat_isoformat decimal_isoformat_nonempty
              "fresh" 9000 report_data) as [Hload Hkeys].
  split; [exact Hload |]. apply Hkeys.
  apply list_elem_of_further, list_elem_of_here.
Defined.

(** Records of the type "Note". *)
Lemma load_entry_unknown_type_witness :
  ("Note" ∉ ["SimpleTask"; "ProjectTask"; "RecurringTask"]) /\
  load_entry decimal_fromisoformat "fresh" 9000
    (VDict (dict_store "type" (VStr "Note") (task_json decimal_isoformat report_data)))
    = Returns None /\
  load_entry decimal_fromisoformat "fresh" 9000
    (VDict [("type", VStr "Note"); ("priority", VStr "Top")]) = Raises KeyError /\
  load_entry decimal_fromisoformat "fresh" 9000
    (VDict [("type", VStr "Note"); ("due_date", VStr "soon")]) = Raises ValueError.
Proof.
  assert ("Note" ∉ ["SimpleTask"; "ProjectTask"; "RecurringTask"]) as Hty by set_solver.
  split; [exact Hty |].
  destruct (load_entry_unknown_type decimal_isoformat decimal_fromisoformat
              decimal_fromisoformat_isoformat decimal_isoformat_nonempty
              "fresh" 9000 "Note" report_data Hty) as (Hskip & _ & Hprio & Hdate).
  split_and!; [exact Hskip | by apply Hprio | by apply Hdate].
Defined.


